(** * NBA data cleaning pipeline: a shallow embedding of
      [nba_analytics/data_cleaner.py] and its verified properties.

    Conventions of the embedding.
    - A Python float is an exact rational ([Q]) or one of the three special
      values; rounding and overflow of IEEE doubles are not modelled.
    - A Python [str] is the list of its code points.  The builtins [str],
      [str.strip] and [float] are those of CPython 3.11 with its defaults:
      blanks and decimal digits are those of Unicode 14.0, and an int of
      more than 4300 digits is not turned into text.
    - A pandas cell of a float64 column is [option Q], [None] being NaN.
    - A Python exception is a value of [exn]; code that may raise returns
      [Res].
    - Logging has no effect on the values computed and is left out. *)

From Stdlib Require Import List String Ascii Bool Arith ZArith QArith Lia Lqa.
From Stdlib Require Import Qabs NArith Nnat.
Import ListNotations.

Set Implicit Arguments.

(* ================================================================== *)
(** * Part I. Definitions                                              *)
(* ================================================================== *)

(** ** Exceptions and the error monad *)

Inductive exn : Type :=
| ValueError (msg : string)
| TypeError (msg : string)
| IndexError (msg : string)
| KeyError (key : string).

Inductive Res (A : Type) : Type :=
| Ok (a : A)
| Raise (e : exn).

Arguments Ok {A} a.
Arguments Raise {A} e.

Definition res_bind {A B} (r : Res A) (k : A -> Res B) : Res B :=
  match r with
  | Ok a => k a
  | Raise e => Raise e
  end.

Declare Scope res_scope.
Delimit Scope res_scope with res.
Notation "x <- c ;; k" := (res_bind c (fun x => k))
  (at level 61, c at next level, right associativity) : res_scope.
Notation "c ;;; k" := (res_bind c (fun _ => k))
  (at level 61, right associativity) : res_scope.

(** ** Python floats *)

Inductive pyfloat : Type :=
| Fnan
| Finf (negative : bool)
| Ffin (q : Q).

Definition fzero : pyfloat := Ffin 0.

(** [a + b] on floats. *)
Definition fadd (a b : pyfloat) : pyfloat :=
  match a, b with
  | Fnan, _ | _, Fnan => Fnan
  | Finf s, Finf t => if Bool.eqb s t then Finf s else Fnan
  | Finf s, Ffin _ => Finf s
  | Ffin _, Finf t => Finf t
  | Ffin x, Ffin y => Ffin (x + y)
  end.

(** [a / 60]. *)
Definition fdiv60 (a : pyfloat) : pyfloat :=
  match a with
  | Fnan => Fnan
  | Finf s => Finf s
  | Ffin x => Ffin (x / 60)
  end.

(** Equality of floats as numbers (nan is no number). *)
Definition feq (a b : pyfloat) : Prop :=
  match a, b with
  | Ffin x, Ffin y => x == y
  | Finf s, Finf t => s = t
  | _, _ => False
  end.

(** [0 <= a] as Python evaluates it: false on nan. *)
Definition fnonneg (a : pyfloat) : Prop :=
  match a with
  | Fnan => False
  | Finf s => s = false
  | Ffin x => 0 <= x
  end.

(** ** Python strings as lists of code points *)

Module PyStr.

(** A character is its code point and a [str] the list of its characters. *)
Definition chars := list N.

(** The code point of a character of a literal. *)
Definition chr (a : ascii) : N := N_of_ascii a.

(** The text of a literal, one code point for each of its characters. *)
Definition text (s : string) : chars := map chr (list_ascii_of_string s).

(** [c.isspace()] for one character: tab to carriage return, the
    separators 0x1c-0x1f, the space, and the blanks beyond ASCII (NEL,
    no-break space, Ogham space mark, en quad to hair space, the line and
    paragraph separators, narrow no-break space, medium mathematical space
    and ideographic space). *)
Definition is_space (c : N) : bool :=
  ((9 <=? c) && (c <=? 13) || (28 <=? c) && (c <=? 32)
   || (c =? 133) || (c =? 160) || (c =? 5760)
   || (8192 <=? c) && (c <=? 8202)
   || (c =? 8232) || (c =? 8233) || (c =? 8239) || (c =? 8287)
   || (c =? 12288))%N.

Section Strip.

(** The characters that count as blank. *)
Variable blank : N -> bool.

Fixpoint lstrip_by (l : chars) : chars :=
  match l with
  | [] => []
  | c :: l' => if blank c then lstrip_by l' else l
  end.

Fixpoint rstrip_by (l : chars) : chars :=
  match l with
  | [] => []
  | c :: l' =>
      match rstrip_by l' with
      | [] => if blank c then [] else [c]
      | r => c :: r
      end
  end.

Definition strip_by (l : chars) : chars := rstrip_by (lstrip_by l).

End Strip.

Definition lstrip : chars -> chars := lstrip_by is_space.
Definition rstrip : chars -> chars := rstrip_by is_space.

(** [s.strip()] *)
Definition strip : chars -> chars := strip_by is_space.

Definition is_colon (c : N) : bool := (c =? chr ":")%N.

(** [':' in s] *)
Definition has_colon (l : chars) : bool := existsb is_colon l.

(** [s.split(':')]: never the empty list. *)
Fixpoint split_colon (l : chars) : list chars :=
  match l with
  | [] => [[]]
  | c :: l' =>
      if is_colon c then [] :: split_colon l'
      else match split_colon l' with
           | p :: ps => (c :: p) :: ps
           | [] => [[c]]
           end
  end.

(** The ten ASCII digits. *)
Definition is_digit (c : N) : bool := ((48 <=? c) && (c <=? 57))%N.

Definition digit_val (c : N) : Z := Z.of_N (c - 48).

(** The lower-case form of an ASCII letter. *)
Definition to_lower (c : N) : N :=
  if ((65 <=? c) && (c <=? 90))%N then (c + 32)%N else c.

Fixpoint chars_eqb (a b : chars) : bool :=
  match a, b with
  | [], [] => true
  | x :: a', y :: b' => (x =? y)%N && chars_eqb a' b'
  | _, _ => false
  end.

(** The decimal digits of a natural number, most significant first;
    [fuel] bounds the number of digits. *)
Fixpoint digits_of (fuel : nat) (n : N) (acc : chars) : chars :=
  let acc' := (48 + n mod 10)%N :: acc in
  match fuel with
  | O => acc'
  | S fuel' =>
      if (n / 10 =? 0)%N then acc' else digits_of fuel' (n / 10) acc'
  end.

(** [sys.int_info.default_max_str_digits]: the longest int, in digits,
    that the interpreter turns into text. *)
Definition int_max_str_digits : nat := 4300.

Definition exceeds_limit : exn :=
  ValueError "Exceeds the limit (4300 digits) for integer string conversion".

(** [str(z)] for an int: a ValueError when [z] has more digits than the
    limit, the sign not counted. *)
Definition str_of_int (z : Z) : Res chars :=
  let body := digits_of (N.size_nat (Z.abs_N z)) (Z.abs_N z) [] in
  if (int_max_str_digits <? List.length body)%nat then Raise exceeds_limit
  else Ok (if (z <? 0)%Z then chr "-" :: body else body).

End PyStr.

(** ** [float(s)] on a string

    [float] first turns the text into ASCII, then drops the blanks of the C
    locale at both ends, and reads what is left by the grammar of the Python
    reference: [sign? (infinity | nan | number exponent?)], where
    [digitpart ::= digit (["_"] digit)*],
    [number ::= digitpart? "." digitpart | digitpart "."?] and
    [exponent ::= ("e"|"E") sign? digitpart]; letters in either case. *)

Module PyFloatParse.
Import PyStr.

(** [Py_ISSPACE]: the blanks of the C locale. *)
Definition is_c_space (c : N) : bool :=
  ((9 <=? c) && (c <=? 13) || (c =? 32))%N.

(** The digit zero of every decimal script of Unicode 14.0; the nine code
    points after a zero are the digits one to nine of its script. *)
Definition decimal_zeros : list N :=
  [48; 1632; 1776; 1984; 2406; 2534; 2662; 2790; 2918; 3046; 3174; 3302;
   3430; 3558; 3664; 3792; 3872; 4160; 4240; 6112; 6160; 6470; 6608; 6784;
   6800; 6992; 7088; 7232; 7248; 42528; 43216; 43264; 43472; 43504; 43600;
   44016; 65296; 66720; 68912; 69734; 69872; 69942; 70096; 70384; 70736;
   70864; 71248; 71360; 71472; 71904; 72016; 72784; 73040; 73120; 92768;
   92864; 93008; 120782; 120792; 120802; 120812; 120822; 123200; 123632;
   125264; 130032]%N.

(** [Py_UNICODE_TODECIMAL]: the value of a decimal digit. *)
Definition to_decimal (c : N) : option N :=
  option_map (fun z => (c - z)%N)
             (find (fun z => ((z <=? c) && (c <? z + 10))%N) decimal_zeros).

(** The loop of [_PyUnicode_TransformDecimalAndSpaceToASCII]: a character
    below 127 stays, a blank becomes a space, a decimal digit its ASCII
    digit; at any other character the text ends in a question mark. *)
Fixpoint ascii_loop (s : chars) : chars :=
  match s with
  | [] => []
  | ch :: s' =>
      if (ch <? 127)%N then ch :: ascii_loop s'
      else if is_space ch then chr " " :: ascii_loop s'
      else match to_decimal ch with
           | Some decimal => (chr "0" + decimal)%N :: ascii_loop s'
           | None => [chr "?"]
           end
  end.

Definition is_ascii (s : chars) : bool := forallb (fun c => (c <? 128)%N) s.

(** [_PyUnicode_TransformDecimalAndSpaceToASCII]: a text of ASCII
    characters is returned as it is. *)
Definition transform_decimal_and_space_to_ascii (s : chars) : chars :=
  if is_ascii s then s else ascii_loop s.

(** The continuation [(["_"] digit)*] of a digit part: the digits read
    and what follows them. *)
Fixpoint scan_digits (l : chars) : chars * chars :=
  match l with
  | [] => ([], [])
  | c :: l' =>
      if is_digit c then
        let (ds, r) := scan_digits l' in (c :: ds, r)
      else if (c =? chr "_")%N then
        match l' with
        | d :: l'' =>
            if is_digit d then
              let (ds, r) := scan_digits l'' in (d :: ds, r)
            else ([], l)
        | [] => ([], l)
        end
      else ([], l)
  end.

Definition digitpart (l : chars) : option (chars * chars) :=
  match l with
  | c :: l' =>
      if is_digit c then
        let (ds, r) := scan_digits l' in Some (c :: ds, r)
      else None
  | [] => None
  end.

(** Integer digits, fraction digits and the rest. *)
Definition number (l : chars) : option (chars * chars * chars) :=
  match digitpart l with
  | Some (ip, r) =>
      match r with
      | c :: r' =>
          if (c =? chr ".")%N then
            match digitpart r' with
            | Some (fp, r'') => Some (ip, fp, r'')
            | None => Some (ip, [], r')
            end
          else Some (ip, [], r)
      | [] => Some (ip, [], [])
      end
  | None =>
      match l with
      | c :: r' =>
          if (c =? chr ".")%N then
            match digitpart r' with
            | Some (fp, r'') => Some ([], fp, r'')
            | None => None
            end
          else None
      | [] => None
      end
  end.

Definition split_sign (l : chars) : bool * chars :=
  match l with
  | c :: l' =>
      if (c =? chr "-")%N then (true, l')
      else if (c =? chr "+")%N then (false, l')
      else (false, l)
  | [] => (false, [])
  end.

Definition digits_value (ds : chars) : Z :=
  fold_left (fun a d => (10 * a + digit_val d)%Z) ds 0%Z.

(** The exponent, which must reach the end of the string. *)
Definition exponent (l : chars) : option Z :=
  match l with
  | [] => Some 0%Z
  | c :: l' =>
      if (to_lower c =? chr "e")%N then
        let (neg, r) := split_sign l' in
        match digitpart r with
        | Some (ds, []) =>
            let e := digits_value ds in
            Some (if neg then (- e)%Z else e)
        | _ => None
        end
      else None
  end.

Definition could_not_convert : exn :=
  ValueError "could not convert string to float".

(** The text between the blanks, read whole. *)
Definition parse_float (t : chars) : Res pyfloat :=
  let (neg, body) := split_sign t in
  let low := map to_lower body in
  if chars_eqb low (text "inf") || chars_eqb low (text "infinity")
  then Ok (Finf neg)
  else if chars_eqb low (text "nan") then Ok Fnan
  else
    match number body with
    | Some (ip, fp, r) =>
        match exponent r with
        | Some e =>
            let m := digits_value (ip ++ fp) in
            let scale := (e - Z.of_nat (List.length fp))%Z in
            let v := (inject_Z m * Qpower 10 scale)%Q in
            Ok (Ffin (if neg then - v else v))
        | None => Raise could_not_convert
        end
    | None => Raise could_not_convert
    end.

(** [float(s)] *)
Definition float_of_str (s : chars) : Res pyfloat :=
  parse_float (strip_by is_c_space (transform_decimal_and_space_to_ascii s)).

End PyFloatParse.

(** ** MinutesConverter *)

(** The values [convert_to_decimal] is called on: [None], a float (nan
    included), an int, or a string. *)
Inductive pyval : Type :=
| PNone
| PFloat (f : pyfloat)
| PInt (z : Z)
| PStr (s : PyStr.chars).

Module MinutesConverter.
Import PyStr PyFloatParse.

(** [pd.isna(minutes_value)] *)
Definition isna (v : pyval) : bool :=
  match v with
  | PNone => true
  | PFloat Fnan => true
  | _ => false
  end.

(** [minutes_value == ''] *)
Definition is_empty_str (v : pyval) : bool :=
  match v with
  | PStr [] => true
  | _ => false
  end.

(** [parts[i]] *)
Definition index (parts : list chars) (i : nat) : Res chars :=
  match nth_error parts i with
  | Some p => Ok p
  | None => Raise (IndexError "list index out of range")
  end.

(** The body of the [try], for the stripped text of the value. *)
Definition parse_minutes (minutes_str : chars) : Res pyfloat :=
  if has_colon minutes_str then
    let parts := split_colon minutes_str in
    (p0 <- index parts 0 ;;
     minutes <- float_of_str p0 ;;
     seconds <- (if (1 <? List.length parts)%nat
                 then (p1 <- index parts 1 ;; float_of_str p1)
                 else Ok fzero) ;;
     Ok (fadd minutes (fdiv60 seconds)))%res
  else float_of_str minutes_str.

(** The [try] with its handler [except (ValueError, IndexError)]; any
    other exception goes on to the caller. *)
Definition try_parse (minutes_str : chars) : Res pyfloat :=
  match parse_minutes minutes_str with
  | Ok f => Ok f
  | Raise (ValueError _) | Raise (IndexError _) => Ok fzero
  | Raise e => Raise e
  end.

(** [MinutesConverter.convert_to_decimal].  [str(minutes_value)] is
    outside the [try], so what it raises reaches the caller.  For a float
    argument [str] is its [repr], which contains no colon and which [float]
    reads back to the same float. *)
Definition convert_to_decimal (minutes_value : pyval) : Res pyfloat :=
  if isna minutes_value || is_empty_str minutes_value then Ok fzero
  else
    match minutes_value with
    | PNone => Ok fzero
    | PFloat f => Ok f
    | PInt z => (s <- str_of_int z ;; try_parse (strip s))%res
    | PStr s => try_parse (strip s)
    end.

End MinutesConverter.

(** ** Tables

    A pandas Series is a typed column; a DataFrame is the ordered list of
    its named columns.  Columns that the code reads as numbers (statistics,
    minutes, percentages) are float64 columns in this embedding: reading a
    column of another dtype as numbers ends with [TypeError]. *)

Definition cell : Type := option Q.

Inductive Series : Type :=
| Floats (xs : list cell)
| Objects (xs : list (option string))
| Bools (xs : list bool).

Definition DataFrame : Type := list (string * Series).

Definition Qltb (x y : Q) : bool := negb (Qle_bool y x).

Module Cell.

(** [a > b], [a < b], [a == b]: false when either side is NaN. *)
Definition gt (a b : cell) : bool :=
  match a, b with
  | Some x, Some y => Qltb y x
  | _, _ => false
  end.

Definition lt (a b : cell) : bool := gt b a.

Definition eq (a b : cell) : bool :=
  match a, b with
  | Some x, Some y => Qeq_bool x y
  | _, _ => false
  end.

Definition lift2 (f : Q -> Q -> Q) (a b : cell) : cell :=
  match a, b with
  | Some x, Some y => Some (f x y)
  | _, _ => None
  end.

Definition add : cell -> cell -> cell := lift2 Qplus.
Definition sub : cell -> cell -> cell := lift2 Qminus.
Definition mul : cell -> cell -> cell := lift2 Qmult.
Definition div : cell -> cell -> cell := lift2 Qdiv.
Definition abs (a : cell) : cell := option_map Qabs a.

Definition isna (a : cell) : bool :=
  match a with
  | None => true
  | Some _ => false
  end.

(** [fillna(v)] on one cell. *)
Definition fillna (v : Q) (a : cell) : cell :=
  match a with
  | None => Some v
  | Some _ => a
  end.

(** Python's [min(a, b)] and [max(a, b)]: the first argument unless the
    second is strictly smaller (larger). *)
Definition pymin (a b : Q) : Q := if Qltb b a then b else a.
Definition pymax (a b : Q) : Q := if Qltb a b then b else a.

(** [Series.clip(lower, upper)] on one cell: a NaN bound does not clip,
    two given bounds are put in order first, a NaN cell stays NaN. *)
Definition clip (lower upper : cell) (x : cell) : cell :=
  let (lo, hi) :=
    match lower, upper with
    | Some l, Some u => (Some (pymin l u), Some (pymax l u))
    | _, _ => (lower, upper)
    end in
  match x with
  | None => None
  | Some v =>
      let v1 := match lo with
                | Some l => if Qltb v l then l else v
                | None => v
                end in
      Some (match hi with
            | Some u => if Qltb u v1 then u else v1
            | None => v1
            end)
  end.

End Cell.

Module DF.

(** [X.columns] *)
Definition columns (X : DataFrame) : list string := map fst X.

(** [X[col]] when the column exists. *)
Fixpoint get (X : DataFrame) (col : string) : option Series :=
  match X with
  | [] => None
  | (c, s) :: X' => if String.eqb c col then Some s else get X' col
  end.

(** [col in X.columns] *)
Definition has (X : DataFrame) (col : string) : bool :=
  match get X col with
  | Some _ => true
  | None => false
  end.

(** [X[col] = s]: replaces the column where it stands, or appends it. *)
Fixpoint set (X : DataFrame) (col : string) (s : Series) : DataFrame :=
  match X with
  | [] => [(col, s)]
  | (c, v) :: X' =>
      if String.eqb c col then (c, s) :: X' else (c, v) :: set X' col s
  end.

Definition series_len (s : Series) : nat :=
  match s with
  | Floats xs => List.length xs
  | Objects xs => List.length xs
  | Bools xs => List.length xs
  end.

(** [len(X)] *)
Definition nrows (X : DataFrame) : nat :=
  match X with
  | [] => 0%nat
  | (_, s) :: _ => series_len s
  end.

(** [X.shape] *)
Definition shape (X : DataFrame) : nat * nat := (nrows X, List.length X).

(** [X.copy()]: a table value is its own copy. *)
Definition copy (X : DataFrame) : DataFrame := X.

Fixpoint keep {A} (mask : list bool) (xs : list A) : list A :=
  match mask, xs with
  | m :: mask', x :: xs' => if m then x :: keep mask' xs' else keep mask' xs'
  | _, _ => []
  end.

Definition series_keep (mask : list bool) (s : Series) : Series :=
  match s with
  | Floats xs => Floats (keep mask xs)
  | Objects xs => Objects (keep mask xs)
  | Bools xs => Bools (keep mask xs)
  end.

(** [X[mask]]: the rows where the mask holds. *)
Definition select (mask : list bool) (X : DataFrame) : DataFrame :=
  map (fun cs => (fst cs, series_keep mask (snd cs))) X.

Definition series_nulls (s : Series) : nat :=
  match s with
  | Floats xs => List.length (filter Cell.isna xs)
  | Objects xs =>
      List.length
        (filter (fun o => match o with None => true | Some _ => false end) xs)
  | Bools _ => 0%nat
  end.

(** [X.isnull().sum().sum()] *)
Definition isnull_total (X : DataFrame) : nat :=
  fold_right (fun cs n => (series_nulls (snd cs) + n)%nat) 0%nat X.

Definition key_error (col : string) : exn := KeyError col.

(** [X[col]] read as numbers. *)
Definition floats (X : DataFrame) (col : string) : Res (list cell) :=
  match get X col with
  | Some (Floats xs) => Ok xs
  | Some _ => Raise (TypeError "column is not float64")
  | None => Raise (key_error col)
  end.

(** Element-wise combination of two aligned columns. *)
Fixpoint map2 {A B C} (f : A -> B -> C) (l1 : list A) (l2 : list B)
  : list C :=
  match l1, l2 with
  | a :: l1', b :: l2' => f a b :: map2 f l1' l2'
  | _, _ => []
  end.

(** [X.loc[mask, col] = new]: the cells of [old] under the mask take the
    aligned cell of [new]. *)
Fixpoint loc_assign {A} (mask : list bool) (new old : list A) : list A :=
  match old, mask, new with
  | o :: old', m :: mask', n :: new' =>
      (if m then n else o) :: loc_assign mask' new' old'
  | _, _, _ => old
  end.

(** [X.loc[mask, col] = v] for a scalar. *)
Fixpoint loc_assign_scalar {A} (mask : list bool) (v : A) (old : list A)
  : list A :=
  match old, mask with
  | o :: old', m :: mask' =>
      (if m then v else o) :: loc_assign_scalar mask' v old'
  | _, _ => old
  end.

(** [mask.any()] *)
Definition any (mask : list bool) : bool := existsb (fun b => b) mask.

End DF.

(** Loops over a Python list whose body may raise. *)
Fixpoint foldM {A B} (f : B -> A -> Res B) (l : list A) (b : B) : Res B :=
  match l with
  | [] => Ok b
  | a :: l' => res_bind (f b a) (foldM f l')
  end.

(** ** Methods on objects

    A method runs on the attributes of [self], may change them, and returns
    or raises; attributes written before a [raise] stay written. *)

Definition Meth (S A : Type) : Type := S -> Res A * S.

Definition mret {S A} (a : A) : Meth S A := fun s => (Ok a, s).

Definition mbind {S A B} (m : Meth S A) (k : A -> Meth S B) : Meth S B :=
  fun s =>
    match m s with
    | (Ok a, s') => k a s'
    | (Raise e, s') => (Raise e, s')
    end.

Definition mget {S} : Meth S S := fun s => (Ok s, s).
Definition mput {S} (s' : S) : Meth S unit := fun _ => (Ok tt, s').
Definition mraise {S A} (e : exn) : Meth S A := fun s => (Raise e, s).
Definition mlift {S A} (r : Res A) : Meth S A := fun s => (r, s).

Declare Scope meth_scope.
Delimit Scope meth_scope with meth.
Notation "x <- c ;; k" := (mbind c (fun x => k))
  (at level 61, c at next level, right associativity) : meth_scope.
Notation "c ;;; k" := (mbind c (fun _ => k))
  (at level 61, right associativity) : meth_scope.

Fixpoint forM_ {S A} (l : list A) (body : A -> Meth S unit) : Meth S unit :=
  match l with
  | [] => mret tt
  | a :: l' => mbind (body a) (fun _ => forM_ l' body)
  end.

(** ** CleaningConfig

    The two string options are enumerations here: [__post_init__] refuses
    every other string. *)

Inductive OutlierMethod : Type := Iqr | Zscore.
Inductive OutlierAction : Type := ActFlag | ActCap | ActRemove.

Record CleaningConfig : Type := mkConfig {
  max_minutes_per_game : Q;
  max_reasonable_points : Z;
  max_reasonable_rebounds : Z;
  max_reasonable_assists : Z;
  fill_counting_stats_with_zero : bool;
  drop_threshold_missing_pct : Q;
  outlier_method : OutlierMethod;
  outlier_threshold : Q;
  outlier_action : OutlierAction;
  standardize_positions : bool;
  create_full_names : bool;
  strict_validation : bool;
  auto_fix_inconsistencies : bool;
  default_first_game_rest : Z
}.

Definition default_config : CleaningConfig :=
  {| max_minutes_per_game := 60;
     max_reasonable_points := 100;
     max_reasonable_rebounds := 30;
     max_reasonable_assists := 25;
     fill_counting_stats_with_zero := true;
     drop_threshold_missing_pct := 95;
     outlier_method := Iqr;
     outlier_threshold := 3;
     outlier_action := ActFlag;
     standardize_positions := true;
     create_full_names := true;
     strict_validation := true;
     auto_fix_inconsistencies := true;
     default_first_game_rest := 7 |}.

(** ** BaseNBATransformer *)

(** The attributes every stage has.  [required_columns_] is [None] while
    the object has no such attribute ([hasattr] is false). *)
Record BaseNBATransformer : Type := mkBase {
  config : CleaningConfig;
  verbose : bool;
  feature_names_in_ : option (list string);
  n_features_in_ : option nat;
  is_fitted_ : bool;
  required_columns_ : option (list string)
}.

Module Base.

(** [__init__] *)
Definition init (cfg : CleaningConfig) (verb : bool) : BaseNBATransformer :=
  {| config := cfg;
     verbose := verb;
     feature_names_in_ := None;
     n_features_in_ := None;
     is_fitted_ := false;
     required_columns_ := None |}.

Definition missing_required : exn := ValueError "Missing required columns".
Definition not_fitted : exn :=
  ValueError "Transformer must be fitted before transform".

(** [set(self.required_columns_) - set(X.columns)] *)
Definition missing_cols (required : list string) (X : DataFrame)
  : list string :=
  filter (fun c => negb (DF.has X c)) required.

Definition nonempty {A} (l : list A) : bool :=
  match l with
  | [] => false
  | _ :: _ => true
  end.

(** The methods of the base class, for a subclass [Self] that holds the
    inherited attributes and implements [_transform_impl]. *)
Section Inherited.
Variable Self : Type.
Variable base : Self -> BaseNBATransformer.
Variable set_base : BaseNBATransformer -> Self -> Self.
Variable _transform_impl : Self -> DataFrame -> Res DataFrame.

(** [_validate_input]; the argument is a DataFrame by its type. *)
Definition _validate_input (X : DataFrame) : Meth Self DataFrame :=
  (self <- mget ;;
   if is_fitted_ (base self) then
     match required_columns_ (base self) with
     | Some required =>
         if nonempty (missing_cols required X)
            && strict_validation (config (base self))
         then mraise missing_required
         else mret (DF.copy X)
     | None => mret (DF.copy X)
     end
   else mret (DF.copy X))%meth.

(** [_store_input_info] *)
Definition _store_input_info (X : DataFrame) : Meth Self unit :=
  (self <- mget ;;
   let b := base self in
   mput (set_base
           {| config := config b;
              verbose := verbose b;
              feature_names_in_ := Some (DF.columns X);
              n_features_in_ := Some (List.length (DF.columns X));
              is_fitted_ := true;
              required_columns_ := required_columns_ b |} self))%meth.

(** [fit] *)
Definition fit (X : DataFrame) : Meth Self unit :=
  (X' <- _validate_input X ;;
   _store_input_info X')%meth.

(** [transform] *)
Definition transform (X : DataFrame) : Meth Self DataFrame :=
  (self <- mget ;;
   if negb (is_fitted_ (base self)) then mraise not_fitted
   else
     X' <- _validate_input X ;;
     self' <- mget ;;
     mlift (_transform_impl self' X'))%meth.

(** [fit_transform] *)
Definition fit_transform (X : DataFrame) : Meth Self DataFrame :=
  (fit X ;;; transform X)%meth.

End Inherited.

End Base.

(** ** MissingValueHandler *)

Module MissingValueHandler.

Definition percentage_mappings : list (string * string * string) :=
  [("fg_pct", "fga", "fgm"); ("fg3_pct", "fg3a", "fg3m");
   ("ft_pct", "fta", "ftm")]%string.

Definition counting_stats : list string :=
  ["fgm"; "fga"; "fg3m"; "fg3a"; "ftm"; "fta"; "oreb"; "dreb"; "reb";
   "ast"; "stl"; "blk"; "turnover"; "pf"; "pts"]%string.

(** The body of the loop over [percentage_mappings]. *)
Definition fill_percentage (X : DataFrame) (m : string * string * string)
  : Res DataFrame :=
  let '(pct_col, attempt_col, made_col) := m in
  if DF.has X pct_col && DF.has X attempt_col then
    (att <- DF.floats X attempt_col ;;
     pct <- DF.floats X pct_col ;;
     let zero_attempts_mask :=
       DF.map2 andb (map (fun a => Cell.eq a (Some 0)) att)
               (map Cell.isna pct) in
     let X1 :=
       DF.set X pct_col
              (Floats (DF.loc_assign_scalar zero_attempts_mask (Some 0) pct)) in
     if DF.has X1 made_col then
       pct1 <- DF.floats X1 pct_col ;;
       att1 <- DF.floats X1 attempt_col ;;
       let missing_pct_mask :=
         DF.map2 andb (map Cell.isna pct1)
                 (map (fun a => Cell.gt a (Some 0)) att1) in
       if DF.any missing_pct_mask then
         made <- DF.floats X1 made_col ;;
         Ok (DF.set X1 pct_col
               (Floats (DF.loc_assign missing_pct_mask
                          (DF.map2 Cell.div made att1) pct1)))
       else Ok X1
     else Ok X1)%res
  else Ok X.

(** The body of the loop over [counting_stats]. *)
Definition fill_counting (X : DataFrame) (col : string) : Res DataFrame :=
  if DF.has X col then
    (xs <- DF.floats X col ;;
     if (0 <? List.length (filter Cell.isna xs))%nat
     then Ok (DF.set X col (Floats (map (Cell.fillna 0) xs)))
     else Ok X)%res
  else Ok X.

Definition fill_minutes (X : DataFrame) : Res DataFrame :=
  if DF.has X "minutes_played" then
    (xs <- DF.floats X "minutes_played" ;;
     Ok (DF.set X "minutes_played" (Floats (map (Cell.fillna 0) xs))))%res
  else Ok X.

(** [MissingValueHandler._transform_impl] *)
Definition _transform_impl (self : BaseNBATransformer) (X : DataFrame)
  : Res DataFrame :=
  (X1 <- foldM fill_percentage percentage_mappings X ;;
   X2 <- (if fill_counting_stats_with_zero (config self)
          then foldM fill_counting counting_stats X1
          else Ok X1) ;;
   fill_minutes X2)%res.

Definition transform : DataFrame -> Meth BaseNBATransformer DataFrame :=
  Base.transform (fun b => b) _transform_impl.

Definition fit : DataFrame -> Meth BaseNBATransformer unit :=
  Base.fit (fun b => b) (fun b _ => b).

End MissingValueHandler.

(** ** DataValidator *)

Module DataValidator.

Definition shot_checks : list (string * string) :=
  [("fgm", "fga"); ("fg3m", "fg3a"); ("ftm", "fta")]%string.

Definition pct_columns : list string := ["fg_pct"; "fg3_pct"; "ft_pct"]%string.

Definition tolerance : Q := 1 # 10.

(** Minutes above the maximum are set to the maximum. *)
Definition check_minutes (cfg : CleaningConfig) (X : DataFrame)
  : Res DataFrame :=
  if DF.has X "minutes_played" then
    (mins <- DF.floats X "minutes_played" ;;
     let mask :=
       map (fun m => Cell.gt m (Some (max_minutes_per_game cfg))) mins in
     if DF.any mask then
       if auto_fix_inconsistencies cfg then
         Ok (DF.set X "minutes_played"
               (Floats (DF.loc_assign_scalar mask
                          (Some (max_minutes_per_game cfg)) mins)))
       else Ok X
     else Ok X)%res
  else Ok X.

(** The body of the loop over [shot_checks]. *)
Definition check_shots (cfg : CleaningConfig) (X : DataFrame)
           (p : string * string) : Res DataFrame :=
  let (made_col, attempt_col) := p in
  if DF.has X made_col && DF.has X attempt_col then
    (made <- DF.floats X made_col ;;
     att <- DF.floats X attempt_col ;;
     let mask := DF.map2 Cell.gt made att in
     if DF.any mask then
       if auto_fix_inconsistencies cfg then
         Ok (DF.set X made_col (Floats (DF.loc_assign mask att made)))
       else Ok X
     else Ok X)%res
  else Ok X.

(** [abs(X['reb'] - calculated_reb) > 0.1], row by row. *)
Definition reb_mismatch (reb calculated_reb : list cell) : list bool :=
  DF.map2 (fun r c => Cell.gt (Cell.abs (Cell.sub r c)) (Some tolerance))
          reb calculated_reb.

Definition check_rebounds (cfg : CleaningConfig) (X : DataFrame)
  : Res DataFrame :=
  if DF.has X "reb" && DF.has X "oreb" && DF.has X "dreb" then
    (oreb <- DF.floats X "oreb" ;;
     dreb <- DF.floats X "dreb" ;;
     let calculated_reb := DF.map2 Cell.add oreb dreb in
     reb <- DF.floats X "reb" ;;
     if DF.any (reb_mismatch reb calculated_reb) then
       if auto_fix_inconsistencies cfg then
         Ok (DF.set X "reb" (Floats calculated_reb))
       else Ok X
     else Ok X)%res
  else Ok X.

(** The body of the loop over [pct_columns]. *)
Definition check_pct (cfg : CleaningConfig) (X : DataFrame) (col : string)
  : Res DataFrame :=
  if DF.has X col then
    (xs <- DF.floats X col ;;
     let mask :=
       map (fun x => Cell.lt x (Some 0) || Cell.gt x (Some 1)) xs in
     if DF.any mask then
       if auto_fix_inconsistencies cfg then
         Ok (DF.set X col (Floats (map (Cell.clip (Some 0) (Some 1)) xs)))
       else Ok X
     else Ok X)%res
  else Ok X.

Definition sanity_checks (cfg : CleaningConfig) : list (string * Z) :=
  [("pts", max_reasonable_points cfg);
   ("reb", max_reasonable_rebounds cfg);
   ("ast", max_reasonable_assists cfg)]%string.

(** The body of the loop over [sanity_checks]: the column is compared with
    its ceiling and the count is only reported. *)
Definition check_extreme (X : DataFrame) (c : string * Z) : Res DataFrame :=
  let (col, max_val) := c in
  if DF.has X col then
    (xs <- DF.floats X col ;;
     let extreme := map (fun x => Cell.gt x (Some (inject_Z max_val))) xs in
     Ok X)%res
  else Ok X.

(** [DataValidator._transform_impl] *)
Definition _transform_impl (self : BaseNBATransformer) (X : DataFrame)
  : Res DataFrame :=
  let cfg := config self in
  (X1 <- check_minutes cfg X ;;
   X2 <- foldM (check_shots cfg) shot_checks X1 ;;
   X3 <- check_rebounds cfg X2 ;;
   X4 <- foldM (check_pct cfg) pct_columns X3 ;;
   foldM check_extreme (sanity_checks cfg) X4)%res.

Definition transform : DataFrame -> Meth BaseNBATransformer DataFrame :=
  Base.transform (fun b => b) _transform_impl.

Definition fit : DataFrame -> Meth BaseNBATransformer unit :=
  Base.fit (fun b => b) (fun b _ => b).

End DataValidator.

(** ** OutlierDetector *)

(** [Dict[str, Tuple[float, float]]]: keys in insertion order. *)
Definition Bounds : Type := (cell * cell)%type.
Definition BoundsDict : Type := list (string * Bounds).

Record OutlierDetector : Type := mkOutlier {
  od_base : BaseNBATransformer;
  outlier_bounds_ : BoundsDict
}.

Module Stats.

Fixpoint insert (x : Q) (l : list Q) : list Q :=
  match l with
  | [] => [x]
  | y :: l' => if Qle_bool x y then x :: l else y :: insert x l'
  end.

Definition sort (l : list Q) : list Q := fold_right insert [] l.

(** [series.dropna()] *)
Fixpoint dropna (xs : list cell) : list Q :=
  match xs with
  | [] => []
  | Some x :: xs' => x :: dropna xs'
  | None :: xs' => dropna xs'
  end.

(** [series.quantile(k/4)] with linear interpolation between the two
    nearest order statistics; NaN on an empty series. *)
Definition quantile (k : nat) (xs : list Q) : cell :=
  let s := sort xs in
  match List.length s with
  | O => None
  | S m =>
      let p := (k * m)%nat in
      let i := (p / 4)%nat in
      let g := inject_Z (Z.of_nat (p mod 4)) / 4 in
      let a := nth i s 0 in
      let b := nth (Nat.min (i + 1) m) s 0 in
      Some (a + (b - a) * g)
  end.

Definition sum (xs : list Q) : Q := fold_right Qplus 0 xs.

(** [series.mean()] *)
Definition mean (xs : list Q) : cell :=
  match xs with
  | [] => None
  | _ :: _ => Some (sum xs / inject_Z (Z.of_nat (List.length xs)))
  end.

(** [series.std()] (one degree of freedom removed), for a given square
    root function. *)
Definition std (sqrt : Q -> Q) (xs : list Q) : cell :=
  match xs with
  | [] | [_] => None
  | _ :: _ :: _ =>
      let n := inject_Z (Z.of_nat (List.length xs)) in
      let mu := sum xs / n in
      Some (sqrt (sum (map (fun x => (x - mu) * (x - mu)) xs) / (n - 1)))
  end.

End Stats.

Module OutlierDetector.

(** [__init__] *)
Definition init (cfg : CleaningConfig) (verb : bool) : OutlierDetector :=
  {| od_base := Base.init cfg verb; outlier_bounds_ := [] |}.

Definition set_base (b : BaseNBATransformer) (self : OutlierDetector)
  : OutlierDetector :=
  {| od_base := b; outlier_bounds_ := outlier_bounds_ self |}.

Definition outlier_columns : list string :=
  ["pts"; "reb"; "ast"; "minutes_played"; "fga"; "fg3a"]%string.

Definition flag_suffix : string := "_outlier_flag".

(** [d[key] = value] *)
Fixpoint dict_set (d : BoundsDict) (key : string) (v : Bounds)
  : BoundsDict :=
  match d with
  | [] => [(key, v)]
  | (k, w) :: d' =>
      if String.eqb k key then (k, v) :: d' else (k, w) :: dict_set d' key v
  end.

Fixpoint dict_get (d : BoundsDict) (key : string) : option Bounds :=
  match d with
  | [] => None
  | (k, w) :: d' => if String.eqb k key then Some w else dict_get d' key
  end.

Section WithSqrt.
(** The square root of the numeric library. *)
Variable sqrt : Q -> Q.

(** [_calculate_outlier_bounds] *)
Definition _calculate_outlier_bounds (cfg : CleaningConfig)
           (series : list Q) : Bounds :=
  let k := Some (outlier_threshold cfg) in
  match outlier_method cfg with
  | Iqr =>
      let Q1 := Stats.quantile 1 series in
      let Q3 := Stats.quantile 3 series in
      let IQR := Cell.sub Q3 Q1 in
      (Cell.sub Q1 (Cell.mul k IQR), Cell.add Q3 (Cell.mul k IQR))
  | Zscore =>
      let mean := Stats.mean series in
      let std := Stats.std sqrt series in
      (Cell.sub mean (Cell.mul k std), Cell.add mean (Cell.mul k std))
  end.

(** The body of the loop of [fit] over [outlier_columns]. *)
Definition fit_column (X : DataFrame) (col : string)
  : Meth OutlierDetector unit :=
  if DF.has X col then
    (xs <- mlift (DF.floats X col) ;;
     self <- mget ;;
     mput {| od_base := od_base self;
             outlier_bounds_ :=
               dict_set (outlier_bounds_ self) col
                 (_calculate_outlier_bounds (config (od_base self))
                    (Stats.dropna xs)) |})%meth
  else mret tt.

(** [OutlierDetector.fit] *)
Definition fit (X : DataFrame) : Meth OutlierDetector unit :=
  (X' <- Base._validate_input od_base X ;;
   forM_ outlier_columns (fit_column X') ;;;
   Base._store_input_info od_base set_base X')%meth.

End WithSqrt.

(** [(X[col] < lower_bound) | (X[col] > upper_bound)] *)
Definition outliers_mask (b : Bounds) (xs : list cell) : list bool :=
  map (fun x => Cell.lt x (fst b) || Cell.gt x (snd b)) xs.

(** The body of the loop of [_transform_impl] over the stored bounds. *)
Definition handle_column (action : OutlierAction) (X : DataFrame)
           (item : string * Bounds) : Res DataFrame :=
  let (col, b) := item in
  if DF.has X col then
    (xs <- DF.floats X col ;;
     let mask := outliers_mask b xs in
     match action with
     | ActFlag => Ok (DF.set X (col ++ flag_suffix) (Bools mask))
     | ActCap =>
         Ok (DF.set X col (Floats (map (Cell.clip (fst b) (snd b)) xs)))
     | ActRemove => Ok (DF.select (map negb mask) X)
     end)%res
  else Ok X.

(** [OutlierDetector._transform_impl] *)
Definition _transform_impl (self : OutlierDetector) (X : DataFrame)
  : Res DataFrame :=
  foldM (handle_column (outlier_action (config (od_base self))))
        (outlier_bounds_ self) X.

(** [transform], inherited. *)
Definition transform : DataFrame -> Meth OutlierDetector DataFrame :=
  Base.transform od_base _transform_impl.

End OutlierDetector.

(** ** TextDataCleaner: position names *)

Module TextDataCleaner.

Definition position_mapping : list (string * string) :=
  [("G", "Guard"); ("F", "Forward"); ("C", "Center");
   ("G-F", "Guard-Forward"); ("F-G", "Guard-Forward");
   ("F-C", "Forward-Center"); ("C-F", "Forward-Center")]%string.

Fixpoint lookup (d : list (string * string)) (key : string)
  : option string :=
  match d with
  | [] => None
  | (k, v) :: d' => if String.eqb k key then Some v else lookup d' key
  end.

(** One cell of [X['player_position'].map(position_mapping)
    .fillna(X['player_position'])]: the mapped name, or the cell itself
    where the map gives no value. *)
Definition standardize_cell (c : option string) : option string :=
  match c with
  | Some s =>
      match lookup position_mapping s with
      | Some full => Some full
      | None => Some s
      end
  | None => None
  end.

(** The same on a column; a column without strings has no key of the
    mapping and is filled back from itself. *)
Definition standardize_series (s : Series) : Series :=
  match s with
  | Objects xs => Objects (map standardize_cell xs)
  | Floats xs => Floats xs
  | Bools xs => Bools xs
  end.

(** The block "Standardize position names" of [_transform_impl], run on
    the table as the lines before it leave it. *)
Definition standardize_positions_step (self : BaseNBATransformer)
           (X : DataFrame) : DataFrame :=
  if DF.has X "player_position" && standardize_positions (config self) then
    match DF.get X "player_position" with
    | Some s => DF.set X "player_position_standardized" (standardize_series s)
    | None => X
    end
  else X.

End TextDataCleaner.

(** ** NBADataCleaner: the pipeline *)

(** A transformer object as the pipeline sees it: its attributes and the two
    methods the pipeline calls on it. *)
Record Transformer : Type := mkTransformer {
  t_state : Type;
  t_self : t_state;
  t_fit : DataFrame -> Meth t_state unit;
  t_transform : DataFrame -> Meth t_state DataFrame
}.

Definition with_self (t : Transformer) (s : t_state t) : Transformer :=
  {| t_state := t_state t;
     t_self := s;
     t_fit := t_fit t;
     t_transform := t_transform t |}.

(** [transformer.fit(X)] and [transformer.transform(X)] *)
Definition call_fit (t : Transformer) (X : DataFrame)
  : Res unit * Transformer :=
  let (r, s) := t_fit t X (t_self t) in (r, with_self t s).

Definition call_transform (t : Transformer) (X : DataFrame)
  : Res DataFrame * Transformer :=
  let (r, s) := t_transform t X (t_self t) in (r, with_self t s).

(** A stage that inherits [fit] and [transform] from the base class. *)
Definition base_stage (impl : BaseNBATransformer -> DataFrame -> Res DataFrame)
           (b : BaseNBATransformer) : Transformer :=
  {| t_state := BaseNBATransformer;
     t_self := b;
     t_fit := Base.fit (fun b => b) (fun b _ => b);
     t_transform := Base.transform (fun b => b) impl |}.

Definition outlier_stage (sqrt : Q -> Q) (o : OutlierDetector) : Transformer :=
  {| t_state := OutlierDetector;
     t_self := o;
     t_fit := OutlierDetector.fit sqrt;
     t_transform := OutlierDetector.transform |}.

Record CleaningReport : Type := mkReport {
  original_shape : nat * nat;
  cleaned_shape : nat * nat;
  rows_removed : Z;
  columns_added : Z;
  missing_values_before : nat;
  missing_values_after : nat;
  new_columns : list string;
  removed_columns : list string;
  config_used : CleaningConfig
}.

Record NBADataCleaner : Type := mkCleaner {
  nc_config : CleaningConfig;
  nc_verbose : bool;
  transformers : list (string * Transformer);
  nc_is_fitted_ : bool;
  cleaning_report_ : option CleaningReport
}.

Module NBADataCleaner.

Definition in_list (c : string) (l : list string) : bool :=
  existsb (String.eqb c) l.

(** [_generate_cleaning_report], without the time stamp. *)
Definition _generate_cleaning_report (cfg : CleaningConfig)
           (X_original X_cleaned : DataFrame) : CleaningReport :=
  {| original_shape := DF.shape X_original;
     cleaned_shape := DF.shape X_cleaned;
     rows_removed :=
       (Z.of_nat (DF.nrows X_original) - Z.of_nat (DF.nrows X_cleaned))%Z;
     columns_added :=
       (Z.of_nat (List.length (DF.columns X_cleaned))
        - Z.of_nat (List.length (DF.columns X_original)))%Z;
     missing_values_before := DF.isnull_total X_original;
     missing_values_after := DF.isnull_total X_cleaned;
     new_columns :=
       filter (fun c => negb (in_list c (DF.columns X_original)))
              (DF.columns X_cleaned);
     removed_columns :=
       filter (fun c => negb (in_list c (DF.columns X_cleaned)))
              (DF.columns X_original);
     config_used := cfg |}.

Section Init.
(** The square root of the numeric library, and the transformations of
    the three stages that are not embedded here. *)
Variable sqrt : Q -> Q.
Variables type_conversion_impl text_cleaning_impl final_checks_impl
  : BaseNBATransformer -> DataFrame -> Res DataFrame.

(** [__init__] *)
Definition init (cfg : CleaningConfig)
           (include_type_conversion include_missing_value_handling
            include_validation include_outlier_detection
            include_text_cleaning include_final_checks : bool)
           (verb : bool) : NBADataCleaner :=
  let stage (on : bool) (name : string) (t : Transformer) :=
    if on then [(name, t)] else [] in
  {| nc_config := cfg;
     nc_verbose := verb;
     transformers :=
       stage include_type_conversion "type_conversion"%string
             (base_stage type_conversion_impl (Base.init cfg verb))
       ++ stage include_missing_value_handling "missing_values"%string
             (base_stage MissingValueHandler._transform_impl
                         (Base.init cfg verb))
       ++ stage include_validation "validation"%string
             (base_stage DataValidator._transform_impl
                         (Base.init cfg verb))
       ++ stage include_outlier_detection "outlier_detection"%string
             (outlier_stage sqrt (OutlierDetector.init cfg verb))
       ++ stage include_text_cleaning "text_cleaning"%string
             (base_stage text_cleaning_impl (Base.init cfg verb))
       ++ stage include_final_checks "final_checks"%string
             (base_stage final_checks_impl (Base.init cfg verb));
     nc_is_fitted_ := false;
     cleaning_report_ := None |}.
End Init.

(** The loop of [fit]: each stage is fitted on the table the stages before
    it have transformed; an exception ends the loop. *)
Fixpoint fit_loop (ts : list (string * Transformer)) (X_temp : DataFrame)
  : Res DataFrame * list (string * Transformer) :=
  match ts with
  | [] => (Ok X_temp, [])
  | (name, t) :: rest =>
      match call_fit t X_temp with
      | (Raise e, t1) => (Raise e, (name, t1) :: rest)
      | (Ok _, t1) =>
          match call_transform t1 X_temp with
          | (Raise e, t2) => (Raise e, (name, t2) :: rest)
          | (Ok X', t2) =>
              let (r, rest') := fit_loop rest X' in (r, (name, t2) :: rest')
          end
      end
  end.

(** [fit] *)
Definition fit (X : DataFrame) : Meth NBADataCleaner unit :=
  fun self =>
    match fit_loop (transformers self) (DF.copy X) with
    | (Raise e, ts) =>
        (Raise e,
         {| nc_config := nc_config self;
            nc_verbose := nc_verbose self;
            transformers := ts;
            nc_is_fitted_ := nc_is_fitted_ self;
            cleaning_report_ := cleaning_report_ self |})
    | (Ok _, ts) =>
        (Ok tt,
         {| nc_config := nc_config self;
            nc_verbose := nc_verbose self;
            transformers := ts;
            nc_is_fitted_ := true;
            cleaning_report_ := cleaning_report_ self |})
    end.

(** The loop of [transform]: [try: X_clean = transformer.transform(X_clean)
    except Exception: continue]. *)
Fixpoint transform_loop (ts : list (string * Transformer))
         (X_clean : DataFrame) : DataFrame * list (string * Transformer) :=
  match ts with
  | [] => (X_clean, [])
  | (name, t) :: rest =>
      let (r, t') := call_transform t X_clean in
      let X_next := match r with
                    | Ok X' => X'
                    | Raise _ => X_clean
                    end in
      let (X_final, rest') := transform_loop rest X_next in
      (X_final, (name, t') :: rest')
  end.

Definition not_fitted : exn :=
  ValueError "Pipeline must be fitted before transform".

(** [transform] *)
Definition transform (X : DataFrame) : Meth NBADataCleaner DataFrame :=
  fun self =>
    if negb (nc_is_fitted_ self) then (Raise not_fitted, self)
    else
      let (X_clean, ts) := transform_loop (transformers self) (DF.copy X) in
      (Ok X_clean,
       {| nc_config := nc_config self;
          nc_verbose := nc_verbose self;
          transformers := ts;
          nc_is_fitted_ := nc_is_fitted_ self;
          cleaning_report_ :=
            Some (_generate_cleaning_report (nc_config self) X X_clean) |}).

End NBADataCleaner.

(* ================================================================== *)
(** * Part II. Properties                                              *)
(* ================================================================== *)

Unset Implicit Arguments.

(** ** Strings *)

(** Comparisons of code points, decided one after the other. *)
Ltac n_hyps :=
  repeat match goal with
    | H : (_ && _) = true |- _ => apply andb_true_iff in H; destruct H
    | H : (_ || _) = false |- _ => apply orb_false_iff in H; destruct H
    | H : (_ <=? _)%N = true |- _ => apply N.leb_le in H
    | H : (_ <=? _)%N = false |- _ => apply N.leb_gt in H
    | H : (_ <? _)%N = true |- _ => apply N.ltb_lt in H
    | H : (_ <? _)%N = false |- _ => apply N.ltb_ge in H
    | H : (_ =? _)%N = true |- _ => apply N.eqb_eq in H
    | H : (_ =? _)%N = false |- _ => apply N.eqb_neq in H
    end.

Ltac n_goal :=
  repeat match goal with
    | |- context [(?a <=? ?b)%N] => destruct (N.leb_spec a b); try lia
    | |- context [(?a <? ?b)%N] => destruct (N.ltb_spec a b); try lia
    | |- context [(?a =? ?b)%N] => destruct (N.eqb_spec a b); try lia
    end;
  try reflexivity; try discriminate.

Section StripFacts.
Import PyStr.

Variable blank : N -> bool.

Lemma lstrip_by_idem (l : chars) :
  lstrip_by blank (lstrip_by blank l) = lstrip_by blank l.
Proof.
  induction l as [|c l IH]; simpl; [reflexivity|].
  destruct (blank c) eqn:E; [exact IH | simpl; now rewrite E].
Qed.

Lemma rstrip_by_cons (c : N) (l : chars) :
  rstrip_by blank (c :: l) =
  match rstrip_by blank l with
  | [] => if blank c then [] else [c]
  | r => c :: r
  end.
Proof. reflexivity. Qed.

Lemma rstrip_by_idem (l : chars) :
  rstrip_by blank (rstrip_by blank l) = rstrip_by blank l.
Proof.
  induction l as [|c l IH]; [reflexivity|].
  rewrite rstrip_by_cons. destruct (rstrip_by blank l) as [|d r] eqn:E.
  - destruct (blank c) eqn:Ec; [reflexivity|].
    simpl. now rewrite Ec.
  - rewrite rstrip_by_cons, IH. reflexivity.
Qed.

Lemma lstrip_rstrip_by (l : chars) :
  lstrip_by blank (rstrip_by blank l) = rstrip_by blank (lstrip_by blank l).
Proof.
  induction l as [|c l IH]; [reflexivity|].
  rewrite rstrip_by_cons. simpl lstrip_by at 2.
  destruct (blank c) eqn:Ec.
  - rewrite <- IH.
    destruct (rstrip_by blank l) as [|d r]; simpl; now rewrite ?Ec.
  - rewrite rstrip_by_cons.
    destruct (rstrip_by blank l) as [|d r]; simpl; now rewrite Ec.
Qed.

Lemma strip_by_lstrip (l : chars) :
  strip_by blank (lstrip_by blank l) = strip_by blank l.
Proof. unfold strip_by. now rewrite lstrip_by_idem. Qed.

Lemma strip_by_rstrip (l : chars) :
  strip_by blank (rstrip_by blank l) = strip_by blank l.
Proof. unfold strip_by. now rewrite lstrip_rstrip_by, rstrip_by_idem. Qed.

Lemma strip_by_idem (l : chars) :
  strip_by blank (strip_by blank l) = strip_by blank l.
Proof. unfold strip_by at 2. now rewrite strip_by_rstrip, strip_by_lstrip. Qed.

(** What is stripped on the left is a run of blanks. *)
Lemma lstrip_by_split (l : chars) :
  exists ws, l = ws ++ lstrip_by blank l /\ Forall (fun c => blank c = true) ws.
Proof.
  induction l as [|c l (ws & E & H)]; simpl.
  - now exists [].
  - destruct (blank c) eqn:Ec.
    + exists (c :: ws). split; [simpl; now rewrite <- E | now constructor].
    + now exists [].
Qed.

Lemma rstrip_by_split (l : chars) :
  exists ws, l = rstrip_by blank l ++ ws /\ Forall (fun c => blank c = true) ws.
Proof.
  induction l as [|c l (ws & E & H)].
  - now exists [].
  - rewrite rstrip_by_cons. destruct (rstrip_by blank l) as [|d r].
    + simpl in E. subst l. destruct (blank c) eqn:Ec.
      * exists (c :: ws). split; [reflexivity | now constructor].
      * exists ws. now split.
    + exists ws. split; [simpl; f_equal; exact E | exact H].
Qed.

Lemma lstrip_by_blanks (ws l : chars) :
  Forall (fun c => blank c = true) ws ->
  lstrip_by blank (ws ++ l) = lstrip_by blank l.
Proof.
  induction 1 as [|c ws Hc _ IH]; simpl; [reflexivity | now rewrite Hc].
Qed.

Lemma rstrip_by_all_blank (ws : chars) :
  Forall (fun c => blank c = true) ws -> rstrip_by blank ws = [].
Proof.
  induction 1 as [|c ws Hc _ IH]; [reflexivity|].
  now rewrite rstrip_by_cons, IH, Hc.
Qed.

Lemma rstrip_by_blanks (l ws : chars) :
  Forall (fun c => blank c = true) ws ->
  rstrip_by blank (l ++ ws) = rstrip_by blank l.
Proof.
  intros H. induction l as [|c l IH].
  - now apply rstrip_by_all_blank.
  - change ((c :: l) ++ ws) with (c :: l ++ ws).
    now rewrite !rstrip_by_cons, IH.
Qed.

Lemma strip_by_blanks_left (ws l : chars) :
  Forall (fun c => blank c = true) ws ->
  strip_by blank (ws ++ l) = strip_by blank l.
Proof. intros H. unfold strip_by. now rewrite lstrip_by_blanks. Qed.

Lemma strip_by_blanks_right (l ws : chars) :
  Forall (fun c => blank c = true) ws ->
  strip_by blank (l ++ ws) = strip_by blank l.
Proof.
  intros H. unfold strip_by.
  now rewrite <- !lstrip_rstrip_by, rstrip_by_blanks.
Qed.

(** A text is its stripped text between two runs of blanks. *)
Lemma strip_by_split (l : chars) :
  exists a b,
    l = a ++ strip_by blank l ++ b
    /\ Forall (fun c => blank c = true) a
    /\ Forall (fun c => blank c = true) b.
Proof.
  destruct (lstrip_by_split l) as (a & Ea & Ha).
  destruct (rstrip_by_split (lstrip_by blank l)) as (b & Eb & Hb).
  exists a, b. unfold strip_by. now rewrite <- Eb, <- Ea.
Qed.

Lemma strip_by_keeps (c : N) (l : chars) :
  In c l -> blank c = false -> In c (strip_by blank l).
Proof.
  intros Hin Hc. destruct (strip_by_split l) as (a & b & E & Ha & Hb).
  rewrite E in Hin. rewrite Forall_forall in Ha, Hb.
  apply in_app_or in Hin as [Hin|Hin]; [apply Ha in Hin; congruence|].
  apply in_app_or in Hin as [Hin|Hin]; [exact Hin|].
  apply Hb in Hin. congruence.
Qed.

Lemma strip_by_no_blank (l : chars) :
  Forall (fun c => blank c = false) l -> strip_by blank l = l.
Proof.
  intros H. unfold strip_by.
  assert (Hl : lstrip_by blank l = l)
    by (destruct H as [|c l Hc]; simpl; [|rewrite Hc]; reflexivity).
  rewrite Hl. induction H as [|c l Hc Hl' IH]; [reflexivity|].
  rewrite rstrip_by_cons, IH.
  - destruct l; [now rewrite Hc | reflexivity].
  - destruct Hl' as [|d l Hd]; simpl; [|rewrite Hd]; reflexivity.
Qed.

(** Stripping stops at a character that is no blank. *)
Lemma lstrip_by_before (c0 : N) (M S : chars) :
  blank c0 = false ->
  lstrip_by blank (M ++ c0 :: S) = lstrip_by blank M ++ c0 :: S.
Proof.
  intros H0. induction M as [|c M IH]; simpl; [now rewrite H0|].
  destruct (blank c); [exact IH | reflexivity].
Qed.

Lemma rstrip_by_after (c0 : N) (P S : chars) :
  blank c0 = false ->
  rstrip_by blank (P ++ c0 :: S) = P ++ c0 :: rstrip_by blank S.
Proof.
  intros H0. induction P as [|c P IH].
  - simpl. rewrite H0. destruct (rstrip_by blank S); reflexivity.
  - change ((c :: P) ++ c0 :: S) with (c :: P ++ c0 :: S).
    rewrite rstrip_by_cons, IH. destruct P; reflexivity.
Qed.

Lemma strip_by_around (c0 : N) (M S : chars) :
  blank c0 = false ->
  strip_by blank (M ++ c0 :: S)
  = lstrip_by blank M ++ c0 :: rstrip_by blank S.
Proof.
  intros H0. unfold strip_by.
  now rewrite lstrip_by_before, rstrip_by_after.
Qed.

End StripFacts.

Section StringFacts.
Import PyStr.

Lemma text_app (a b : string) : text (a ++ b) = text a ++ text b.
Proof.
  unfold text. rewrite <- map_app. f_equal.
  induction a as [|c a IH]; simpl; [reflexivity | now rewrite IH].
Qed.

Lemma colon_not_space : is_space (chr ":") = false.
Proof. reflexivity. Qed.

Lemma strip_idem (l : chars) : strip (strip l) = strip l.
Proof. apply strip_by_idem. Qed.

Lemma strip_around_colon (M S : chars) :
  strip (M ++ chr ":" :: S) = lstrip M ++ chr ":" :: rstrip S.
Proof. apply strip_by_around, colon_not_space. Qed.

Lemma is_colon_chr : is_colon (chr ":") = true.
Proof. reflexivity. Qed.

Lemma has_colon_app (a b : chars) :
  has_colon (a ++ b) = has_colon a || has_colon b.
Proof. apply existsb_app. Qed.

Lemma has_colon_false (l : chars) :
  has_colon l = false <-> Forall (fun c => is_colon c = false) l.
Proof.
  unfold has_colon. induction l as [|c l IH]; simpl.
  - split; [constructor | reflexivity].
  - rewrite orb_false_iff, IH. split.
    + intros [H1 H2]. now constructor.
    + intros H. inversion H; subst. now split.
Qed.

Lemma has_colon_part (a l b : chars) :
  has_colon (a ++ l ++ b) = false -> has_colon l = false.
Proof.
  rewrite !has_colon_app. intros H.
  apply orb_false_iff in H as [_ H]. now apply orb_false_iff in H as [H _].
Qed.

Lemma has_colon_lstrip (l : chars) :
  has_colon l = false -> has_colon (lstrip l) = false.
Proof.
  intros H. destruct (lstrip_by_split is_space l) as (ws & E & _).
  rewrite E, has_colon_app in H. now apply orb_false_iff in H as [_ H].
Qed.

Lemma has_colon_rstrip (l : chars) :
  has_colon l = false -> has_colon (rstrip l) = false.
Proof.
  intros H. destruct (rstrip_by_split is_space l) as (ws & E & _).
  rewrite E, has_colon_app in H. now apply orb_false_iff in H as [H _].
Qed.

Lemma has_colon_strip (l : chars) :
  has_colon l = false -> has_colon (strip l) = false.
Proof. intros H. now apply has_colon_rstrip, has_colon_lstrip. Qed.

Lemma split_no_colon (l : chars) :
  has_colon l = false -> split_colon l = [l].
Proof.
  induction l as [|c l IH]; simpl; [easy|].
  intros H. apply orb_false_iff in H as [H1 H2].
  rewrite H1, (IH H2). reflexivity.
Qed.

Lemma split_at_colon (P R : chars) :
  has_colon P = false ->
  split_colon (P ++ chr ":" :: R) = P :: split_colon R.
Proof.
  induction P as [|c P IH]; intros H.
  - cbn [app split_colon]. now rewrite is_colon_chr.
  - cbn [has_colon existsb] in H. apply orb_false_iff in H as [H1 H2].
    cbn [app split_colon]. rewrite H1, (IH H2). reflexivity.
Qed.

Lemma split_colon_nonempty (l : chars) : split_colon l <> [].
Proof.
  induction l as [|c l IH]; simpl; [discriminate|].
  destruct (is_colon c); [discriminate|].
  destruct (split_colon l); [contradiction | discriminate].
Qed.

(** A text with a colon splits into two parts at least: after the test
    [':' in minutes_str] the list of parts has a second element. *)
Lemma split_colon_two (l : chars) :
  has_colon l = true -> (1 <? List.length (split_colon l))%nat = true.
Proof.
  induction l as [|c l IH]; simpl; [discriminate|].
  destruct (is_colon c); simpl.
  - intros _. destruct (split_colon l) eqn:E; [|reflexivity].
    now destruct (split_colon_nonempty l).
  - intros H. specialize (IH H).
    destruct (split_colon l) as [|p ps]; [discriminate | exact IH].
Qed.

End StringFacts.

(** ** Reading and printing numbers *)

Section NumberFacts.
Import PyStr PyFloatParse.

Definition all_digits (l : chars) : Prop :=
  Forall (fun c => is_digit c = true) l.

Lemma digit_bounds (c : N) : is_digit c = true -> (48 <= c <= 57)%N.
Proof. unfold is_digit. intros H. n_hyps. lia. Qed.

Lemma digit_not_space (c : N) : is_digit c = true -> is_space c = false.
Proof. intros H. apply digit_bounds in H. unfold is_space. n_goal. Qed.

Lemma digit_not_c_space (c : N) : is_digit c = true -> is_c_space c = false.
Proof. intros H. apply digit_bounds in H. unfold is_c_space. n_goal. Qed.

Lemma digit_not_colon (c : N) : is_digit c = true -> is_colon c = false.
Proof.
  intros H. apply digit_bounds in H. unfold is_colon.
  change (chr ":") with 58%N. n_goal.
Qed.

Lemma digit_to_lower (c : N) : is_digit c = true -> to_lower c = c.
Proof. intros H. apply digit_bounds in H. unfold to_lower. n_goal. Qed.

Lemma digit_char (d : N) :
  (d < 10)%N ->
  is_digit (48 + d) = true /\ digit_val (48 + d) = Z.of_N d.
Proof.
  intros H. split.
  - unfold is_digit. n_goal.
  - unfold digit_val. f_equal. lia.
Qed.

Lemma scan_all_digits (l : chars) : all_digits l -> scan_digits l = (l, []).
Proof.
  induction 1 as [|c l Hc Hl IH]; simpl; [reflexivity|].
  now rewrite Hc, IH.
Qed.

Lemma digitpart_all_digits (l : chars) :
  all_digits l -> l <> [] -> digitpart l = Some (l, []).
Proof.
  intros [|c l' Hc Hl] Hne; [congruence|].
  simpl. now rewrite Hc, (scan_all_digits _ Hl).
Qed.

Lemma digits_of_acc (fuel : nat) (n : N) (acc : chars) :
  digits_of fuel n acc = digits_of fuel n [] ++ acc.
Proof.
  revert n acc. induction fuel as [|fuel IH]; intros n acc; simpl.
  - reflexivity.
  - destruct (n / 10 =? 0)%N; [reflexivity|].
    rewrite IH. rewrite (IH _ [_]). now rewrite <- app_assoc.
Qed.

Lemma digits_of_digits (fuel : nat) (n : N) :
  all_digits (digits_of fuel n []) /\ digits_of fuel n [] <> [].
Proof.
  revert n. induction fuel as [|fuel IH]; intros n; simpl.
  - split; [|discriminate]. constructor; [|constructor].
    apply digit_char. apply N.mod_lt. discriminate.
  - destruct (n / 10 =? 0)%N.
    + split; [|discriminate]. constructor; [|constructor].
      apply digit_char. apply N.mod_lt. discriminate.
    + rewrite digits_of_acc. destruct (IH (n / 10)%N) as [H1 H2]. split.
      * apply Forall_app. split; [exact H1|].
        constructor; [|constructor].
        apply digit_char. apply N.mod_lt. discriminate.
      * intros E. apply app_eq_nil in E as [_ E]. discriminate.
Qed.

Lemma digits_of_value (fuel : nat) (n : N) :
  (n < 2 ^ N.of_nat fuel)%N ->
  digits_value (digits_of fuel n []) = Z.of_N n.
Proof.
  unfold digits_value. revert n.
  induction fuel as [|fuel IH]; intros n Hn.
  - simpl in *. assert (n = 0%N) by lia. now subst.
  - assert (Hd := digit_char _ (N.mod_lt n 10 ltac:(discriminate))).
    destruct Hd as [_ Hd].
    assert (Hdiv : n = (10 * (n / 10) + n mod 10)%N)
      by (apply N.div_mod; discriminate).
    cbn [digits_of]. set (d := (48 + n mod 10)%N) in *.
    destruct (n / 10 =? 0)%N eqn:E.
    + apply N.eqb_eq in E. cbn [fold_left]. rewrite Hd. lia.
    + rewrite digits_of_acc, fold_left_app, IH.
      * cbn [fold_left]. rewrite Hd. lia.
      * rewrite Nat2N.inj_succ, N.pow_succ_r' in Hn.
        apply N.Div0.div_lt_upper_bound. lia.
Qed.

Lemma pos_size_bound (p : positive) :
  (N.pos p < 2 ^ N.of_nat (Pos.size_nat p))%N.
Proof.
  induction p as [p IH|p IH|]; simpl Pos.size_nat;
    rewrite ?Nat2N.inj_succ, ?N.pow_succ_r'; [lia | lia | reflexivity].
Qed.

Lemma size_bound (n : N) : (n < 2 ^ N.of_nat (N.size_nat n))%N.
Proof. destruct n as [|p]; [reflexivity | apply pos_size_bound]. Qed.

(** A number below [10^k] has at most [k] digits. *)
Lemma digits_of_short (fuel : nat) (n : N) (k : nat) :
  (0 < k)%nat -> (n < 10 ^ N.of_nat k)%N ->
  (List.length (digits_of fuel n []) <= k)%nat.
Proof.
  revert n k. induction fuel as [|fuel IH]; intros n k Hk Hn;
    cbn [digits_of].
  - simpl. lia.
  - destruct (n / 10 =? 0)%N eqn:E; [simpl; lia|].
    apply N.eqb_neq in E. rewrite digits_of_acc, length_app.
    cbn [List.length]. destruct k as [|k]; [lia|].
    rewrite Nat2N.inj_succ, N.pow_succ_r' in Hn.
    destruct k as [|k].
    + exfalso. apply E. apply N.div_small. simpl in Hn. lia.
    + specialize (IH (n / 10)%N (S k) ltac:(lia)).
      assert (n / 10 < 10 ^ N.of_nat (S k))%N
        by (apply N.Div0.div_lt_upper_bound; lia).
      specialize (IH H). lia.
Qed.

(** A number from [10^k] on has more than [k] digits. *)
Lemma digits_of_long (fuel : nat) (n : N) (k : nat) :
  (n < 2 ^ N.of_nat fuel)%N -> (10 ^ N.of_nat k <= n)%N ->
  (k < List.length (digits_of fuel n []))%nat.
Proof.
  revert fuel n. induction k as [|k IH]; intros fuel n Hf Hn.
  - destruct (digits_of_digits fuel n) as [_ H].
    destruct (digits_of fuel n []); [congruence | simpl; lia].
  - rewrite Nat2N.inj_succ, N.pow_succ_r' in Hn.
    assert (Hp : (0 < 10 ^ N.of_nat k)%N)
      by (apply N.neq_0_lt_0, N.pow_nonzero; discriminate).
    destruct fuel as [|fuel]; [simpl in Hf; lia|].
    cbn [digits_of]. destruct (n / 10 =? 0)%N eqn:E.
    + apply N.eqb_eq in E. apply N.div_small_iff in E; [lia | discriminate].
    + rewrite digits_of_acc, length_app. cbn [List.length].
      assert (H1 : (n / 10 < 2 ^ N.of_nat fuel)%N).
      { rewrite Nat2N.inj_succ, N.pow_succ_r' in Hf.
        apply N.Div0.div_lt_upper_bound. lia. }
      assert (H2 : (10 ^ N.of_nat k <= n / 10)%N)
        by (apply N.div_le_lower_bound; [discriminate | lia]).
      specialize (IH fuel (n / 10)%N H1 H2). lia.
Qed.

(** The least number that has more digits than the interpreter prints. *)
Definition int_limit : Z := (10 ^ Z.of_nat int_max_str_digits)%Z.

Lemma abs_below_limit (z : Z) (k : nat) :
  (Z.abs z < 10 ^ Z.of_nat k)%Z <-> (Z.abs_N z < 10 ^ N.of_nat k)%N.
Proof.
  rewrite N2Z.inj_lt, N2Z.inj_abs_N, N2Z.inj_pow, nat_N_Z. reflexivity.
Qed.

Lemma limit_positive : (0 < int_max_str_digits)%nat.
Proof. apply Nat.ltb_lt. vm_compute. reflexivity. Qed.

(** [str(z)] of an int below the limit: its digits after its sign. *)
Lemma str_of_int_shape (z : Z) :
  (Z.abs z < int_limit)%Z ->
  exists body,
    all_digits body /\ body <> []
    /\ str_of_int z = Ok ((if (z <? 0)%Z then [chr "-"] else []) ++ body)
    /\ digits_value body = Z.abs z.
Proof.
  intros Hz. apply abs_below_limit in Hz.
  exists (digits_of (N.size_nat (Z.abs_N z)) (Z.abs_N z) []).
  destruct (digits_of_digits (N.size_nat (Z.abs_N z)) (Z.abs_N z)) as [H1 H2].
  repeat split; try assumption.
  - unfold str_of_int.
    assert (H := digits_of_short (N.size_nat (Z.abs_N z)) _ _
                                 limit_positive Hz).
    apply Nat.ltb_ge in H. rewrite H. destruct (z <? 0)%Z; reflexivity.
  - rewrite digits_of_value by apply size_bound. apply N2Z.inj_abs_N.
Qed.

(** [str(z)] of a longer int raises. *)
Lemma str_of_int_long (z : Z) :
  (int_limit <= Z.abs z)%Z -> str_of_int z = Raise exceeds_limit.
Proof.
  intros Hz. unfold str_of_int.
  assert (H : (int_max_str_digits
               < List.length (digits_of (N.size_nat (Z.abs_N z))
                                        (Z.abs_N z) []))%nat).
  { apply digits_of_long; [apply size_bound|].
    apply N.nlt_ge. intros H. apply abs_below_limit in H.
    unfold int_limit in Hz. lia. }
  apply Nat.ltb_lt in H. now rewrite H.
Qed.

End NumberFacts.

(** ** The characters of a text that [float] reads *)

Section FloatChars.
Import PyStr PyFloatParse.

Definition is_alpha (c : N) : bool :=
  ((65 <=? c) && (c <=? 90) || (97 <=? c) && (c <=? 122))%N.

(** The characters of which the texts of floats are made. *)
Definition fchar (c : N) : bool :=
  is_digit c || is_alpha c
  || (c =? chr "+")%N || (c =? chr "-")%N || (c =? chr ".")%N
  || (c =? chr "_")%N.

Definition fchars (l : chars) : Prop := Forall (fun c => fchar c = true) l.

Lemma fchar_bounds (c : N) :
  fchar c = true -> (43 <= c <= 122)%N /\ c <> 63%N /\ c <> 58%N.
Proof.
  unfold fchar, is_digit, is_alpha.
  change (chr "+") with 43%N. change (chr "-") with 45%N.
  change (chr ".") with 46%N. change (chr "_") with 95%N.
  intros H. repeat (apply orb_true_iff in H; destruct H as [H|H]);
    n_hyps; lia.
Qed.

Lemma fchar_not_space (c : N) : fchar c = true -> is_space c = false.
Proof.
  intros H. apply fchar_bounds in H as (H & _ & _). unfold is_space. n_goal.
Qed.

Lemma space_not_fchar (c : N) : is_space c = true -> fchar c = false.
Proof.
  intros H. destruct (fchar c) eqn:E; [|reflexivity].
  apply fchar_not_space in E. congruence.
Qed.

Lemma fchar_digit (c : N) : is_digit c = true -> fchar c = true.
Proof. intros H. unfold fchar. now rewrite H. Qed.

Lemma chars_eqb_eq (a b : chars) : chars_eqb a b = true <-> a = b.
Proof.
  revert b. induction a as [|x a IH]; intros [|y b]; simpl;
    try (split; [discriminate | congruence]).
  - split; reflexivity.
  - rewrite andb_true_iff, N.eqb_eq, IH. split.
    + now intros [-> ->].
    + now intros [= -> ->].
Qed.

(** What [scan_digits] reads is made of digits and underscores. *)
Lemma scan_digits_chars (n : nat) :
  forall (l ds r : chars),
    (List.length l <= n)%nat -> scan_digits l = (ds, r) ->
    exists u, l = u ++ r /\ fchars u.
Proof.
  induction n as [|n IH]; intros l ds r Hn.
  - destruct l; [|simpl in Hn; lia]. intros [= <- <-]. exists [].
    split; [reflexivity | constructor].
  - destruct l as [|c l'].
    { intros [= <- <-]. exists []. split; [reflexivity | constructor]. }
    cbn [scan_digits]. cbn [List.length] in Hn.
    destruct (is_digit c) eqn:Ec.
    + destruct (scan_digits l') as [ds' r'] eqn:E. intros [= <- <-].
      destruct (IH l' ds' r' ltac:(lia) E) as (u & -> & Hu).
      exists (c :: u). split; [reflexivity|].
      constructor; [now apply fchar_digit | exact Hu].
    + destruct (c =? chr "_")%N eqn:Eu.
      2:{ intros [= <- <-]. exists []. split; [reflexivity | constructor]. }
      apply N.eqb_eq in Eu. subst c.
      destruct l' as [|d l''].
      { intros [= <- <-]. exists []. split; [reflexivity | constructor]. }
      destruct (is_digit d) eqn:Ed.
      2:{ intros [= <- <-]. exists []. split; [reflexivity | constructor]. }
      destruct (scan_digits l'') as [ds' r'] eqn:E. intros [= <- <-].
      cbn [List.length] in Hn.
      destruct (IH l'' ds' r' ltac:(lia) E) as (u & -> & Hu).
      exists (chr "_" :: d :: u). split; [reflexivity|].
      constructor; [reflexivity|].
      constructor; [now apply fchar_digit | exact Hu].
Qed.

Lemma digitpart_chars (l ds r : chars) :
  digitpart l = Some (ds, r) -> exists u, l = u ++ r /\ fchars u.
Proof.
  destruct l as [|c l']; [discriminate|]. cbn [digitpart].
  destruct (is_digit c) eqn:Ec; [|discriminate].
  destruct (scan_digits l') as [ds' r'] eqn:E. intros [= <- <-].
  destruct (scan_digits_chars _ l' ds' r' (le_n _) E) as (u & -> & Hu).
  exists (c :: u). split; [reflexivity|].
  constructor; [now apply fchar_digit | exact Hu].
Qed.

Lemma number_chars (l ip fp r : chars) :
  number l = Some (ip, fp, r) -> exists u, l = u ++ r /\ fchars u.
Proof.
  assert (Hdot : fchar (chr ".") = true) by reflexivity.
  unfold number. destruct (digitpart l) as [[ip' r1]|] eqn:E1.
  - destruct (digitpart_chars _ _ _ E1) as (u & -> & Hu).
    destruct r1 as [|c r'].
    { intros [= <- <- <-]. now exists u. }
    destruct (c =? chr ".")%N eqn:Ec.
    2:{ intros [= <- <- <-]. now exists u. }
    apply N.eqb_eq in Ec. subst c.
    destruct (digitpart r') as [[fp' r2]|] eqn:E2.
    + destruct (digitpart_chars _ _ _ E2) as (v & -> & Hv).
      intros [= <- <- <-]. exists (u ++ chr "." :: v). split.
      * now rewrite <- app_assoc.
      * apply Forall_app. split; [exact Hu | now constructor].
    + intros [= <- <- <-]. exists (u ++ [chr "."]). split.
      * now rewrite <- app_assoc.
      * apply Forall_app. split; [exact Hu | now constructor].
  - destruct l as [|c r']; [discriminate|].
    destruct (c =? chr ".")%N eqn:Ec; [|discriminate].
    apply N.eqb_eq in Ec. subst c.
    destruct (digitpart r') as [[fp' r2]|] eqn:E2; [|discriminate].
    destruct (digitpart_chars _ _ _ E2) as (v & -> & Hv).
    intros [= <- <- <-]. exists (chr "." :: v). split; [reflexivity|].
    now constructor.
Qed.

Lemma split_sign_chars (t body : chars) (neg : bool) :
  split_sign t = (neg, body) -> exists u, t = u ++ body /\ fchars u.
Proof.
  destruct t as [|c t']; cbn [split_sign].
  { intros [= <- <-]. exists []. split; [reflexivity | constructor]. }
  destruct (c =? chr "-")%N eqn:E1.
  { apply N.eqb_eq in E1. subst c. intros [= <- <-]. exists [chr "-"].
    split; [reflexivity | now repeat constructor]. }
  destruct (c =? chr "+")%N eqn:E2.
  { apply N.eqb_eq in E2. subst c. intros [= <- <-]. exists [chr "+"].
    split; [reflexivity | now repeat constructor]. }
  intros [= <- <-]. exists []. split; [reflexivity | constructor].
Qed.

Lemma exponent_chars (l : chars) (e : Z) : exponent l = Some e -> fchars l.
Proof.
  destruct l as [|c l']; [constructor|]. cbn [exponent].
  destruct (to_lower c =? chr "e")%N eqn:Ec; [|discriminate].
  destruct (split_sign l') as [neg r] eqn:Es.
  destruct (digitpart r) as [[ds [|x r']]|] eqn:Ed; try discriminate.
  intros _. destruct (split_sign_chars _ _ _ Es) as (u & -> & Hu).
  destruct (digitpart_chars _ _ _ Ed) as (v & -> & Hv).
  constructor.
  - apply N.eqb_eq in Ec. revert Ec. unfold to_lower, fchar, is_digit, is_alpha.
    change (chr "e") with 101%N. change (chr "+") with 43%N.
    change (chr "-") with 45%N. change (chr ".") with 46%N.
    change (chr "_") with 95%N.
    destruct ((65 <=? c)%N && (c <=? 90)%N) eqn:E; intros H; n_hyps;
      n_goal.
  - apply Forall_app. split; [exact Hu|]. now rewrite app_nil_r.
Qed.

Definition is_lower (c : N) : bool := ((97 <=? c) && (c <=? 122))%N.

Lemma lower_word_chars (body w : chars) :
  map to_lower body = w -> Forall (fun c => is_lower c = true) w ->
  fchars body.
Proof.
  revert w. induction body as [|c body IH]; intros w E H; [constructor|].
  cbn [map] in E. subst w. inversion H as [|? ? Hc Hw]; subst.
  constructor; [|now apply (IH _ eq_refl)].
  revert Hc. unfold to_lower, is_lower, fchar, is_digit, is_alpha.
  change (chr "+") with 43%N. change (chr "-") with 45%N.
  change (chr ".") with 46%N. change (chr "_") with 95%N.
  destruct ((65 <=? c)%N && (c <=? 90)%N) eqn:E; intros Hc; n_hyps; n_goal.
Qed.

(** [float] raises nothing but its ValueError. *)
Lemma parse_float_raises (t : chars) (e : exn) :
  parse_float t = Raise e -> e = could_not_convert.
Proof.
  unfold parse_float.
  destruct (split_sign t) as [neg body].
  destruct (_ || _); [discriminate|].
  destruct (chars_eqb _ _); [discriminate|].
  destruct (number body) as [[[ip fp] r]|]; [|congruence].
  destruct (exponent r); congruence.
Qed.

(** A text that is read is made of the characters of floats. *)
Lemma parse_float_chars (t : chars) (f : pyfloat) :
  parse_float t = Ok f -> fchars t /\ t <> [].
Proof.
  intros H. split; [|intros ->; discriminate].
  revert H. unfold parse_float.
  destruct (split_sign t) as [neg body] eqn:Es.
  destruct (split_sign_chars _ _ _ Es) as (u & -> & Hu).
  assert (Hw : forall w, Forall (fun c => is_lower c = true) (text w) ->
                         chars_eqb (map to_lower body) (text w) = true ->
                         fchars (u ++ body)).
  { intros w Hl E. apply chars_eqb_eq in E.
    apply Forall_app. split; [exact Hu|].
    now apply lower_word_chars with (text w). }
  destruct (chars_eqb _ (text "inf")) eqn:E1.
  { intros _. apply (Hw "inf"%string); [now repeat constructor | exact E1]. }
  destruct (chars_eqb _ (text "infinity")) eqn:E2.
  { intros _.
    apply (Hw "infinity"%string); [now repeat constructor | exact E2]. }
  cbn [orb].
  destruct (chars_eqb _ (text "nan")) eqn:E3.
  { intros _. apply (Hw "nan"%string); [now repeat constructor | exact E3]. }
  destruct (number body) as [[[ip fp] r]|] eqn:En; [|discriminate].
  destruct (exponent r) as [e|] eqn:Ee; [|discriminate].
  intros _. destruct (number_chars _ _ _ _ En) as (v & -> & Hv).
  apply Forall_app. split; [exact Hu|].
  apply Forall_app. split; [exact Hv | now apply exponent_chars with e].
Qed.

(** [float] reads no text that holds, beside blanks of the C locale, a
    character of another kind. *)
Lemma parse_float_fails (c : N) (t : chars) :
  In c t -> is_c_space c = false -> fchar c = false ->
  parse_float (strip_by is_c_space t) = Raise could_not_convert.
Proof.
  intros Hin Hs Hf.
  destruct (parse_float (strip_by is_c_space t)) as [f|e] eqn:E.
  - apply parse_float_chars in E as [E _].
    unfold fchars in E. rewrite Forall_forall in E.
    rewrite (E c) in Hf; [discriminate|]. now apply strip_by_keeps.
  - f_equal. now apply parse_float_raises with (strip_by is_c_space t).
Qed.

Lemma parse_float_blank_or_fchar (t : chars) (f : pyfloat) :
  parse_float (strip_by is_c_space t) = Ok f ->
  Forall (fun c => is_c_space c = true \/ fchar c = true) t.
Proof.
  intros H. apply Forall_forall. intros c Hin.
  destruct (is_c_space c) eqn:Es; [now left|].
  destruct (fchar c) eqn:Ef; [now right|].
  rewrite (parse_float_fails c t Hin Es Ef) in H. discriminate.
Qed.

End FloatChars.

(** ** The pass of [float] that makes a text ASCII *)

Section TransformFacts.
Import PyStr PyFloatParse.

Lemma ascii_loop_app (x y : chars) :
  ~ In 63%N (ascii_loop (x ++ y)) ->
  ascii_loop (x ++ y) = ascii_loop x ++ ascii_loop y.
Proof.
  induction x as [|c x IH]; [reflexivity|]. cbn [app ascii_loop].
  destruct (c <? 127)%N.
  { intros H. cbn [app]. f_equal. apply IH. intros Hin. apply H. now right. }
  destruct (is_space c).
  { intros H. cbn [app]. f_equal. apply IH. intros Hin. apply H. now right. }
  destruct (to_decimal c).
  { intros H. cbn [app]. f_equal. apply IH. intros Hin. apply H. now right. }
  intros H. exfalso. apply H. now left.
Qed.

(** On ASCII text the pass changes nothing, or ends the text at a
    [DEL]. *)
Lemma ascii_loop_ascii (l : chars) :
  is_ascii l = true ->
  ascii_loop l = l \/ (In 63%N (ascii_loop l) /\ In 127%N l).
Proof.
  induction l as [|c l IH]; [now left|].
  cbn [is_ascii forallb ascii_loop]. intros H.
  apply andb_true_iff in H as [Hc Hl]. specialize (IH Hl).
  destruct (c <? 127)%N eqn:E.
  - destruct IH as [->|[H1 H2]]; [now left | right].
    split; now right.
  - n_hyps. assert (c = 127%N) by lia. subst c. right.
    split; now left.
Qed.

(** [float] of any text, ASCII or not, is what is read after the loop. *)
Lemma float_of_str_loop (l : chars) :
  float_of_str l = parse_float (strip_by is_c_space (ascii_loop l)).
Proof.
  unfold float_of_str, transform_decimal_and_space_to_ascii.
  destruct (is_ascii l) eqn:E; [|reflexivity].
  destruct (ascii_loop_ascii l E) as [->|[H1 H2]]; [reflexivity|].
  rewrite (parse_float_fails 63 _ H1 eq_refl eq_refl).
  now rewrite (parse_float_fails 127 _ H2 eq_refl eq_refl).
Qed.

(** A blank before a text that [float] reads can go. *)
Lemma float_of_str_drop_left (c : N) (l : chars) (f : pyfloat) :
  is_space c = true -> float_of_str (c :: l) = Ok f -> float_of_str l = Ok f.
Proof.
  intros Hc. rewrite !float_of_str_loop. intros H.
  assert (Hb := parse_float_blank_or_fchar _ _ H).
  assert (E : exists h, ascii_loop (c :: l) = h :: ascii_loop l
                        /\ is_space h = true).
  { cbn [ascii_loop]. destruct (c <? 127)%N; [now exists c|].
    rewrite Hc. now exists (chr " "). }
  destruct E as (h & E & Hh). rewrite E in H, Hb.
  inversion Hb as [|? ? [Hs|Hf] _]; subst.
  - change (h :: ascii_loop l) with ([h] ++ ascii_loop l) in H.
    rewrite strip_by_blanks_left in H by now repeat constructor.
    exact H.
  - rewrite (space_not_fchar h Hh) in Hf. discriminate.
Qed.

(** A blank after a text that [float] reads can go. *)
Lemma float_of_str_drop_right (c : N) (l : chars) (f : pyfloat) :
  is_space c = true -> float_of_str (l ++ [c]) = Ok f -> float_of_str l = Ok f.
Proof.
  intros Hc. rewrite !float_of_str_loop. intros H.
  assert (Hb := parse_float_blank_or_fchar _ _ H).
  assert (Hq : ~ In 63%N (ascii_loop (l ++ [c]))).
  { intros Hin. rewrite (parse_float_fails 63 _ Hin eq_refl eq_refl) in H.
    discriminate. }
  rewrite (ascii_loop_app _ _ Hq) in H, Hb.
  assert (E : exists h, ascii_loop [c] = [h] /\ is_space h = true).
  { cbn [ascii_loop]. destruct (c <? 127)%N; [now exists c|].
    rewrite Hc. now exists (chr " "). }
  destruct E as (h & E & Hh). rewrite E in H, Hb.
  apply Forall_app in Hb as [_ Hb].
  inversion Hb as [|? ? [Hs|Hf] _]; subst.
  - rewrite strip_by_blanks_right in H by now repeat constructor.
    exact H.
  - rewrite (space_not_fchar h Hh) in Hf. discriminate.
Qed.

Lemma float_of_str_drop_blanks (ws : chars) :
  Forall (fun c => is_space c = true) ws ->
  forall (l : chars) (f : pyfloat),
    float_of_str (l ++ ws) = Ok f -> float_of_str l = Ok f.
Proof.
  induction 1 as [|c ws Hc _ IH]; intros l f H.
  - now rewrite app_nil_r in H.
  - apply float_of_str_drop_right with c; [exact Hc|].
    apply IH. now rewrite <- app_assoc.
Qed.

(** [float] reads a text after [lstrip], [rstrip] or [strip] as it reads
    the text: the blanks that [strip] takes away at the ends of a text that
    [float] reads are blanks for [float] too. *)
Lemma float_of_str_lstrip (l : chars) (f : pyfloat) :
  float_of_str l = Ok f -> float_of_str (lstrip l) = Ok f.
Proof.
  induction l as [|c l IH]; [easy|]. intros H.
  unfold lstrip. cbn [lstrip_by]. destruct (is_space c) eqn:Ec; [|exact H].
  apply IH. now apply float_of_str_drop_left with c.
Qed.

Lemma float_of_str_rstrip (l : chars) (f : pyfloat) :
  float_of_str l = Ok f -> float_of_str (rstrip l) = Ok f.
Proof.
  intros H. destruct (rstrip_by_split is_space l) as (ws & E & Hws).
  rewrite E in H. now apply float_of_str_drop_blanks with ws.
Qed.

Lemma float_of_str_strip (l : chars) (f : pyfloat) :
  float_of_str l = Ok f -> float_of_str (strip l) = Ok f.
Proof. intros H. now apply float_of_str_rstrip, float_of_str_lstrip. Qed.

Lemma float_of_str_raises (l : chars) (e : exn) :
  float_of_str l = Raise e -> e = could_not_convert.
Proof. apply parse_float_raises. Qed.

End TransformFacts.

(** ** [float(str(z))] *)

Section FloatOfInt.
Import PyStr PyFloatParse.

Lemma map_lower_digits (l : chars) : all_digits l -> map to_lower l = l.
Proof.
  induction 1 as [|c l Hc Hl IH]; simpl; [reflexivity|].
  now rewrite (digit_to_lower c Hc), IH.
Qed.

Lemma digits_not_word (c d : N) (l w : chars) :
  is_digit c = true -> is_digit d = false ->
  chars_eqb (c :: l) (d :: w) = false.
Proof.
  intros Hc Hd. cbn [chars_eqb].
  destruct (N.eqb_spec c d) as [->|_]; [congruence | reflexivity].
Qed.

Lemma signed_digits_plain (neg : bool) (body : chars) :
  all_digits body ->
  let s := (if neg then [chr "-"] else []) ++ body in
  is_ascii s = true
  /\ Forall (fun c => is_c_space c = false) s
  /\ Forall (fun c => is_space c = false) s
  /\ has_colon s = false.
Proof.
  intros Hd s. subst s. unfold is_ascii, has_colon.
  rewrite forallb_app, existsb_app. repeat split.
  - apply andb_true_iff. split; [now destruct neg|].
    apply forallb_forall. intros c Hin. unfold all_digits in Hd.
    rewrite Forall_forall in Hd. apply Hd, digit_bounds in Hin. n_goal.
  - apply Forall_app. split; [destruct neg; now repeat constructor|].
    eapply Forall_impl; [|exact Hd]. apply digit_not_c_space.
  - apply Forall_app. split; [destruct neg; now repeat constructor|].
    eapply Forall_impl; [|exact Hd]. apply digit_not_space.
  - apply orb_false_iff. split; [now destruct neg|].
    apply has_colon_false. eapply Forall_impl; [|exact Hd].
    apply digit_not_colon.
Qed.

(** A run of digits, with or without a minus sign, reads as its value. *)
Lemma float_of_digits (neg : bool) (body : chars) :
  all_digits body -> body <> [] ->
  float_of_str ((if neg then [chr "-"] else []) ++ body) =
  Ok (Ffin (inject_Z (if neg then - digits_value body
                      else digits_value body))).
Proof.
  intros Hd Hne.
  destruct (signed_digits_plain neg body Hd) as (Ha & Hs & _ & _).
  unfold float_of_str, transform_decimal_and_space_to_ascii.
  rewrite Ha, (strip_by_no_blank _ _ Hs).
  destruct body as [|c body]; [congruence|].
  assert (Hc : is_digit c = true) by (inversion Hd; assumption).
  assert (Hsign : split_sign ((if neg then [chr "-"] else []) ++ c :: body)
                  = (neg, c :: body)).
  { destruct neg; [reflexivity|]. cbn [app split_sign].
    apply digit_bounds in Hc. change (chr "-") with 45%N.
    change (chr "+") with 43%N. n_goal. }
  unfold parse_float. rewrite Hsign, (map_lower_digits _ Hd).
  rewrite (digits_not_word c 105 body (text "nf") Hc eq_refl
           : chars_eqb (c :: body) (text "inf") = false).
  rewrite (digits_not_word c 105 body (text "nfinity") Hc eq_refl
           : chars_eqb (c :: body) (text "infinity") = false).
  rewrite (digits_not_word c 110 body (text "an") Hc eq_refl
           : chars_eqb (c :: body) (text "nan") = false).
  cbn [orb]. unfold number.
  rewrite (digitpart_all_digits _ Hd Hne). cbn [exponent].
  rewrite app_nil_r. cbn [List.length Z.of_nat Z.sub Z.opp Qpower].
  f_equal. f_equal.
  set (m := digits_value (c :: body)).
  destruct neg; unfold Qmult, Qopp, inject_Z; cbn [Qnum Qden];
    rewrite Z.mul_1_r; reflexivity.
Qed.

(** [float(str(z)) == z] for an int that [str] prints. *)
Lemma float_of_int_str (z : Z) (s : chars) :
  str_of_int z = Ok s -> float_of_str s = Ok (Ffin (inject_Z z)).
Proof.
  intros Hs. destruct (Z.lt_ge_cases (Z.abs z) int_limit) as [Hz|Hz].
  - destruct (str_of_int_shape z Hz) as (body & Hd & Hne & E & Hv).
    rewrite E in Hs. injection Hs as <-.
    rewrite (float_of_digits _ _ Hd Hne), Hv.
    do 3 f_equal. destruct (Z.ltb_spec z 0); lia.
  - rewrite (str_of_int_long z Hz) in Hs. discriminate.
Qed.

Lemma str_of_int_plain (z : Z) (s : chars) :
  str_of_int z = Ok s -> strip s = s /\ has_colon s = false.
Proof.
  intros Hs. destruct (Z.lt_ge_cases (Z.abs z) int_limit) as [Hz|Hz].
  - destruct (str_of_int_shape z Hz) as (body & Hd & _ & E & _).
    rewrite E in Hs. injection Hs as <-.
    destruct (signed_digits_plain (z <? 0)%Z body Hd) as (_ & _ & H1 & H2).
    split; [now apply strip_by_no_blank | exact H2].
  - rewrite (str_of_int_long z Hz) in Hs. discriminate.
Qed.

End FloatOfInt.

(** ** MinutesConverter.convert_to_decimal *)

Section MinutesFacts.
Import PyStr PyFloatParse MinutesConverter.

(** The text ["M:S"] after [strip], parsed. *)
Lemma parse_minutes_colon (M S : chars) (m s : pyfloat) :
  has_colon M = false -> has_colon S = false ->
  float_of_str M = Ok m -> float_of_str S = Ok s ->
  parse_minutes (strip (M ++ chr ":" :: S)) = Ok (fadd m (fdiv60 s)).
Proof.
  intros HM HS Hm Hs. rewrite strip_around_colon.
  unfold parse_minutes.
  rewrite has_colon_app. cbn [has_colon existsb].
  rewrite is_colon_chr, orb_true_r. cbn [orb].
  rewrite (split_at_colon _ _ (has_colon_lstrip _ HM)).
  rewrite (split_no_colon _ (has_colon_rstrip _ HS)).
  cbn [index nth_error res_bind List.length Nat.ltb Nat.leb].
  rewrite (float_of_str_lstrip _ _ Hm). cbn [res_bind].
  rewrite (float_of_str_rstrip _ _ Hs). reflexivity.
Qed.

(** The body of the [try] raises nothing that the handler lets through. *)
Lemma parse_minutes_raises (l : chars) (e : exn) :
  parse_minutes l = Raise e ->
  (exists msg, e = ValueError msg) \/ (exists msg, e = IndexError msg).
Proof.
  unfold parse_minutes, index.
  destruct (has_colon l).
  - destruct (nth_error (split_colon l) 0) as [p0|]; cbn [res_bind].
    + destruct (float_of_str p0) as [m|e0] eqn:E0; cbn [res_bind].
      * destruct (1 <? List.length (split_colon l))%nat.
        -- destruct (nth_error (split_colon l) 1) as [p1|]; cbn [res_bind].
           ++ destruct (float_of_str p1) as [s|e1] eqn:E1; cbn [res_bind].
              ** discriminate.
              ** intros [= <-]. left.
                 rewrite (float_of_str_raises _ _ E1). now eexists.
           ++ intros [= <-]. right. now eexists.
        -- cbn [res_bind]. discriminate.
      * intros [= <-]. left. rewrite (float_of_str_raises _ _ E0). now eexists.
    + intros [= <-]. right. now eexists.
  - intros H. left. rewrite (float_of_str_raises _ _ H). now eexists.
Qed.

Lemma try_parse_ok (l : chars) (f : pyfloat) :
  parse_minutes l = Ok f -> try_parse l = Ok f.
Proof. unfold try_parse. now intros ->. Qed.

Lemma try_parse_handles (l : chars) (e : exn) :
  parse_minutes l = Raise e -> try_parse l = Ok fzero.
Proof.
  intros H. unfold try_parse. rewrite H.
  destruct (parse_minutes_raises _ _ H) as [[msg ->]|[msg ->]]; reflexivity.
Qed.

Lemma try_parse_total (l : chars) : exists f, try_parse l = Ok f.
Proof.
  destruct (parse_minutes l) as [f|e] eqn:E.
  - exists f. now apply try_parse_ok.
  - exists fzero. now apply try_parse_handles with e.
Qed.

(** On a string the early return for [''] agrees with the [try]. *)
Lemma convert_str (s : chars) :
  convert_to_decimal (PStr s) = try_parse (strip s).
Proof. destruct s; reflexivity. Qed.

(** An int that [str] prints is read back as it is. *)
Lemma convert_int (z : Z) :
  (Z.abs z < int_limit)%Z ->
  convert_to_decimal (PInt z) = Ok (Ffin (inject_Z z)).
Proof.
  intros Hz. unfold convert_to_decimal. cbn [isna is_empty_str orb].
  destruct (str_of_int_shape z Hz) as (body & _ & _ & E & _).
  destruct (str_of_int_plain z _ E) as [Hs Hc].
  assert (Hf := float_of_int_str z _ E).
  rewrite E. cbn [res_bind]. rewrite Hs.
  apply try_parse_ok. unfold parse_minutes. now rewrite Hc.
Qed.

(** What [str] raises for a longer int is raised outside the [try]. *)
Lemma convert_int_long (z : Z) :
  (int_limit <= Z.abs z)%Z ->
  convert_to_decimal (PInt z) = Raise exceeds_limit.
Proof.
  intros Hz. unfold convert_to_decimal. cbn [isna is_empty_str orb].
  now rewrite (str_of_int_long z Hz).
Qed.

Lemma convert_total (v : pyval) :
  (forall z, v = PInt z -> (Z.abs z < int_limit)%Z) ->
  exists f, convert_to_decimal v = Ok f.
Proof.
  intros Hv. destruct v as [|f|z|s].
  - now exists fzero.
  - destruct f; now eexists.
  - eexists. apply convert_int. now apply Hv.
  - rewrite convert_str. apply try_parse_total.
Qed.

Lemma convert_plain (M : chars) (m : pyfloat) :
  has_colon M = false -> float_of_str M = Ok m ->
  convert_to_decimal (PStr M) = Ok m.
Proof.
  intros Hc Hm. rewrite convert_str.
  apply try_parse_ok. unfold parse_minutes.
  rewrite (has_colon_strip _ Hc). now apply float_of_str_strip.
Qed.

Lemma convert_colon (M S : chars) (m s : pyfloat) :
  has_colon M = false -> has_colon S = false ->
  float_of_str M = Ok m -> float_of_str S = Ok s ->
  convert_to_decimal (PStr (M ++ text ":" ++ S)) = Ok (fadd m (fdiv60 s)).
Proof.
  intros HM HS Hm Hs. rewrite convert_str.
  apply try_parse_ok. now apply parse_minutes_colon.
Qed.

(** Nothing after the colon: [float('')] raises inside the [try]. *)
Lemma convert_empty_seconds (M : chars) :
  has_colon M = false ->
  convert_to_decimal (PStr (M ++ text ":")) = Ok fzero.
Proof.
  intros HM. rewrite convert_str.
  change (M ++ text ":") with (M ++ chr ":" :: []).
  rewrite strip_around_colon.
  destruct (parse_minutes (lstrip M ++ chr ":" :: rstrip [])) as [f|e] eqn:E.
  2:{ now apply try_parse_handles with e. }
  exfalso. revert E. unfold parse_minutes.
  rewrite has_colon_app. cbn [has_colon existsb].
  rewrite is_colon_chr, orb_true_r. cbn [orb].
  rewrite (split_at_colon _ _ (has_colon_lstrip _ HM)).
  cbn [rstrip rstrip_by split_colon index nth_error res_bind List.length
       Nat.ltb Nat.leb].
  destruct (float_of_str (lstrip M)); discriminate.
Qed.

Lemma fnonneg_sum (m s : pyfloat) :
  fnonneg m -> fnonneg s -> fnonneg (fadd m (fdiv60 s)).
Proof.
  destruct m as [|a|x], s as [|b|y]; simpl; try tauto.
  - intros -> ->. reflexivity.
  - intros Hx Hy. apply Qle_trans with (0 + 0); [now compute|].
    apply Qplus_le_compat; [assumption|].
    unfold Qdiv. apply Qmult_le_0_compat; [assumption | now compute].
Qed.

End MinutesFacts.

Module MinutesConverterSpec.
Import PyStr PyFloatParse MinutesConverter.

(** C5, as stated, fails.  An int of 5001 digits is not turned into text:
    [str] raises, outside the [try], and the ValueError reaches the
    caller.  And a text whose seconds are missing after the colon is not
    read as its minutes: ["30:"] gives [0.0], not [30.0]. *)
Lemma convert_to_decimal_raises :
  convert_to_decimal (PInt (10 ^ 5000)) = Raise exceeds_limit
  /\ convert_to_decimal (PStr (text "30:")) = Ok fzero
  /\ ~ feq fzero (Ffin 30).
Proof.
  split; [|split].
  - apply convert_int_long. vm_compute. discriminate.
  - vm_compute. reflexivity.
  - now compute.
Qed.

(** C5, amended.  [convert_to_decimal] sends every string ["M:S"] whose
    two parts [float] reads as [m] and [s] to [m + s/60] (["30:45"] gives
    30.75); an int [z] that [str] prints (at most 4300 digits) to
    [float(z)] and a float to itself; [None], nan and the empty string to
    [0.0]; every string on which the body of the [try] raises to [0.0]; it
    raises for no such argument.  A string without a colon that [float]
    reads is read as minutes alone.  After the test for a colon the list
    of parts has a second element, so the default of 0 seconds is never
    taken: a string that ends at its colon gives [0.0]. *)
Theorem convert_to_decimal_spec :
  (forall (M S : chars) (m s : pyfloat),
      has_colon M = false -> has_colon S = false ->
      float_of_str M = Ok m -> float_of_str S = Ok s ->
      convert_to_decimal (PStr (M ++ text ":" ++ S))
      = Ok (fadd m (fdiv60 s)))
  /\ (exists f, convert_to_decimal (PStr (text "30:45")) = Ok f
                /\ feq f (Ffin (3075 # 100)))
  /\ (forall z : Z, (Z.abs z < int_limit)%Z ->
                    convert_to_decimal (PInt z) = Ok (Ffin (inject_Z z)))
  /\ convert_to_decimal (PInt 30) = Ok (Ffin 30)
  /\ (forall f : pyfloat, f <> Fnan -> convert_to_decimal (PFloat f) = Ok f)
  /\ convert_to_decimal PNone = Ok fzero
  /\ convert_to_decimal (PFloat Fnan) = Ok fzero
  /\ convert_to_decimal (PStr []) = Ok fzero
  /\ (forall (s : chars) (e : exn),
         parse_minutes (strip s) = Raise e ->
         convert_to_decimal (PStr s) = Ok fzero)
  /\ (forall v : pyval,
         (forall z, v = PInt z -> (Z.abs z < int_limit)%Z) ->
         exists f, convert_to_decimal v = Ok f)
  /\ (forall (M : chars) (m : pyfloat),
         has_colon M = false -> float_of_str M = Ok m ->
         convert_to_decimal (PStr M) = Ok m)
  /\ (forall l : chars,
         has_colon l = true ->
         (1 <? List.length (split_colon l))%nat = true)
  /\ (forall M : chars,
         has_colon M = false ->
         convert_to_decimal (PStr (M ++ text ":")) = Ok fzero).
Proof.
  split; [exact convert_colon|].
  split; [eexists; split; [vm_compute; reflexivity | reflexivity]|].
  split; [exact convert_int|].
  split; [vm_compute; reflexivity|].
  split; [intros [] H; [congruence | reflexivity | reflexivity]|].
  split; [reflexivity|].
  split; [reflexivity|].
  split; [reflexivity|].
  split.
  { intros s e H. rewrite convert_str. now apply try_parse_handles with e. }
  split; [exact convert_total|].
  split; [exact convert_plain|].
  split; [exact split_colon_two|].
  exact convert_empty_seconds.
Qed.

Lemma convert_to_decimal_spec_witness :
  convert_to_decimal (PStr (text "30" ++ text ":" ++ text "45")) =
  Ok (fadd (Ffin 30) (fdiv60 (Ffin 45)))
  /\ convert_to_decimal (PInt 30) = Ok (Ffin (inject_Z 30))
  /\ convert_to_decimal (PStr (text "abc")) = Ok fzero
  /\ convert_to_decimal (PStr (text "30")) = Ok (Ffin 30)
  /\ convert_to_decimal (PStr (text "30" ++ text ":")) = Ok fzero.
Proof.
  destruct convert_to_decimal_spec
    as (Hcolon & _ & Hint & _ & _ & _ & _ & _ & Hbad & _ & Hplain & _ & Hend).
  split; [apply (Hcolon (text "30") (text "45")); vm_compute; reflexivity|].
  split; [apply (Hint 30%Z); vm_compute; reflexivity|].
  split; [apply (Hbad (text "abc") could_not_convert); vm_compute;
          reflexivity|].
  split; [apply (Hplain (text "30")); vm_compute; reflexivity|].
  apply (Hend (text "30")). vm_compute. reflexivity.
Defined.

(** C6, as stated, fails: the int [-5] gives [-5.0]. *)
Lemma convert_to_decimal_negative :
  convert_to_decimal (PInt (-5)) = Ok (Ffin (-5))
  /\ ~ fnonneg (Ffin (-5)).
Proof. split; [vm_compute; reflexivity | now compute]. Qed.

(** The arguments on which nothing negative is read: [None], nan, a
    non-negative float, a non-negative int that [str] prints, or a string
    every colon-separated part of which, when [float] reads it, reads as a
    non-negative number. *)
Definition input_nonneg (v : pyval) : Prop :=
  match v with
  | PNone => True
  | PFloat f => f = Fnan \/ fnonneg f
  | PInt z => (0 <= z < int_limit)%Z
  | PStr s =>
      forall (p : chars) (f : pyfloat),
        In p (split_colon (strip s)) -> float_of_str p = Ok f -> fnonneg f
  end.

(** C6, amended.  On those arguments the result is a non-negative
    float. *)
Theorem convert_to_decimal_nonneg (v : pyval) :
  input_nonneg v ->
  exists f, convert_to_decimal v = Ok f /\ fnonneg f.
Proof.
  assert (Hz : fnonneg fzero) by (now compute).
  destruct v as [|f|z|s]; cbn [input_nonneg].
  - intros _. now exists fzero.
  - intros [->|H]; [now exists fzero|].
    exists f. destruct f; [contradiction | now split | now split].
  - intros H. exists (Ffin (inject_Z z)).
    split; [apply convert_int; lia|].
    simpl. unfold Qle. simpl. lia.
  - intros H. rewrite convert_str.
    set (l := strip s) in *.
    destruct (parse_minutes l) as [f|e] eqn:E.
    2:{ exists fzero. split; [now apply try_parse_handles with e | exact Hz]. }
    exists f. split; [now apply try_parse_ok|].
    revert E. unfold parse_minutes, index.
    destruct (has_colon l) eqn:Hc.
    + destruct (nth_error (split_colon l) 0) as [p0|] eqn:E0;
        cbn [res_bind]; [|discriminate].
      destruct (float_of_str p0) as [m|] eqn:Em; cbn [res_bind];
        [|discriminate].
      assert (Hm : fnonneg m)
        by (apply (H p0 m); [now apply nth_error_In with 0%nat | exact Em]).
      destruct (1 <? List.length (split_colon l))%nat.
      * destruct (nth_error (split_colon l) 1) as [p1|] eqn:E1;
          cbn [res_bind]; [|discriminate].
        destruct (float_of_str p1) as [x|] eqn:Ex; cbn [res_bind];
          [|discriminate].
        intros [= <-]. apply fnonneg_sum; [exact Hm|].
        apply (H p1 x); [now apply nth_error_In with 1%nat | exact Ex].
      * cbn [res_bind]. intros [= <-]. exact (fnonneg_sum m fzero Hm Hz).
    + intros E. apply (H l f); [|exact E].
      rewrite (split_no_colon l Hc). now left.
Qed.

Lemma convert_to_decimal_nonneg_witness :
  exists f, convert_to_decimal (PStr (text "30:45")) = Ok f /\ fnonneg f.
Proof.
  apply (convert_to_decimal_nonneg (PStr (text "30:45"))).
  intros p f Hin Hf. vm_compute in Hin.
  destruct Hin as [<-|[<-|[]]]; vm_compute in Hf;
    injection Hf as <-; now compute.
Defined.

End MinutesConverterSpec.


(** ** Tables *)

(** The columns that the stages read as numbers. *)
Definition numeric_columns : list string :=
  ["minutes_played"; "fgm"; "fga"; "fg3m"; "fg3a"; "ftm"; "fta";
   "oreb"; "dreb"; "reb"; "fg_pct"; "fg3_pct"; "ft_pct";
   "ast"; "stl"; "blk"; "turnover"; "pf"; "pts"]%string.

Definition float_or_absent (X : DataFrame) (c : string) : bool :=
  match DF.get X c with
  | Some (Floats _) | None => true
  | Some _ => false
  end.

(** Every numeric column of the table is a float64 column. *)
Definition float_typed (X : DataFrame) : bool :=
  forallb (float_or_absent X) numeric_columns.

Section TableFacts.

Lemma get_set_same (X : DataFrame) (c : string) (s : Series) :
  DF.get (DF.set X c s) c = Some s.
Proof.
  induction X as [|[k v] X IH]; simpl.
  - now rewrite String.eqb_refl.
  - destruct (String.eqb k c) eqn:E; simpl; now rewrite E.
Qed.

Lemma get_set_other (X : DataFrame) (c c' : string) (s : Series) :
  c <> c' -> DF.get (DF.set X c s) c' = DF.get X c'.
Proof.
  intros Hne. induction X as [|[k v] X IH]; simpl.
  - destruct (String.eqb_spec c c'); [contradiction | reflexivity].
  - destruct (String.eqb_spec k c) as [->|Hk]; simpl.
    + destruct (String.eqb_spec c c'); [contradiction | reflexivity].
    + destruct (String.eqb k c'); [reflexivity | exact IH].
Qed.

Lemma set_get_id (X : DataFrame) (c : string) (s : Series) :
  DF.get X c = Some s -> DF.set X c s = X.
Proof.
  induction X as [|[k v] X IH]; simpl; [discriminate|].
  destruct (String.eqb k c).
  - now intros [= ->].
  - intros H. now rewrite IH.
Qed.

Lemma set_set (X : DataFrame) (c : string) (s t : Series) :
  DF.set (DF.set X c s) c t = DF.set X c t.
Proof.
  induction X as [|[k v] X IH]; simpl.
  - now rewrite String.eqb_refl.
  - destruct (String.eqb k c) eqn:E; simpl; rewrite E; [reflexivity|].
    now rewrite IH.
Qed.

Lemma has_get (X : DataFrame) (c : string) :
  DF.has X c = true <-> exists s, DF.get X c = Some s.
Proof.
  unfold DF.has. destruct (DF.get X c) as [s|].
  - split; [now exists s | reflexivity].
  - split; [discriminate | now intros [s H]].
Qed.

Lemma has_set (X : DataFrame) (c c' : string) (s : Series) :
  DF.has (DF.set X c s) c' = String.eqb c c' || DF.has X c'.
Proof.
  unfold DF.has. destruct (String.eqb_spec c c') as [->|Hne].
  - now rewrite get_set_same.
  - now rewrite get_set_other.
Qed.

Lemma floats_get (X : DataFrame) (c : string) (xs : list cell) :
  DF.floats X c = Ok xs <-> DF.get X c = Some (Floats xs).
Proof.
  unfold DF.floats. destruct (DF.get X c) as [[ys|ys|ys]|];
    split; congruence.
Qed.

Lemma float_typed_col (X : DataFrame) (c : string) :
  float_typed X = true -> In c numeric_columns ->
  DF.has X c = true -> exists xs, DF.floats X c = Ok xs.
Proof.
  intros Ht Hin Hh. unfold float_typed in Ht.
  rewrite forallb_forall in Ht. specialize (Ht c Hin).
  unfold float_or_absent, DF.has, DF.floats in *.
  destruct (DF.get X c) as [[xs|xs|xs]|]; try discriminate. now exists xs.
Qed.

Lemma float_typed_set (X : DataFrame) (c : string) (xs : list cell) :
  float_typed X = true -> float_typed (DF.set X c (Floats xs)) = true.
Proof.
  unfold float_typed. rewrite !forallb_forall. intros H k Hk.
  unfold float_or_absent. destruct (String.eqb_spec c k) as [->|Hne].
  - now rewrite get_set_same.
  - rewrite get_set_other by assumption. exact (H k Hk).
Qed.

Lemma any_false (mask : list bool) :
  DF.any mask = false <-> Forall (fun b => b = false) mask.
Proof.
  unfold DF.any. induction mask as [|b mask IH]; simpl.
  - split; [constructor | reflexivity].
  - rewrite orb_false_iff, IH. split.
    + intros [-> H]. now constructor.
    + intros H. inversion H; subst. now split.
Qed.

Lemma any_true (mask : list bool) :
  DF.any mask = true <-> exists i, nth_error mask i = Some true.
Proof.
  unfold DF.any. rewrite existsb_exists. split.
  - intros (b & Hin & ->). apply In_nth_error in Hin. exact Hin.
  - intros [i H]. exists true. split; [|reflexivity].
    now apply nth_error_In with i.
Qed.

Lemma nth_map2 {A B C} (f : A -> B -> C) (l1 : list A) (l2 : list B)
      (i : nat) (a : A) (b : B) :
  nth_error l1 i = Some a -> nth_error l2 i = Some b ->
  nth_error (DF.map2 f l1 l2) i = Some (f a b).
Proof.
  revert l2 i. induction l1 as [|x l1 IH]; intros [|y l2] [|i]; simpl;
    try discriminate.
  - now intros [= ->] [= ->].
  - apply IH.
Qed.

Lemma nth_map2_inv {A B C} (f : A -> B -> C) (l1 : list A) (l2 : list B)
      (i : nat) (c : C) :
  nth_error (DF.map2 f l1 l2) i = Some c ->
  exists a b, nth_error l1 i = Some a /\ nth_error l2 i = Some b
              /\ c = f a b.
Proof.
  revert l2 i. induction l1 as [|x l1 IH]; intros [|y l2] [|i]; simpl;
    try discriminate.
  - intros [= <-]. now exists x, y.
  - apply IH.
Qed.

End TableFacts.

(** ** Steps that write one float column *)

Section StepFacts.

Lemma Qltb_lt (x y : Q) : Qltb x y = true <-> x < y.
Proof.
  unfold Qltb. rewrite negb_true_iff, <- not_true_iff_false, Qle_bool_iff.
  split; [apply Qnot_le_lt | apply Qlt_not_le].
Qed.

Lemma Qltb_ge (x y : Q) : Qltb x y = false <-> y <= x.
Proof.
  unfold Qltb. rewrite negb_false_iff. apply Qle_bool_iff.
Qed.

(** [X'] is [X], or [X] with its float column [c] rewritten. *)
Definition writes_only (c : string) (X X' : DataFrame) : Prop :=
  X' = X \/ (DF.has X c = true /\ exists xs, X' = DF.set X c (Floats xs)).

Lemma writes_only_get (c c' : string) (X X' : DataFrame) :
  writes_only c X X' -> c' <> c -> DF.get X' c' = DF.get X c'.
Proof.
  intros [->|[_ [xs ->]]] Hne; [reflexivity|].
  apply get_set_other. congruence.
Qed.

Lemma writes_only_typed (c : string) (X X' : DataFrame) :
  writes_only c X X' -> float_typed X = true -> float_typed X' = true.
Proof.
  intros [->|[_ [xs ->]]] H; [exact H | now apply float_typed_set].
Qed.

Lemma writes_only_has (c c' : string) (X X' : DataFrame) :
  writes_only c X X' -> DF.has X' c' = DF.has X c'.
Proof.
  intros [->|[Hc [xs ->]]]; [reflexivity|].
  rewrite has_set. destruct (String.eqb_spec c c') as [<-|_]; [|reflexivity].
  now rewrite Hc.
Qed.

Lemma writes_only_refl (c : string) (X : DataFrame) : writes_only c X X.
Proof. now left. Qed.

Lemma writes_only_set (c : string) (X : DataFrame) (xs : list cell) :
  DF.has X c = true -> writes_only c X (DF.set X c (Floats xs)).
Proof. intros H. right. split; [exact H | now exists xs]. Qed.

End StepFacts.

(** ** DataValidator *)

Section ValidatorFacts.
Import DataValidator.

(** The made column after the shot check with auto-fix. *)
Definition clamp_made (made att : list cell) : list cell :=
  if DF.any (DF.map2 Cell.gt made att)
  then DF.loc_assign (DF.map2 Cell.gt made att) att made
  else made.

(** The total-rebounds column after the rebound check with auto-fix. *)
Definition fix_reb (reb oreb dreb : list cell) : list cell :=
  if DF.any (reb_mismatch reb (DF.map2 Cell.add oreb dreb))
  then DF.map2 Cell.add oreb dreb
  else reb.

Lemma loc_assign_gt_rows (made att : list cell) (i : nat) (m a : Q) :
  nth_error (DF.loc_assign (DF.map2 Cell.gt made att) att made) i
  = Some (Some m) ->
  nth_error att i = Some (Some a) -> m <= a.
Proof.
  revert att i. induction made as [|x made IH]; intros [|y att] [|i]; simpl;
    try discriminate.
  - intros H [= ->]. destruct (Cell.gt x (Some a)) eqn:E.
    + injection H as [= ->]. apply Qle_refl.
    + injection H as [= ->]. simpl in E. now apply Qltb_ge in E.
  - apply IH.
Qed.

Lemma clamp_made_rows (made att : list cell) (i : nat) (m a : Q) :
  nth_error (clamp_made made att) i = Some (Some m) ->
  nth_error att i = Some (Some a) -> m <= a.
Proof.
  unfold clamp_made. destruct (DF.any _) eqn:E.
  - apply loc_assign_gt_rows.
  - intros Hm Ha. apply any_false in E. rewrite Forall_forall in E.
    assert (H := nth_map2 Cell.gt made att i _ _ Hm Ha).
    apply nth_error_In in H. apply E in H. simpl in H.
    now apply Qltb_ge in H.
Qed.

Lemma fix_reb_rows (reb oreb dreb : list cell) (i : nat) (r o d : Q) :
  nth_error (fix_reb reb oreb dreb) i = Some (Some r) ->
  nth_error oreb i = Some (Some o) ->
  nth_error dreb i = Some (Some d) ->
  Qabs (r - (o + d)) <= tolerance.
Proof.
  unfold fix_reb. intros Hr Ho Hd.
  assert (Hc := nth_map2 Cell.add oreb dreb i _ _ Ho Hd).
  destruct (DF.any _) eqn:E.
  - rewrite Hc in Hr. injection Hr as [= <-].
    setoid_replace (o + d - (o + d)) with 0 by ring. now compute.
  - apply any_false in E. rewrite Forall_forall in E.
    assert (H := nth_map2
                   (fun r c => Cell.gt (Cell.abs (Cell.sub r c))
                                       (Some tolerance))
                   reb (DF.map2 Cell.add oreb dreb) i _ _ Hr Hc).
    apply nth_error_In in H. apply E in H. simpl in H.
    now apply Qltb_ge in H.
Qed.

(** At least one row is off by more than the tolerance. *)
Definition some_row_mismatch (reb oreb dreb : list cell) : Prop :=
  exists (i : nat) (r o d : Q),
    nth_error reb i = Some (Some r)
    /\ nth_error oreb i = Some (Some o)
    /\ nth_error dreb i = Some (Some d)
    /\ tolerance < Qabs (r - (o + d)).

Lemma reb_mismatch_any (reb oreb dreb : list cell) :
  DF.any (reb_mismatch reb (DF.map2 Cell.add oreb dreb)) = true
  <-> some_row_mismatch reb oreb dreb.
Proof.
  rewrite any_true. unfold reb_mismatch, some_row_mismatch. split.
  - intros [i H]. apply nth_map2_inv in H as (r & c & Hr & Hc & E).
    apply nth_map2_inv in Hc as (o & d & Ho & Hd & ->).
    destruct r as [r|], o as [o|], d as [d|]; simpl in E; try discriminate.
    exists i, r, o, d. repeat split; try assumption.
    symmetry in E. now apply Qltb_lt in E.
  - intros (i & r & o & d & Hr & Ho & Hd & Hlt). exists i.
    rewrite (nth_map2 _ _ _ i _ _ Hr (nth_map2 Cell.add _ _ i _ _ Ho Hd)).
    simpl. f_equal. now apply Qltb_lt.
Qed.

Lemma check_minutes_spec (cfg : CleaningConfig) (X : DataFrame) :
  float_typed X = true ->
  exists X', check_minutes cfg X = Ok X'
             /\ writes_only "minutes_played" X X'.
Proof.
  intros Ht. unfold check_minutes.
  destruct (DF.has X "minutes_played") eqn:Hh.
  - destruct (float_typed_col X "minutes_played" Ht) as [xs ->];
      [simpl; tauto | exact Hh |]. cbn [res_bind].
    destruct (DF.any _); [destruct (auto_fix_inconsistencies cfg)|];
      eexists; split; try reflexivity;
      auto using writes_only_refl, writes_only_set.
  - eexists; split; [reflexivity | apply writes_only_refl].
Qed.

Lemma check_shots_spec (cfg : CleaningConfig) (X : DataFrame)
      (made_col attempt_col : string) :
  float_typed X = true ->
  In made_col numeric_columns -> In attempt_col numeric_columns ->
  auto_fix_inconsistencies cfg = true ->
  exists X', check_shots cfg X (made_col, attempt_col) = Ok X'
             /\ writes_only made_col X X'
             /\ forall made att,
                 DF.get X made_col = Some (Floats made) ->
                 DF.get X attempt_col = Some (Floats att) ->
                 DF.get X' made_col = Some (Floats (clamp_made made att)).
Proof.
  intros Ht Hm Ha Hfix. unfold check_shots.
  destruct (DF.has X made_col) eqn:Hhm; cbn [andb].
  2:{ exists X. split; [reflexivity|]. split; [apply writes_only_refl|].
      intros made att E. unfold DF.has in Hhm. now rewrite E in Hhm. }
  destruct (DF.has X attempt_col) eqn:Hha.
  2:{ exists X. split; [reflexivity|]. split; [apply writes_only_refl|].
      intros made att _ E. unfold DF.has in Hha. now rewrite E in Hha. }
  destruct (float_typed_col X made_col Ht Hm Hhm) as [ms Ems].
  destruct (float_typed_col X attempt_col Ht Ha Hha) as [ats Eats].
  rewrite Ems, Eats. cbn [res_bind]. rewrite Hfix.
  apply floats_get in Ems, Eats.
  destruct (DF.any (DF.map2 Cell.gt ms ats)) eqn:E.
  - eexists. split; [reflexivity|]. split; [now apply writes_only_set|].
    intros made att E1 E2. rewrite E1 in Ems. rewrite E2 in Eats.
    injection Ems as ->. injection Eats as ->.
    rewrite get_set_same. unfold clamp_made. now rewrite E.
  - exists X. split; [reflexivity|]. split; [apply writes_only_refl|].
    intros made att E1 E2. rewrite E1 in Ems. rewrite E2 in Eats.
    injection Ems as ->. injection Eats as ->.
    rewrite E1. unfold clamp_made. now rewrite E.
Qed.

Lemma check_rebounds_spec (cfg : CleaningConfig) (X : DataFrame) :
  float_typed X = true ->
  auto_fix_inconsistencies cfg = true ->
  exists X', check_rebounds cfg X = Ok X'
             /\ writes_only "reb" X X'
             /\ forall reb oreb dreb,
                 DF.get X "reb" = Some (Floats reb) ->
                 DF.get X "oreb" = Some (Floats oreb) ->
                 DF.get X "dreb" = Some (Floats dreb) ->
                 DF.get X' "reb" = Some (Floats (fix_reb reb oreb dreb)).
Proof.
  intros Ht Hfix. unfold check_rebounds.
  destruct (DF.has X "reb") eqn:Hr; cbn [andb].
  2:{ exists X. split; [reflexivity|]. split; [apply writes_only_refl|].
      intros reb oreb dreb E. unfold DF.has in Hr. now rewrite E in Hr. }
  destruct (DF.has X "oreb") eqn:Ho; cbn [andb].
  2:{ exists X. split; [reflexivity|]. split; [apply writes_only_refl|].
      intros reb oreb dreb _ E. unfold DF.has in Ho. now rewrite E in Ho. }
  destruct (DF.has X "dreb") eqn:Hd.
  2:{ exists X. split; [reflexivity|]. split; [apply writes_only_refl|].
      intros reb oreb dreb _ _ E. unfold DF.has in Hd. now rewrite E in Hd. }
  destruct (float_typed_col X "reb" Ht) as [rs Er]; [simpl; tauto | exact Hr|].
  destruct (float_typed_col X "oreb" Ht) as [os Eo]; [simpl; tauto | exact Ho|].
  destruct (float_typed_col X "dreb" Ht) as [ds Ed]; [simpl; tauto | exact Hd|].
  rewrite Eo, Ed, Er. cbn [res_bind]. rewrite Hfix.
  apply floats_get in Er, Eo, Ed.
  destruct (DF.any (reb_mismatch rs (DF.map2 Cell.add os ds))) eqn:E.
  - eexists. split; [reflexivity|]. split; [now apply writes_only_set|].
    intros reb oreb dreb E1 E2 E3. rewrite E1 in Er. rewrite E2 in Eo.
    rewrite E3 in Ed. injection Er as ->. injection Eo as ->.
    injection Ed as ->. rewrite get_set_same. unfold fix_reb. now rewrite E.
  - exists X. split; [reflexivity|]. split; [apply writes_only_refl|].
    intros reb oreb dreb E1 E2 E3. rewrite E1 in Er. rewrite E2 in Eo.
    rewrite E3 in Ed. injection Er as ->. injection Eo as ->.
    injection Ed as ->. rewrite E1. unfold fix_reb. now rewrite E.
Qed.

Lemma check_pct_spec (cfg : CleaningConfig) (X : DataFrame) (col : string) :
  float_typed X = true -> In col numeric_columns ->
  exists X', check_pct cfg X col = Ok X' /\ writes_only col X X'.
Proof.
  intros Ht Hin. unfold check_pct. destruct (DF.has X col) eqn:Hh.
  - destruct (float_typed_col X col Ht Hin Hh) as [xs ->]. cbn [res_bind].
    destruct (DF.any _); [destruct (auto_fix_inconsistencies cfg)|];
      eexists; split; try reflexivity;
      auto using writes_only_refl, writes_only_set.
  - eexists; split; [reflexivity | apply writes_only_refl].
Qed.

Lemma check_extreme_spec (X : DataFrame) (col : string) (max_val : Z) :
  float_typed X = true -> In col numeric_columns ->
  check_extreme X (col, max_val) = Ok X.
Proof.
  intros Ht Hin. unfold check_extreme. destruct (DF.has X col) eqn:Hh.
  - now destruct (float_typed_col X col Ht Hin Hh) as [xs ->].
  - reflexivity.
Qed.

End ValidatorFacts.

Section ValidatorRun.
Import DataValidator.

Ltac in_numeric := simpl; tauto.
Ltac frame W := rewrite (writes_only_get _ _ _ _ W) by discriminate.

(** What [_transform_impl] leaves in the shot and rebound columns of a
    table of float columns when auto-fix is on. *)
Lemma validator_run (self : BaseNBATransformer) (X : DataFrame) :
  float_typed X = true ->
  auto_fix_inconsistencies (config self) = true ->
  exists X',
    _transform_impl self X = Ok X'
    /\ (forall c, DF.has X' c = DF.has X c)
    /\ (forall made_col attempt_col made att,
           In (made_col, attempt_col) shot_checks ->
           DF.get X made_col = Some (Floats made) ->
           DF.get X attempt_col = Some (Floats att) ->
           DF.get X' made_col = Some (Floats (clamp_made made att))
           /\ DF.get X' attempt_col = Some (Floats att))
    /\ DF.get X' "oreb" = DF.get X "oreb"
    /\ DF.get X' "dreb" = DF.get X "dreb"
    /\ (forall reb oreb dreb,
           DF.get X "reb" = Some (Floats reb) ->
           DF.get X "oreb" = Some (Floats oreb) ->
           DF.get X "dreb" = Some (Floats dreb) ->
           DF.get X' "reb" = Some (Floats (fix_reb reb oreb dreb))).
Proof.
  intros Ht Hfix. unfold _transform_impl.
  set (cfg := config self) in *.
  destruct (check_minutes_spec cfg X Ht) as (X1 & E1 & W1).
  rewrite E1. cbn [res_bind].
  assert (Ht1 := writes_only_typed _ _ _ W1 Ht).
  unfold shot_checks. cbn [foldM].
  destruct (check_shots_spec cfg X1 "fgm" "fga" Ht1) as (X2 & E2 & W2 & P2);
    [in_numeric | in_numeric | exact Hfix |].
  rewrite E2. cbn [res_bind].
  assert (Ht2 := writes_only_typed _ _ _ W2 Ht1).
  destruct (check_shots_spec cfg X2 "fg3m" "fg3a" Ht2) as (X3 & E3 & W3 & P3);
    [in_numeric | in_numeric | exact Hfix |].
  rewrite E3. cbn [res_bind].
  assert (Ht3 := writes_only_typed _ _ _ W3 Ht2).
  destruct (check_shots_spec cfg X3 "ftm" "fta" Ht3) as (X4 & E4 & W4 & P4);
    [in_numeric | in_numeric | exact Hfix |].
  rewrite E4. cbn [res_bind].
  assert (Ht4 := writes_only_typed _ _ _ W4 Ht3).
  destruct (check_rebounds_spec cfg X4 Ht4 Hfix) as (X5 & E5 & W5 & P5).
  rewrite E5. cbn [res_bind].
  assert (Ht5 := writes_only_typed _ _ _ W5 Ht4).
  unfold pct_columns. cbn [foldM].
  destruct (check_pct_spec cfg X5 "fg_pct" Ht5) as (X6 & E6 & W6);
    [in_numeric|].
  rewrite E6. cbn [res_bind].
  assert (Ht6 := writes_only_typed _ _ _ W6 Ht5).
  destruct (check_pct_spec cfg X6 "fg3_pct" Ht6) as (X7 & E7 & W7);
    [in_numeric|].
  rewrite E7. cbn [res_bind].
  assert (Ht7 := writes_only_typed _ _ _ W7 Ht6).
  destruct (check_pct_spec cfg X7 "ft_pct" Ht7) as (X8 & E8 & W8);
    [in_numeric|].
  rewrite E8. cbn [res_bind].
  assert (Ht8 := writes_only_typed _ _ _ W8 Ht7).
  unfold sanity_checks. cbn [foldM].
  rewrite (check_extreme_spec X8 "pts" _ Ht8) by in_numeric. cbn [res_bind].
  rewrite (check_extreme_spec X8 "reb" _ Ht8) by in_numeric. cbn [res_bind].
  rewrite (check_extreme_spec X8 "ast" _ Ht8) by in_numeric. cbn [res_bind].
  exists X8. split; [reflexivity|]. split.
  { intros c.
    rewrite (writes_only_has _ c _ _ W8), (writes_only_has _ c _ _ W7),
      (writes_only_has _ c _ _ W6), (writes_only_has _ c _ _ W5),
      (writes_only_has _ c _ _ W4), (writes_only_has _ c _ _ W3),
      (writes_only_has _ c _ _ W2), (writes_only_has _ c _ _ W1).
    reflexivity. }
  split.
  { intros made_col attempt_col made att Hin Hm Ha.
    simpl in Hin. destruct Hin as [[= <- <-]|[[= <- <-]|[[= <- <-]|[]]]].
    - split.
      + frame W8. frame W7. frame W6. frame W5. frame W4. frame W3.
        apply P2; frame W1; assumption.
      + frame W8. frame W7. frame W6. frame W5. frame W4. frame W3.
        frame W2. frame W1. exact Ha.
    - split.
      + frame W8. frame W7. frame W6. frame W5. frame W4.
        apply P3; frame W2; frame W1; assumption.
      + frame W8. frame W7. frame W6. frame W5. frame W4. frame W3.
        frame W2. frame W1. exact Ha.
    - split.
      + frame W8. frame W7. frame W6. frame W5.
        apply P4; frame W3; frame W2; frame W1; assumption.
      + frame W8. frame W7. frame W6. frame W5. frame W4. frame W3.
        frame W2. frame W1. exact Ha. }
  split.
  { frame W8. frame W7. frame W6. frame W5. frame W4. frame W3. frame W2.
    frame W1. reflexivity. }
  split.
  { frame W8. frame W7. frame W6. frame W5. frame W4. frame W3. frame W2.
    frame W1. reflexivity. }
  intros reb oreb dreb Hr Ho Hd.
  frame W8. frame W7. frame W6. apply P5.
  - frame W4. frame W3. frame W2. frame W1. exact Hr.
  - frame W4. frame W3. frame W2. frame W1. exact Ho.
  - frame W4. frame W3. frame W2. frame W1. exact Hd.
Qed.

End ValidatorRun.

Module DataValidatorSpec.
Import DataValidator.

(** [a <= b] on two cells as pandas evaluates it: false when either is
    NaN. *)
Definition cell_le (a b : cell) : Prop :=
  match a, b with
  | Some x, Some y => x <= y
  | _, _ => False
  end.

(** [reb == oreb + dreb] within the tolerance; false when a cell is NaN. *)
Definition cell_reb_ok (r o d : cell) : Prop :=
  match r, o, d with
  | Some r, Some o, Some d => Qabs (r - (o + d)) <= tolerance
  | _, _, _ => False
  end.

(** Made is at most attempted in every row, for the three pairs. *)
Definition shots_consistent (X : DataFrame) : Prop :=
  forall made_col attempt_col made att i m a,
    In (made_col, attempt_col) shot_checks ->
    DF.get X made_col = Some (Floats made) ->
    DF.get X attempt_col = Some (Floats att) ->
    nth_error made i = Some m -> nth_error att i = Some a ->
    cell_le m a.

(** Total rebounds are the sum of the two parts in every row. *)
Definition rebounds_consistent (X : DataFrame) : Prop :=
  forall reb oreb dreb i r o d,
    DF.get X "reb" = Some (Floats reb) ->
    DF.get X "oreb" = Some (Floats oreb) ->
    DF.get X "dreb" = Some (Floats dreb) ->
    nth_error reb i = Some r -> nth_error oreb i = Some o ->
    nth_error dreb i = Some d ->
    cell_reb_ok r o d.

Definition null_attempts : DataFrame :=
  [("fgm"%string, Floats [Some 5]); ("fga"%string, Floats [None])].

(** C4, as stated, fails on a row with a null: 5 made shots against a NaN
    number of attempts stay as they are, and [5 <= NaN] does not hold. *)
Lemma validation_leaves_null_rows :
  float_typed null_attempts = true
  /\ auto_fix_inconsistencies default_config = true
  /\ _transform_impl (Base.init default_config true) null_attempts
     = Ok null_attempts
  /\ ~ shots_consistent null_attempts.
Proof.
  repeat split.
  intros H.
  exact (H "fgm"%string "fga"%string [Some 5] [None] 0%nat (Some 5) None
           (or_introl eq_refl) eq_refl eq_refl eq_refl eq_refl).
Qed.

(** C4, amended.  On a table of float columns, with auto-fix on, the
    transformation returns a table in which every row whose made and
    attempted cells are both numbers has made at most attempted, for the
    three pairs, and every row whose three rebound cells are numbers has
    [reb] within 0.1 of [oreb + dreb]. *)
Theorem validation_invariant (self : BaseNBATransformer) (X : DataFrame) :
  float_typed X = true ->
  auto_fix_inconsistencies (config self) = true ->
  exists X',
    _transform_impl self X = Ok X'
    /\ (forall made_col attempt_col made att i m a,
           In (made_col, attempt_col) shot_checks ->
           DF.get X' made_col = Some (Floats made) ->
           DF.get X' attempt_col = Some (Floats att) ->
           nth_error made i = Some (Some m) ->
           nth_error att i = Some (Some a) ->
           m <= a)
    /\ (forall reb oreb dreb i r o d,
           DF.get X' "reb" = Some (Floats reb) ->
           DF.get X' "oreb" = Some (Floats oreb) ->
           DF.get X' "dreb" = Some (Floats dreb) ->
           nth_error reb i = Some (Some r) ->
           nth_error oreb i = Some (Some o) ->
           nth_error dreb i = Some (Some d) ->
           Qabs (r - (o + d)) <= tolerance).
Proof.
  intros Ht Hfix.
  destruct (validator_run self X Ht Hfix)
    as (X' & E & Hhas & Hshots & Ho & Hd & Hreb).
  assert (Hback : forall c xs,
             In c numeric_columns -> DF.get X' c = Some (Floats xs) ->
             exists ys, DF.get X c = Some (Floats ys)).
  { intros c xs Hin Hg.
    assert (Hh : DF.has X c = true)
      by (rewrite <- Hhas; apply has_get; eauto).
    destruct (float_typed_col X c Ht Hin Hh) as [ys Hys].
    exists ys. now apply floats_get. }
  exists X'. split; [exact E|]; split.
  - intros made_col attempt_col made att i m a Hin Hm Ha Hmi Hai.
    assert (Hcols : In made_col numeric_columns
                    /\ In attempt_col numeric_columns).
    { simpl in Hin.
      destruct Hin as [[= <- <-]|[[= <- <-]|[[= <- <-]|[]]]];
        split; simpl; tauto. }
    destruct Hcols as [Hc1 Hc2].
    destruct (Hback _ _ Hc1 Hm) as [made0 Hm0].
    destruct (Hback _ _ Hc2 Ha) as [att0 Ha0].
    destruct (Hshots _ _ _ _ Hin Hm0 Ha0) as [Hm' Ha'].
    rewrite Hm in Hm'. rewrite Ha in Ha'.
    injection Hm' as ->. injection Ha' as ->.
    exact (clamp_made_rows _ _ _ _ _ Hmi Hai).
  - intros reb oreb dreb i r o d Hr Hor Hdr Hri Hoi Hdi.
    destruct (Hback "reb"%string _ ltac:(simpl; tauto) Hr) as [reb0 Hr0].
    rewrite Ho in Hor. rewrite Hd in Hdr.
    rewrite (Hreb _ _ _ Hr0 Hor Hdr) in Hr. injection Hr as <-.
    exact (fix_reb_rows _ _ _ _ _ _ _ Hri Hoi Hdi).
Qed.

Definition shots_and_rebounds : DataFrame :=
  [("fgm"%string, Floats [Some 5; Some 1]);
   ("fga"%string, Floats [Some 3; Some 2]);
   ("reb"%string, Floats [Some 5; Some 3]);
   ("oreb"%string, Floats [Some 1; Some 1]);
   ("dreb"%string, Floats [Some 1; Some 2])].

Lemma validation_invariant_witness :
  exists X',
    _transform_impl (Base.init default_config true) shots_and_rebounds = Ok X'
    /\ DF.get X' "fgm" = Some (Floats [Some 3; Some 1])
    /\ forall i m a,
        nth_error [Some 3; Some 1] i = Some (Some m) ->
        nth_error [Some 3; Some 2] i = Some (Some a) -> m <= a.
Proof.
  destruct (validation_invariant (Base.init default_config true)
              shots_and_rebounds eq_refl eq_refl) as (X' & E & Hs & _).
  exists X'. split; [exact E|].
  assert (E' := E). vm_compute in E'. injection E' as <-.
  split; [reflexivity|].
  intros i m a Hm Ha.
  exact (Hs "fgm"%string "fga"%string _ _ i m a (or_introl eq_refl)
            eq_refl eq_refl Hm Ha).
Defined.

(** C10.  On a table of float columns holding [reb], [oreb] and [dreb],
    with auto-fix on: if some row has [reb] further than 0.1 from
    [oreb + dreb], the whole [reb] column becomes [oreb + dreb], row by row,
    whether or not the row matched; if no row has, [reb] is left as it
    was.  [oreb] and [dreb] are never changed. *)
Theorem rebound_fix_scope (self : BaseNBATransformer) (X : DataFrame)
        (reb oreb dreb : list cell) :
  float_typed X = true ->
  auto_fix_inconsistencies (config self) = true ->
  DF.get X "reb" = Some (Floats reb) ->
  DF.get X "oreb" = Some (Floats oreb) ->
  DF.get X "dreb" = Some (Floats dreb) ->
  exists X',
    _transform_impl self X = Ok X'
    /\ DF.get X' "oreb" = Some (Floats oreb)
    /\ DF.get X' "dreb" = Some (Floats dreb)
    /\ (some_row_mismatch reb oreb dreb ->
        DF.get X' "reb" = Some (Floats (DF.map2 Cell.add oreb dreb))
        /\ forall i o d,
            nth_error oreb i = Some o -> nth_error dreb i = Some d ->
            nth_error (DF.map2 Cell.add oreb dreb) i = Some (Cell.add o d))
    /\ (~ some_row_mismatch reb oreb dreb ->
        DF.get X' "reb" = Some (Floats reb)).
Proof.
  intros Ht Hfix Hr Ho Hd.
  destruct (validator_run self X Ht Hfix)
    as (X' & E & _ & _ & Ho' & Hd' & Hreb).
  exists X'. split; [exact E|].
  split; [congruence|]. split; [congruence|].
  specialize (Hreb _ _ _ Hr Ho Hd). unfold fix_reb in Hreb.
  split.
  - intros Hmis. apply reb_mismatch_any in Hmis. rewrite Hmis in Hreb.
    split; [exact Hreb|]. intros i o d. apply nth_map2.
  - intros Hno.
    destruct (DF.any (reb_mismatch reb (DF.map2 Cell.add oreb dreb))) eqn:Ea.
    + apply reb_mismatch_any in Ea. contradiction.
    + exact Hreb.
Qed.

Lemma rebound_fix_scope_witness :
  exists X',
    _transform_impl (Base.init default_config true) shots_and_rebounds = Ok X'
    /\ DF.get X' "reb" = Some (Floats [Some (1 + 1); Some (1 + 2)]).
Proof.
  destruct (rebound_fix_scope (Base.init default_config true)
              shots_and_rebounds [Some 5; Some 3] [Some 1; Some 1]
              [Some 1; Some 2] eq_refl eq_refl eq_refl eq_refl eq_refl)
    as (X' & E & _ & _ & Hfix & _).
  exists X'. split; [exact E|].
  apply Hfix. exists 0%nat, 5, 1, 1.
  repeat (split; [reflexivity|]). now compute.
Defined.

End DataValidatorSpec.

(** ** MissingValueHandler *)

Section MissingFacts.
Import MissingValueHandler.

(** The column [c], where the table has it, is a float column without
    NaN. *)
Definition no_nulls (c : string) (X : DataFrame) : Prop :=
  forall s, DF.get X c = Some s ->
            exists xs, s = Floats xs /\ Forall (fun x => x <> None) xs.

Lemma fillna_no_nulls (v : Q) (xs : list cell) :
  Forall (fun x => x <> None) (map (Cell.fillna v) xs).
Proof.
  induction xs as [|[x|] xs IH]; simpl; constructor;
    try discriminate; assumption.
Qed.

Lemma no_isna_no_nulls (xs : list cell) :
  filter Cell.isna xs = [] -> Forall (fun x => x <> None) xs.
Proof.
  induction xs as [|[x|] xs IH]; simpl; intros H; constructor;
    try discriminate; auto.
Qed.

Lemma fill_percentage_spec (X : DataFrame) (m : string * string * string) :
  float_typed X = true -> In m percentage_mappings ->
  exists X', fill_percentage X m = Ok X'
             /\ writes_only (fst (fst m)) X X'.
Proof.
  intros Ht Hin.
  assert (Hm : exists pct att made,
             m = (pct, att, made) /\ In pct numeric_columns
             /\ In att numeric_columns /\ In made numeric_columns
             /\ att <> pct /\ made <> pct).
  { simpl in Hin. destruct Hin as [<-|[<-|[<-|[]]]];
      do 3 eexists; (split; [reflexivity|]);
      repeat split; simpl; try tauto; discriminate. }
  destruct Hm as (pct & att & made & -> & Hp & Ha & Hmd & Nap & Nmp).
  cbn [fst]. unfold fill_percentage.
  destruct (DF.has X pct) eqn:Hhp; cbn [andb];
    [|exists X; split; [reflexivity | apply writes_only_refl]].
  destruct (DF.has X att) eqn:Hha;
    [|exists X; split; [reflexivity | apply writes_only_refl]].
  destruct (float_typed_col X att Ht Ha Hha) as [ats Eats].
  destruct (float_typed_col X pct Ht Hp Hhp) as [ps Eps].
  rewrite Eats, Eps. cbn [res_bind].
  set (ps1 := DF.loc_assign_scalar _ (Some 0) ps).
  set (X1 := DF.set X pct (Floats ps1)).
  assert (W1 : writes_only pct X X1) by (now apply writes_only_set).
  destruct (DF.has X1 made) eqn:Hhm; [|now exists X1].
  assert (E1 : DF.floats X1 pct = Ok ps1)
    by (apply floats_get; apply get_set_same).
  assert (E2 : DF.floats X1 att = Ok ats).
  { apply floats_get. unfold X1. rewrite get_set_other by congruence.
    now apply floats_get. }
  rewrite E1, E2. cbn [res_bind].
  destruct (DF.any _); [|now exists X1].
  rewrite (writes_only_has _ made _ _ W1) in Hhm.
  destruct (float_typed_col X made Ht Hmd Hhm) as [ms Ems].
  assert (E3 : DF.floats X1 made = Ok ms).
  { apply floats_get. unfold X1. rewrite get_set_other by congruence.
    now apply floats_get. }
  rewrite E3. cbn [res_bind]. eexists. split; [reflexivity|].
  unfold X1. rewrite set_set. now apply writes_only_set.
Qed.

Lemma fill_counting_spec (X : DataFrame) (col : string) :
  float_typed X = true -> In col numeric_columns ->
  exists X', fill_counting X col = Ok X'
             /\ writes_only col X X' /\ no_nulls col X'.
Proof.
  intros Ht Hin. unfold fill_counting.
  destruct (DF.has X col) eqn:Hh.
  - destruct (float_typed_col X col Ht Hin Hh) as [xs Exs].
    rewrite Exs. cbn [res_bind]. apply floats_get in Exs.
    destruct (filter Cell.isna xs) as [|y ys] eqn:Ef; cbn [List.length Nat.ltb Nat.leb].
    + exists X. split; [reflexivity|]. split; [apply writes_only_refl|].
      intros s Hs. rewrite Exs in Hs. injection Hs as <-.
      exists xs. split; [reflexivity | now apply no_isna_no_nulls].
    + eexists. split; [reflexivity|]. split; [now apply writes_only_set|].
      intros s Hs. rewrite get_set_same in Hs. injection Hs as <-.
      eexists. split; [reflexivity | apply fillna_no_nulls].
  - exists X. split; [reflexivity|]. split; [apply writes_only_refl|].
    intros s Hs. unfold DF.has in Hh. now rewrite Hs in Hh.
Qed.

Lemma fill_counting_fold (cols : list string) (X : DataFrame) :
  float_typed X = true ->
  (forall c, In c cols -> In c numeric_columns) ->
  NoDup cols ->
  exists X',
    foldM fill_counting cols X = Ok X'
    /\ float_typed X' = true
    /\ (forall c, DF.has X' c = DF.has X c)
    /\ (forall c, ~ In c cols -> DF.get X' c = DF.get X c)
    /\ (forall c, In c cols -> no_nulls c X').
Proof.
  revert X. induction cols as [|col cols IH]; intros X Ht Hnum Hnd.
  - exists X. simpl. repeat split; auto. intros c [].
  - destruct (fill_counting_spec X col Ht (Hnum col (or_introl eq_refl)))
      as (X1 & E1 & W1 & N1).
    inversion Hnd as [|? ? Hnotin Hnd']; subst.
    destruct (IH X1 (writes_only_typed _ _ _ W1 Ht)
                 (fun c H => Hnum c (or_intror H)) Hnd')
      as (X' & E & Ht' & Hhas & Hframe & Hnn).
    exists X'. cbn [foldM]. rewrite E1. cbn [res_bind].
    split; [exact E|]. split; [exact Ht'|]. split.
    { intros c. rewrite Hhas. apply (writes_only_has _ c _ _ W1). }
    split.
    { intros c Hc. rewrite Hframe by (intros H; apply Hc; now right).
      apply (writes_only_get _ _ _ _ W1). intros ->. apply Hc. now left. }
    intros c [<-|Hc].
    + intros s Hs. rewrite (Hframe col Hnotin) in Hs. exact (N1 s Hs).
    + exact (Hnn c Hc).
Qed.

Lemma fill_minutes_spec (X : DataFrame) :
  float_typed X = true ->
  exists X', fill_minutes X = Ok X' /\ writes_only "minutes_played" X X'.
Proof.
  intros Ht. unfold fill_minutes.
  destruct (DF.has X "minutes_played") eqn:Hh.
  - destruct (float_typed_col X "minutes_played" Ht) as [xs ->];
      [simpl; tauto | exact Hh|].
    cbn [res_bind]. eexists. split; [reflexivity|].
    now apply writes_only_set.
  - exists X. split; [reflexivity | apply writes_only_refl].
Qed.

Lemma counting_stats_numeric (c : string) :
  In c counting_stats -> In c numeric_columns.
Proof. simpl. tauto. Qed.

Lemma counting_stats_nodup : NoDup counting_stats.
Proof.
  unfold counting_stats.
  repeat (constructor; [simpl; intros H;
                        repeat (destruct H as [H|H]; [discriminate|]);
                        exact H|]).
  constructor.
Qed.

End MissingFacts.

Module MissingValueHandlerSpec.
Import MissingValueHandler.

(** C7.  With [fill_counting_stats_with_zero] set, the transformation of a
    table of float columns returns a table with the same columns in which
    no counting-stat column that is present holds a null. *)
Theorem no_null_counting_stats (self : BaseNBATransformer) (X : DataFrame) :
  float_typed X = true ->
  fill_counting_stats_with_zero (config self) = true ->
  exists X',
    _transform_impl self X = Ok X'
    /\ (forall c, DF.has X' c = DF.has X c)
    /\ forall col s,
        In col counting_stats -> DF.get X' col = Some s ->
        exists xs, s = Floats xs /\ Forall (fun x => x <> None) xs.
Proof.
  intros Ht Hfill. unfold _transform_impl, percentage_mappings.
  cbn [foldM].
  destruct (fill_percentage_spec X ("fg_pct", "fga", "fgm")%string Ht)
    as (X1 & E1 & W1); [simpl; tauto|].
  rewrite E1. cbn [res_bind].
  assert (Ht1 := writes_only_typed _ _ _ W1 Ht).
  destruct (fill_percentage_spec X1 ("fg3_pct", "fg3a", "fg3m")%string Ht1)
    as (X2 & E2 & W2); [simpl; tauto|].
  rewrite E2. cbn [res_bind].
  assert (Ht2 := writes_only_typed _ _ _ W2 Ht1).
  destruct (fill_percentage_spec X2 ("ft_pct", "fta", "ftm")%string Ht2)
    as (X3 & E3 & W3); [simpl; tauto|].
  rewrite E3. cbn [res_bind].
  assert (Ht3 := writes_only_typed _ _ _ W3 Ht2).
  rewrite Hfill.
  destruct (fill_counting_fold counting_stats X3 Ht3 counting_stats_numeric
              counting_stats_nodup) as (X4 & E4 & Ht4 & Hhas & _ & Hnn).
  rewrite E4. cbn [res_bind].
  destruct (fill_minutes_spec X4 Ht4) as (X5 & E5 & W5).
  exists X5. split; [exact E5|]. split.
  - intros c.
    rewrite (writes_only_has _ c _ _ W5), Hhas, (writes_only_has _ c _ _ W3),
      (writes_only_has _ c _ _ W2), (writes_only_has _ c _ _ W1).
    reflexivity.
  - intros col s Hin Hs.
    rewrite (writes_only_get _ _ _ _ W5) in Hs.
    + exact (Hnn col Hin s Hs).
    + intros ->. revert Hin. simpl. intros H.
      repeat (destruct H as [H|H]; [discriminate|]). exact H.
Qed.

Definition table_with_nulls : DataFrame :=
  [("pts"%string, Floats [Some 12; None]);
   ("reb"%string, Floats [None; Some 4]);
   ("fga"%string, Floats [Some 0; None]);
   ("fg_pct"%string, Floats [None; None])].

Lemma no_null_counting_stats_witness :
  exists X',
    MissingValueHandler._transform_impl (Base.init default_config true)
      table_with_nulls = Ok X'
    /\ DF.get X' "pts" = Some (Floats [Some 12; Some 0])
    /\ forall col s,
        In col counting_stats -> DF.get X' col = Some s ->
        exists xs, s = Floats xs /\ Forall (fun x => x <> None) xs.
Proof.
  destruct (no_null_counting_stats (Base.init default_config true)
              table_with_nulls eq_refl eq_refl) as (X' & E & _ & H).
  exists X'. split; [exact E|].
  assert (E' := E). vm_compute in E'. injection E' as <-.
  split; [reflexivity | exact H].
Defined.

End MissingValueHandlerSpec.

(** ** BaseNBATransformer *)

Section BaseFacts.
Variable Self : Type.
Variable base : Self -> BaseNBATransformer.
Variable set_base : BaseNBATransformer -> Self -> Self.
Variable impl : Self -> DataFrame -> Res DataFrame.
Hypothesis base_set_base : forall b s, base (set_base b s) = b.

(** [transform] as one case analysis on the attributes of [self]. *)
Lemma transform_cases (X : DataFrame) (self : Self) :
  Base.transform base impl X self =
  if negb (is_fitted_ (base self)) then (Raise Base.not_fitted, self)
  else
    match required_columns_ (base self) with
    | Some required =>
        if Base.nonempty (Base.missing_cols required X)
           && strict_validation (config (base self))
        then (Raise Base.missing_required, self)
        else (impl self X, self)
    | None => (impl self X, self)
    end.
Proof.
  unfold Base.transform, Base._validate_input, mbind, mget, mraise, mret,
    mlift, DF.copy.
  destruct (is_fitted_ (base self)) eqn:Ef; cbn [negb]; [|reflexivity].
  rewrite Ef.
  destruct (required_columns_ (base self)) as [required|]; [|reflexivity].
  destruct (_ && _); reflexivity.
Qed.

(** [transform] never writes an attribute. *)
Lemma transform_frame (X : DataFrame) (self : Self) :
  snd (Base.transform base impl X self) = self.
Proof.
  rewrite transform_cases.
  destruct (negb _); [reflexivity|].
  destruct (required_columns_ _); [destruct (_ && _)|]; reflexivity.
Qed.

Lemma validate_input_cases (X : DataFrame) (self : Self) :
  Base._validate_input base X self =
  if is_fitted_ (base self) then
    match required_columns_ (base self) with
    | Some required =>
        if Base.nonempty (Base.missing_cols required X)
           && strict_validation (config (base self))
        then (Raise Base.missing_required, self)
        else (Ok X, self)
    | None => (Ok X, self)
    end
  else (Ok X, self).
Proof.
  unfold Base._validate_input, mbind, mget, mraise, mret, DF.copy.
  destruct (is_fitted_ (base self)); [|reflexivity].
  destruct (required_columns_ (base self)); [|reflexivity].
  destruct (_ && _); reflexivity.
Qed.

(** [fit] sets [is_fitted_] and the input schema, nothing else. *)
Lemma fit_result (X : DataFrame) (self self' : Self) :
  Base.fit base set_base X self = (Ok tt, self') ->
  is_fitted_ (base self') = true
  /\ feature_names_in_ (base self') = Some (DF.columns X)
  /\ required_columns_ (base self') = required_columns_ (base self)
  /\ config (base self') = config (base self).
Proof.
  unfold Base.fit, mbind. rewrite validate_input_cases.
  unfold Base._store_input_info, mbind, mget, mput.
  destruct (is_fitted_ (base self));
    [destruct (required_columns_ (base self)) eqn:Er;
     [destruct (_ && _); [discriminate|]|]|];
    intros [= <-]; rewrite base_set_base; cbn; auto.
Qed.

Lemma fit_unconstrained (X : DataFrame) (self : Self) :
  required_columns_ (base self) = None ->
  exists self', Base.fit base set_base X self = (Ok tt, self').
Proof.
  intros Hr. unfold Base.fit, mbind. rewrite validate_input_cases, Hr.
  unfold Base._store_input_info, mbind, mget, mput.
  destruct (is_fitted_ (base self)); eexists; reflexivity.
Qed.

Lemma missing_cols_nonempty (required : list string) (X : DataFrame)
      (c : string) :
  In c required -> DF.has X c = false ->
  Base.nonempty (Base.missing_cols required X) = true.
Proof.
  intros Hin Hc. unfold Base.missing_cols.
  assert (H : In c (filter (fun c => negb (DF.has X c)) required))
    by (apply filter_In; split; [exact Hin | now rewrite Hc]).
  destruct (filter _ required); [contradiction | reflexivity].
Qed.

End BaseFacts.

Module BaseSpec.

Definition fit_table : DataFrame :=
  [("pts"%string, Floats [Some 10; Some 20]);
   ("reb"%string, Floats [Some 5; Some 7])].

Definition other_table : DataFrame :=
  [("ast"%string, Floats [Some 3])].

(** The validation stage after construction and [fit] on [fit_table]. *)
Definition fitted_validator : BaseNBATransformer :=
  snd (DataValidator.fit fit_table (Base.init default_config true)).

(** C2, as stated, fails: a stage constructed with strict validation and
    fitted on a table with [pts] and [reb] transforms a table that has
    neither, and returns instead of raising. *)
Lemma strict_validation_does_not_raise :
  is_fitted_ fitted_validator = true
  /\ strict_validation (config fitted_validator) = true
  /\ feature_names_in_ fitted_validator = Some ["pts"; "reb"]%string
  /\ DF.has other_table "pts" = false
  /\ DataValidator.transform other_table fitted_validator
     = (Ok other_table, fitted_validator).
Proof. repeat split. Qed.

(** C2, amended.  For every stage that inherits [transform]: a fitted stage
    whose [required_columns_] attribute names a column that the table lacks
    fails with the missing-columns error when strict validation is on; a
    fitted stage without that attribute runs its transformation whatever
    the columns of the table; and neither construction nor [fit] sets the
    attribute. *)
Theorem strict_validation_scope
        (Self : Type) (base : Self -> BaseNBATransformer)
        (set_base : BaseNBATransformer -> Self -> Self)
        (impl : Self -> DataFrame -> Res DataFrame) :
  (forall b s, base (set_base b s) = b) ->
  (forall (self : Self) (X : DataFrame) (required : list string) (c : string),
      is_fitted_ (base self) = true ->
      strict_validation (config (base self)) = true ->
      required_columns_ (base self) = Some required ->
      In c required -> DF.has X c = false ->
      Base.transform base impl X self = (Raise Base.missing_required, self))
  /\ (forall (self : Self) (X : DataFrame),
         is_fitted_ (base self) = true ->
         required_columns_ (base self) = None ->
         Base.transform base impl X self = (impl self X, self))
  /\ (forall cfg verb, required_columns_ (Base.init cfg verb) = None)
  /\ (forall (self self' : Self) (X : DataFrame),
         Base.fit base set_base X self = (Ok tt, self') ->
         required_columns_ (base self') = required_columns_ (base self)).
Proof.
  intros Hlens. repeat split.
  - intros self X required c Hf Hs Hr Hin Hc.
    rewrite transform_cases, Hf, Hr, Hs. cbn [negb].
    now rewrite (missing_cols_nonempty required X c Hin Hc).
  - intros self X Hf Hr. now rewrite transform_cases, Hf, Hr.
  - intros self self' X H.
    now destruct (fit_result Self base set_base Hlens X self self' H)
      as (_ & _ & ? & _).
Qed.

(** A validation stage that was given a list of required columns. *)
Definition validator_requiring_pts : BaseNBATransformer :=
  {| config := default_config;
     verbose := true;
     feature_names_in_ := Some ["pts"; "reb"]%string;
     n_features_in_ := Some 2%nat;
     is_fitted_ := true;
     required_columns_ := Some ["pts"]%string |}.

Lemma strict_validation_scope_witness :
  DataValidator.transform other_table validator_requiring_pts
  = (Raise Base.missing_required, validator_requiring_pts)
  /\ DataValidator.transform other_table fitted_validator
     = (DataValidator._transform_impl fitted_validator other_table,
        fitted_validator).
Proof.
  destruct (strict_validation_scope BaseNBATransformer (fun b => b)
              (fun b _ => b) DataValidator._transform_impl
              (fun b s => eq_refl)) as (Hraise & Hrun & _ & _).
  split.
  - apply (Hraise validator_requiring_pts other_table ["pts"%string]
             "pts"%string); try reflexivity. now left.
  - apply (Hrun fitted_validator other_table); reflexivity.
Defined.

End BaseSpec.

(** ** OutlierDetector: the stored bounds *)

Section BoundsFacts.
Import OutlierDetector.

Definition keys (d : BoundsDict) : list string := map fst d.

Lemma dict_get_set_same (d : BoundsDict) (k : string) (v : Bounds) :
  dict_get (dict_set d k v) k = Some v.
Proof.
  induction d as [|[k' w] d IH]; simpl.
  - now rewrite String.eqb_refl.
  - destruct (String.eqb k' k) eqn:E; simpl; now rewrite E.
Qed.

Lemma dict_get_set_other (d : BoundsDict) (k k' : string) (v : Bounds) :
  k <> k' -> dict_get (dict_set d k v) k' = dict_get d k'.
Proof.
  intros Hne. induction d as [|[k0 w] d IH]; simpl.
  - destruct (String.eqb_spec k k'); [contradiction | reflexivity].
  - destruct (String.eqb_spec k0 k) as [->|Hk]; simpl.
    + destruct (String.eqb_spec k k'); [contradiction | reflexivity].
    + destruct (String.eqb k0 k'); [reflexivity | exact IH].
Qed.

Lemma dict_set_new (d : BoundsDict) (k : string) (v : Bounds) :
  ~ In k (keys d) -> dict_set d k v = d ++ [(k, v)].
Proof.
  induction d as [|[k' w] d IH]; simpl; [reflexivity|].
  intros H. destruct (String.eqb_spec k' k) as [->|Hne].
  - exfalso. apply H. now left.
  - rewrite IH; [reflexivity|]. intros Hin. apply H. now right.
Qed.

Lemma keys_dict_set (d : BoundsDict) (k : string) (v : Bounds) :
  keys (dict_set d k v) = if existsb (String.eqb k) (keys d)
                          then keys d else keys d ++ [k].
Proof.
  induction d as [|[k' w] d IH]; simpl; [reflexivity|].
  rewrite (String.eqb_sym k k').
  destruct (String.eqb_spec k' k) as [->|Hne]; simpl; [reflexivity|].
  rewrite IH. now destruct (existsb _ (keys d)).
Qed.

Lemma existsb_eqb_in (k : string) (l : list string) :
  existsb (String.eqb k) l = true <-> In k l.
Proof.
  rewrite existsb_exists. split.
  - intros (x & Hin & E). apply String.eqb_eq in E. now subst.
  - intros H. exists k. split; [exact H | apply String.eqb_refl].
Qed.

(** The dictionary keeps one entry per key, and only keys that [fit]
    writes. *)
Definition bounds_wf (d : BoundsDict) : Prop :=
  NoDup (keys d) /\ incl (keys d) outlier_columns.

Lemma bounds_wf_set (d : BoundsDict) (k : string) (v : Bounds) :
  bounds_wf d -> In k outlier_columns -> bounds_wf (dict_set d k v).
Proof.
  intros [Hnd Hincl] Hk. unfold bounds_wf. rewrite keys_dict_set.
  destruct (existsb (String.eqb k) (keys d)) eqn:E; [now split|].
  split.
  - apply NoDup_app; [exact Hnd | now repeat constructor |].
    intros x Hx [<-|[]].
    apply existsb_eqb_in in Hx. congruence.
  - apply incl_app; [exact Hincl|]. intros x [<-|[]]. exact Hk.
Qed.

Variable sqrt : Q -> Q.

(** One round of the loop of [fit] on the dictionary. *)
Definition fit_entry (cfg : CleaningConfig) (A : DataFrame)
           (d : BoundsDict) (col : string) : BoundsDict :=
  match DF.get A col with
  | Some (Floats xs) =>
      dict_set d col (_calculate_outlier_bounds sqrt cfg (Stats.dropna xs))
  | _ => d
  end.

(** The bounds that a table determines: for each outlier column it has, in
    the order of [outlier_columns], the bounds of its non-null values. *)
Definition bounds_from (cfg : CleaningConfig) (A : DataFrame) : BoundsDict :=
  flat_map
    (fun col =>
       match DF.get A col with
       | Some (Floats xs) =>
           [(col, _calculate_outlier_bounds sqrt cfg (Stats.dropna xs))]
       | _ => []
       end)
    outlier_columns.

Lemma fit_columns_run (A : DataFrame) (cols : list string)
      (self : OutlierDetector) :
  float_typed A = true ->
  (forall c, In c cols -> In c numeric_columns) ->
  forM_ cols (fit_column sqrt A) self =
  (Ok tt,
   {| od_base := od_base self;
      outlier_bounds_ :=
        fold_left (fit_entry (config (od_base self)) A) cols
                  (outlier_bounds_ self) |}).
Proof.
  intros Ht. revert self.
  induction cols as [|col cols IH]; intros self Hnum.
  - now destruct self.
  - cbn [forM_ fold_left]. unfold mbind at 1. unfold fit_column at 1.
    unfold fit_entry at 2.
    destruct (DF.has A col) eqn:Hh.
    + destruct (float_typed_col A col Ht (Hnum col (or_introl eq_refl)) Hh)
        as [xs Exs].
      unfold mbind, mlift, mget, mput. rewrite Exs.
      apply floats_get in Exs. rewrite Exs.
      rewrite IH by (intros c Hc; apply Hnum; now right). reflexivity.
    + unfold mret. unfold DF.has in Hh.
      destruct (DF.get A col); [discriminate|].
      rewrite IH by (intros c Hc; apply Hnum; now right). reflexivity.
Qed.

Lemma fit_entries_fresh (cfg : CleaningConfig) (A : DataFrame)
      (cols : list string) (d : BoundsDict) :
  NoDup cols -> (forall c, In c cols -> ~ In c (keys d)) ->
  fold_left (fit_entry cfg A) cols d =
  d ++ flat_map
         (fun col =>
            match DF.get A col with
            | Some (Floats xs) =>
                [(col, _calculate_outlier_bounds sqrt cfg (Stats.dropna xs))]
            | _ => []
            end)
         cols.
Proof.
  revert d. induction cols as [|col cols IH]; intros d Hnd Hfresh.
  - simpl. now rewrite app_nil_r.
  - inversion Hnd as [|? ? Hnotin Hnd']; subst. cbn [fold_left flat_map].
    assert (Hd : ~ In col (keys d)) by (apply Hfresh; now left).
    unfold fit_entry at 2.
    destruct (DF.get A col) as [[xs|xs|xs]|];
      try (rewrite IH; [reflexivity | exact Hnd' |
                        intros c Hc; apply Hfresh; now right]).
    rewrite (dict_set_new d col _ Hd), IH; [now rewrite <- app_assoc | exact Hnd' |].
    intros c Hc. unfold keys. rewrite map_app, in_app_iff.
    intros [H|[<-|[]]]; [|contradiction].
    revert H. apply Hfresh. now right.
Qed.

Lemma fit_entries_wf (cfg : CleaningConfig) (A : DataFrame)
      (cols : list string) (d : BoundsDict) :
  bounds_wf d -> incl cols outlier_columns ->
  bounds_wf (fold_left (fit_entry cfg A) cols d).
Proof.
  revert d. induction cols as [|col cols IH]; intros d Hwf Hincl; [exact Hwf|].
  cbn [fold_left]. apply IH.
  - unfold fit_entry. destruct (DF.get A col) as [[xs|xs|xs]|]; try exact Hwf.
    apply bounds_wf_set; [exact Hwf | apply Hincl; now left].
  - intros c Hc. apply Hincl. now right.
Qed.

(** After the loop, a column that the table has holds the bounds of the
    table; a column that it lacks keeps its entry. *)
Lemma fit_entries_get (cfg : CleaningConfig) (A : DataFrame)
      (cols : list string) (d : BoundsDict) (col : string) :
  dict_get (fold_left (fit_entry cfg A) cols d) col =
  match DF.get A col with
  | Some (Floats xs) =>
      if existsb (String.eqb col) cols
      then Some (_calculate_outlier_bounds sqrt cfg (Stats.dropna xs))
      else dict_get d col
  | _ => dict_get d col
  end.
Proof.
  revert d. induction cols as [|c cols IH]; intros d.
  - simpl. now destruct (DF.get A col) as [[?|?|?]|].
  - cbn [fold_left existsb]. rewrite IH. unfold fit_entry.
    destruct (String.eqb_spec col c) as [<-|Hne].
    + destruct (DF.get A col) as [[xs|xs|xs]|]; try reflexivity.
      cbn [orb]. destruct (existsb (String.eqb col) cols); [reflexivity|].
      apply dict_get_set_same.
    + destruct (DF.get A col) as [[xs|xs|xs]|] eqn:E; cbn [orb];
        destruct (DF.get A c) as [[ys|ys|ys]|]; try reflexivity;
        rewrite dict_get_set_other by congruence; reflexivity.
Qed.

Lemma outlier_columns_numeric (c : string) :
  In c outlier_columns -> In c numeric_columns.
Proof. simpl. tauto. Qed.

Lemma outlier_columns_nodup : NoDup outlier_columns.
Proof.
  unfold outlier_columns.
  repeat (constructor; [simpl; intros H;
                        repeat (destruct H as [H|H]; [discriminate|]);
                        exact H|]).
  constructor.
Qed.

(** [fit] on a table of float columns, for a detector without required
    columns. *)
Lemma outlier_fit_run (A : DataFrame) (self : OutlierDetector) :
  float_typed A = true ->
  required_columns_ (od_base self) = None ->
  fit sqrt A self =
  (Ok tt,
   {| od_base :=
        {| config := config (od_base self);
           verbose := verbose (od_base self);
           feature_names_in_ := Some (DF.columns A);
           n_features_in_ := Some (List.length (DF.columns A));
           is_fitted_ := true;
           required_columns_ := None |};
      outlier_bounds_ :=
        fold_left (fit_entry (config (od_base self)) A) outlier_columns
                  (outlier_bounds_ self) |}).
Proof.
  intros Ht Hr. unfold fit. unfold mbind at 1.
  rewrite validate_input_cases, Hr.
  replace (if is_fitted_ (od_base self) then (Ok A, self) else (Ok A, self))
    with (@Ok DataFrame A, self) by (now destruct (is_fitted_ _)).
  unfold mbind. rewrite (fit_columns_run A outlier_columns self Ht
                           outlier_columns_numeric).
  unfold Base._store_input_info, mbind, mget, mput, set_base. cbn.
  now rewrite Hr.
Qed.

End BoundsFacts.

(** ** Loops that rewrite one column per item *)

Section OneColumnSteps.
Variable tgt : string -> string.
Variable f : Bounds -> list cell -> Series.

(** Read the float column [col], write the column [tgt col]. *)
Definition column_step (X : DataFrame) (item : string * Bounds)
  : Res DataFrame :=
  let (col, b) := item in
  if DF.has X col then
    res_bind (DF.floats X col)
             (fun xs => Ok (DF.set X (tgt col) (f b xs)))
  else Ok X.

(** The step of [item] would write what the table already holds. *)
Definition settled (X : DataFrame) (item : string * Bounds) : Prop :=
  DF.get X (fst item) = None
  \/ exists xs, DF.get X (fst item) = Some (Floats xs)
                /\ DF.get X (tgt (fst item)) = Some (f (snd item) xs).

(** No step writes what another step reads or writes. *)
Definition separated (ks : list string) : Prop :=
  NoDup ks
  /\ forall k k', In k ks -> In k' ks -> k <> k' ->
                  tgt k <> k' /\ tgt k <> tgt k'.

(** A step that writes the column it reads writes a fixed point. *)
Definition stable (ks : list string) : Prop :=
  forall k b xs, In k ks -> tgt k = k ->
                 exists ys, f b xs = Floats ys /\ f b ys = Floats ys.

Lemma settled_fixed (bs : BoundsDict) (X : DataFrame) :
  (forall item, In item bs -> settled X item) ->
  foldM column_step bs X = Ok X.
Proof.
  induction bs as [|[col b] bs IH]; intros H; [reflexivity|].
  cbn [foldM]. unfold column_step at 1.
  destruct (H (col, b) (or_introl eq_refl)) as [Hn|(xs & Hx & Ht)];
    cbn [fst snd] in *.
  - unfold DF.has. rewrite Hn. cbn [res_bind].
    apply IH. intros item Hin. apply H. now right.
  - unfold DF.has. rewrite Hx. apply floats_get in Hx. rewrite Hx.
    cbn [res_bind]. rewrite (set_get_id _ _ _ Ht).
    apply IH. intros item Hin. apply H. now right.
Qed.

Lemma column_step_inv (X X' : DataFrame) (col : string) (b : Bounds) :
  column_step X (col, b) = Ok X' ->
  (DF.get X col = None /\ X' = X)
  \/ exists xs, DF.get X col = Some (Floats xs)
                /\ X' = DF.set X (tgt col) (f b xs).
Proof.
  unfold column_step, DF.has, DF.floats.
  destruct (DF.get X col) as [[xs|xs|xs]|]; cbn [res_bind];
    try discriminate.
  - intros [= <-]. right. now exists xs.
  - intros [= <-]. now left.
Qed.

Lemma column_steps_frame (bs : BoundsDict) (X X' : DataFrame) (c : string) :
  foldM column_step bs X = Ok X' ->
  (forall k, In k (keys bs) -> tgt k <> c) ->
  DF.get X' c = DF.get X c.
Proof.
  revert X. induction bs as [|[col b] bs IH]; intros X E Hc.
  - now injection E as <-.
  - cbn [foldM] in E.
    destruct (column_step X (col, b)) as [X1|e] eqn:E1; [|discriminate].
    cbn [res_bind] in E.
    rewrite (IH X1 E) by (intros k Hk; apply Hc; now right).
    destruct (column_step_inv _ _ _ _ E1) as [[_ ->]|(xs & _ & ->)];
      [reflexivity|].
    apply get_set_other. apply Hc. now left.
Qed.

Lemma column_steps_has (bs : BoundsDict) (X X' : DataFrame) (c : string) :
  foldM column_step bs X = Ok X' ->
  DF.has X c = true -> DF.has X' c = true.
Proof.
  revert X. induction bs as [|[col b] bs IH]; intros X E Hc.
  - now injection E as <-.
  - cbn [foldM] in E.
    destruct (column_step X (col, b)) as [X1|e] eqn:E1; [|discriminate].
    cbn [res_bind] in E. apply (IH X1 E).
    destruct (column_step_inv _ _ _ _ E1) as [[_ ->]|(xs & _ & ->)];
      [exact Hc|].
    rewrite has_set, Hc. apply orb_true_r.
Qed.

Lemma column_steps_settle (bs : BoundsDict) (X X1 : DataFrame) :
  separated (keys bs) -> stable (keys bs) ->
  foldM column_step bs X = Ok X1 ->
  forall item, In item bs -> settled X1 item.
Proof.
  revert X. induction bs as [|[col b] bs IH]; intros X Hsep Hst E item Hin;
    [contradiction|].
  destruct Hsep as [Hnd Hsep]. cbn [keys map fst] in Hnd, Hsep.
  inversion Hnd as [|? ? Hnotin Hnd']; subst.
  cbn [foldM] in E.
  destruct (column_step X (col, b)) as [X'|e] eqn:E1; [|discriminate].
  cbn [res_bind] in E.
  assert (Hrest : forall k, In k (keys bs) -> tgt k <> col /\ tgt k <> tgt col).
  { intros k Hk. apply Hsep; [now right | now left |].
    intros ->. contradiction. }
  destruct Hin as [<-|Hin].
  - unfold settled. cbn [fst snd].
    rewrite (column_steps_frame bs X' X1 col E)
      by (intros k Hk; apply (Hrest k Hk)).
    rewrite (column_steps_frame bs X' X1 (tgt col) E)
      by (intros k Hk; apply (Hrest k Hk)).
    destruct (column_step_inv _ _ _ _ E1) as [[Hn ->]|(xs & Hx & ->)];
      [now left|].
    right. rewrite get_set_same.
    destruct (String.eqb_spec (tgt col) col) as [Heq|Hne].
    + destruct (Hst col b xs (or_introl eq_refl) Heq) as (ys & Hy1 & Hy2).
      exists ys. rewrite Heq, get_set_same. split; congruence.
    + exists xs. rewrite get_set_other by exact Hne. now split.
  - apply (IH X'); try assumption.
    + split; [exact Hnd'|]. intros k k' Hk Hk'. apply Hsep; now right.
    + intros k b' xs Hk. apply Hst. now right.
Qed.

(** Running the loop again on its own result changes nothing. *)
Lemma column_steps_idempotent (bs : BoundsDict) (X X1 : DataFrame) :
  separated (keys bs) -> stable (keys bs) ->
  foldM column_step bs X = Ok X1 ->
  foldM column_step bs X1 = Ok X1.
Proof.
  intros Hsep Hst E. apply settled_fixed.
  exact (column_steps_settle bs X X1 Hsep Hst E).
Qed.

End OneColumnSteps.

(** ** OutlierDetector: transform *)

Section OutlierTransformFacts.
Import OutlierDetector.

Ltac q_cases :=
  repeat match goal with
         | |- context [Qltb ?a ?b] =>
             is_var a; is_var b;
             let E := fresh "E" in destruct (Qltb a b) eqn:E; cbv beta iota
         end.

Ltac q_facts :=
  repeat match goal with
         | H : Qltb _ _ = true |- _ => apply Qltb_lt in H
         | H : Qltb _ _ = false |- _ => apply Qltb_ge in H
         end.

Lemma pymin_le_pymax (l u : Q) : Cell.pymin l u <= Cell.pymax l u.
Proof.
  unfold Cell.pymin, Cell.pymax. q_cases; q_facts; lra.
Qed.

Lemma clip_idem (lower upper x : cell) :
  Cell.clip lower upper (Cell.clip lower upper x) = Cell.clip lower upper x.
Proof.
  unfold Cell.clip.
  destruct lower as [l|], upper as [u|]; destruct x as [v|];
    try reflexivity.
  - assert (Hle := pymin_le_pymax l u).
    set (lo := Cell.pymin l u) in *. set (hi := Cell.pymax l u) in *.
    clearbody lo hi. f_equal.
    q_cases; try reflexivity; exfalso; q_facts; lra.
  - f_equal. q_cases; try reflexivity; exfalso; q_facts; lra.
  - f_equal. q_cases; try reflexivity; exfalso; q_facts; lra.
Qed.

Definition cap_series (b : Bounds) (xs : list cell) : Series :=
  Floats (map (Cell.clip (fst b) (snd b)) xs).

Definition flag_series (b : Bounds) (xs : list cell) : Series :=
  Bools (outliers_mask b xs).

Definition flag_column (col : string) : string := (col ++ flag_suffix)%string.

Lemma handle_cap (X : DataFrame) (item : string * Bounds) :
  handle_column ActCap X item = column_step (fun k => k) cap_series X item.
Proof. now destruct item. Qed.

Lemma handle_flag (X : DataFrame) (item : string * Bounds) :
  handle_column ActFlag X item = column_step flag_column flag_series X item.
Proof. now destruct item. Qed.

Lemma foldM_ext {A B} (g h : B -> A -> Res B) (l : list A) (b : B) :
  (forall x a, g x a = h x a) -> foldM g l b = foldM h l b.
Proof.
  intros H. revert b. induction l as [|a l IH]; intros b; [reflexivity|].
  cbn [foldM]. rewrite H. destruct (h b a); cbn [res_bind]; auto.
Qed.

Lemma cap_separated (ks : list string) :
  NoDup ks -> separated (fun k => k) ks.
Proof. intros H. split; [exact H | now intros k k' _ _ Hne]. Qed.

Lemma cap_stable (ks : list string) : stable (fun k => k) cap_series ks.
Proof.
  intros k b xs _ _. unfold cap_series. eexists. split; [reflexivity|].
  f_equal. rewrite map_map. apply map_ext. intros x. apply clip_idem.
Qed.

Ltac outlier_cases H :=
  simpl in H;
  repeat (destruct H as [H|H]; [subst|]); [..|contradiction].

Lemma flag_column_fresh (k k' : string) :
  In k outlier_columns -> In k' outlier_columns ->
  flag_column k <> k'
  /\ (k <> k' -> flag_column k <> flag_column k').
Proof.
  intros Hk Hk'. outlier_cases Hk; outlier_cases Hk';
    (split; [discriminate | intros Hne; try discriminate; congruence]).
Qed.

Lemma flag_separated (ks : list string) :
  NoDup ks -> incl ks outlier_columns -> separated flag_column ks.
Proof.
  intros Hnd Hincl. split; [exact Hnd|].
  intros k k' Hk Hk' Hne.
  destruct (flag_column_fresh k k' (Hincl k Hk) (Hincl k' Hk')) as [H1 H2].
  split; [exact H1 | exact (H2 Hne)].
Qed.

Lemma flag_stable (ks : list string) :
  incl ks outlier_columns -> stable flag_column flag_series ks.
Proof.
  intros Hincl k b xs Hk Heq. exfalso.
  now destruct (flag_column_fresh k k (Hincl k Hk) (Hincl k Hk)) as [H _].
Qed.

(** The loop of [_transform_impl] is idempotent under cap and under
    flag. *)
Lemma transform_impl_idempotent (self : OutlierDetector) (X X1 : DataFrame) :
  bounds_wf (outlier_bounds_ self) ->
  outlier_action (config (od_base self)) <> ActRemove ->
  _transform_impl self X = Ok X1 ->
  _transform_impl self X1 = Ok X1.
Proof.
  intros [Hnd Hincl] Hact. unfold _transform_impl.
  destruct (outlier_action (config (od_base self))); [| |contradiction].
  - rewrite !(foldM_ext _ _ _ _ handle_flag).
    apply column_steps_idempotent;
      [now apply flag_separated | now apply flag_stable].
  - rewrite !(foldM_ext _ _ _ _ handle_cap).
    apply column_steps_idempotent;
      [now apply cap_separated | apply cap_stable].
Qed.

Lemma transform_impl_has (self : OutlierDetector) (X X1 : DataFrame)
      (c : string) :
  outlier_action (config (od_base self)) <> ActRemove ->
  _transform_impl self X = Ok X1 ->
  DF.has X c = true -> DF.has X1 c = true.
Proof.
  intros Hact. unfold _transform_impl.
  destruct (outlier_action (config (od_base self))); [| |contradiction].
  - rewrite (foldM_ext _ _ _ _ handle_flag). apply column_steps_has.
  - rewrite (foldM_ext _ _ _ _ handle_cap). apply column_steps_has.
Qed.

Lemma transform_impl_flag_frame (self : OutlierDetector) (X X1 : DataFrame)
      (col : string) :
  bounds_wf (outlier_bounds_ self) ->
  outlier_action (config (od_base self)) = ActFlag ->
  _transform_impl self X = Ok X1 ->
  In col outlier_columns ->
  DF.get X1 col = DF.get X col.
Proof.
  intros [_ Hincl] Hact. unfold _transform_impl. rewrite Hact.
  rewrite (foldM_ext _ _ _ _ handle_flag). intros E Hcol.
  apply (column_steps_frame flag_column flag_series _ _ _ _ E).
  intros k Hk.
  now destruct (flag_column_fresh k col (Hincl k Hk) Hcol).
Qed.

Lemma missing_cols_shrink (required : list string) (X X1 : DataFrame) :
  (forall c, DF.has X c = true -> DF.has X1 c = true) ->
  Base.nonempty (Base.missing_cols required X) = false ->
  Base.nonempty (Base.missing_cols required X1) = false.
Proof.
  intros Hmono. unfold Base.missing_cols.
  induction required as [|c required IH]; [reflexivity|].
  cbn [filter]. destruct (DF.has X c) eqn:Hc.
  - rewrite (Hmono c Hc). exact IH.
  - discriminate.
Qed.

Lemma init_bounds_wf (cfg : CleaningConfig) (verb : bool) :
  bounds_wf (outlier_bounds_ (init cfg verb)).
Proof. split; [constructor | intros k []]. Qed.

(** [fit] keeps the dictionary well formed. *)
Lemma fit_bounds_wf (sqrt : Q -> Q) (A : DataFrame)
      (self self' : OutlierDetector) :
  float_typed A = true ->
  required_columns_ (od_base self) = None ->
  bounds_wf (outlier_bounds_ self) ->
  fit sqrt A self = (Ok tt, self') ->
  bounds_wf (outlier_bounds_ self').
Proof.
  intros Ht Hr Hwf. rewrite (outlier_fit_run sqrt A self Ht Hr).
  intros [= <-].
  exact (fit_entries_wf sqrt (config (od_base self)) A outlier_columns
           (outlier_bounds_ self) Hwf (incl_refl _)).
Qed.

End OutlierTransformFacts.

(** ** Example tables *)

Definition floats_of (l : list Z) : Series :=
  Floats (map (fun z => Some (inject_Z z)) l).

(** The tables of the regression test: points {1, 2, 3, 100} to fit, and a
    table to transform in which 50 lies outside its own bounds but inside
    those of the first. *)
Definition table_A : DataFrame := [("pts"%string, floats_of [1; 2; 3; 100]%Z)].
Definition table_B : DataFrame :=
  [("pts"%string, floats_of [1; 2; 3; 4; 5; 6; 7; 8; 9; 50]%Z)].

(** The interquartile method calls no square root. *)
Definition sqrt_unused (q : Q) : Q := q.

Module OutlierDetectorSpec.
Import OutlierDetector.

(** What a re-fit does to a detector that already holds bounds: the columns
    that the new table has get its bounds, the other entries stay. *)
Lemma refit_law (sqrt : Q -> Q) (A : DataFrame) (self : OutlierDetector)
      (col : string) :
  float_typed A = true ->
  required_columns_ (od_base self) = None ->
  In col outlier_columns ->
  dict_get (outlier_bounds_ (snd (fit sqrt A self))) col =
  match DF.get A col with
  | Some (Floats xs) =>
      Some (_calculate_outlier_bounds sqrt (config (od_base self))
              (Stats.dropna xs))
  | _ => dict_get (outlier_bounds_ self) col
  end.
Proof.
  intros Ht Hr Hin. rewrite (outlier_fit_run sqrt A self Ht Hr).
  cbn [snd outlier_bounds_]. rewrite fit_entries_get.
  apply existsb_eqb_in in Hin. now rewrite Hin.
Qed.

(** C8.  For a detector whose bounds were stored by [fit], under the cap
    and the flag action: when [transform] returns a table, [transform] on
    that table returns it unchanged, so capped values and recomputed flags
    are the same; under flag the outlier columns of the first result are
    those of the input. *)
Theorem outlier_transform_idempotent
        (self : OutlierDetector) (X X1 : DataFrame) :
  bounds_wf (outlier_bounds_ self) ->
  outlier_action (config (od_base self)) <> ActRemove ->
  transform X self = (Ok X1, self) ->
  transform X1 self = (Ok X1, self)
  /\ (outlier_action (config (od_base self)) = ActFlag ->
      forall col, In col outlier_columns -> DF.get X1 col = DF.get X col).
Proof.
  intros Hwf Hact. unfold transform. rewrite !transform_cases.
  destruct (negb (is_fitted_ (od_base self))); [discriminate|].
  assert (Hrun : (_transform_impl self X, self) = (Ok X1, self) ->
                 (_transform_impl self X1, self) = (Ok X1, self)
                 /\ (outlier_action (config (od_base self)) = ActFlag ->
                     forall col, In col outlier_columns ->
                                 DF.get X1 col = DF.get X col)).
  { intros [= E]. split.
    - now rewrite (transform_impl_idempotent self X X1 Hwf Hact E).
    - intros Hflag col Hcol.
      exact (transform_impl_flag_frame self X X1 col Hwf Hflag E Hcol). }
  destruct (required_columns_ (od_base self)) as [required|]; [|exact Hrun].
  destruct (strict_validation (config (od_base self)));
    rewrite ?andb_false_r; [|exact Hrun].
  rewrite !andb_true_r.
  destruct (Base.nonempty (Base.missing_cols required X)) eqn:Em;
    [discriminate|].
  intros H. assert (H' := H). injection H' as E.
  rewrite (missing_cols_shrink required X X1
             (fun c => transform_impl_has self X X1 c Hact E) Em).
  exact (Hrun H).
Qed.

Definition capping_config : CleaningConfig :=
  {| max_minutes_per_game := 60;
     max_reasonable_points := 100;
     max_reasonable_rebounds := 30;
     max_reasonable_assists := 25;
     fill_counting_stats_with_zero := true;
     drop_threshold_missing_pct := 95;
     outlier_method := Iqr;
     outlier_threshold := 3;
     outlier_action := ActCap;
     standardize_positions := true;
     create_full_names := true;
     strict_validation := true;
     auto_fix_inconsistencies := true;
     default_first_game_rest := 7 |}.

Definition capping_detector : OutlierDetector :=
  snd (fit sqrt_unused table_B (init capping_config true)).

Definition table_C : DataFrame :=
  [("pts"%string, floats_of [0; 10; 90; (-40)]%Z)].

Definition table_C_capped : DataFrame :=
  [("pts"%string,
    Floats [Some 0; Some 10; Some (1360 # 64); Some (-656 # 64)])].

Lemma outlier_transform_idempotent_witness :
  transform table_C capping_detector = (Ok table_C_capped, capping_detector)
  /\ transform table_C_capped capping_detector
     = (Ok table_C_capped, capping_detector).
Proof.
  assert (H1 : transform table_C capping_detector
               = (Ok table_C_capped, capping_detector)) by reflexivity.
  split; [exact H1|].
  apply (outlier_transform_idempotent capping_detector table_C
           table_C_capped).
  - apply (fit_bounds_wf sqrt_unused table_B (init capping_config true));
      [reflexivity | reflexivity | apply init_bounds_wf | reflexivity].
  - discriminate.
  - exact H1.
Defined.

End OutlierDetectorSpec.

(** ** TextDataCleaner: position names *)

Module TextDataCleanerSpec.
Import TextDataCleaner.

Definition position_codes : list string :=
  ["G"; "F"; "C"; "G-F"; "F-G"; "F-C"; "C-F"]%string.

Lemma lookup_outside (s : string) :
  ~ In s position_codes -> lookup position_mapping s = None.
Proof.
  intros H. unfold position_mapping. cbn [lookup].
  repeat match goal with
         | |- context [String.eqb ?k s] =>
             destruct (String.eqb_spec k s) as [<-|_];
             [exfalso; apply H; simpl; tauto|]
         end.
  reflexivity.
Qed.

(** C9.  When position names are standardized, the step writes the column
    [player_position_standardized] and leaves every other column, the
    position column included, as it was; each cell of the new column is the
    standardized cell of the position column, where the seven codes give
    their full names, a string outside the table is kept, and a null stays a
    null. *)
Theorem position_standardization
        (self : BaseNBATransformer) (X : DataFrame)
        (positions : list (option string)) :
  standardize_positions (config self) = true ->
  DF.get X "player_position" = Some (Objects positions) ->
  DF.get (standardize_positions_step self X) "player_position"
  = Some (Objects positions)
  /\ (forall c, c <> "player_position_standardized"%string ->
                DF.get (standardize_positions_step self X) c = DF.get X c)
  /\ DF.get (standardize_positions_step self X) "player_position_standardized"
     = Some (Objects (map standardize_cell positions))
  /\ standardize_cell (Some "G-F"%string) = Some "Guard-Forward"%string
  /\ standardize_cell (Some "F-G"%string) = Some "Guard-Forward"%string
  /\ standardize_cell (Some "F-C"%string) = Some "Forward-Center"%string
  /\ standardize_cell (Some "C-F"%string) = Some "Forward-Center"%string
  /\ standardize_cell (Some "G"%string) = Some "Guard"%string
  /\ standardize_cell (Some "F"%string) = Some "Forward"%string
  /\ standardize_cell (Some "C"%string) = Some "Center"%string
  /\ (forall s, ~ In s position_codes ->
                standardize_cell (Some s) = Some s)
  /\ standardize_cell None = None.
Proof.
  intros Hcfg Hpos.
  assert (E : standardize_positions_step self X =
              DF.set X "player_position_standardized"
                     (Objects (map standardize_cell positions))).
  { unfold standardize_positions_step, DF.has. now rewrite Hpos, Hcfg. }
  rewrite E. split.
  { rewrite get_set_other by discriminate. exact Hpos. }
  split.
  { intros c Hc. apply get_set_other. congruence. }
  split; [apply get_set_same|].
  repeat (split; [reflexivity|]).
  split; [|reflexivity].
  intros s Hs. unfold standardize_cell. now rewrite (lookup_outside s Hs).
Qed.

Definition positions_table : DataFrame :=
  [("player_position"%string,
    Objects [Some "G-F"; Some "F-G"; Some "PG"; None; Some "C"]%string)].

Lemma position_standardization_witness :
  DF.get (standardize_positions_step (Base.init default_config true)
            positions_table) "player_position_standardized"
  = Some (Objects [Some "Guard-Forward"; Some "Guard-Forward"; Some "PG";
                   None; Some "Center"]%string).
Proof.
  exact (proj1 (proj2 (proj2
           (position_standardization (Base.init default_config true)
              positions_table _ eq_refl eq_refl)))).
Defined.

End TextDataCleanerSpec.

(** ** NBADataCleaner *)

Section PipelineFacts.
Import NBADataCleaner.

Lemma transform_loop_app (pre post : list (string * Transformer))
      (X : DataFrame) :
  transform_loop (pre ++ post) X =
  (fst (transform_loop post (fst (transform_loop pre X))),
   snd (transform_loop pre X)
   ++ snd (transform_loop post (fst (transform_loop pre X)))).
Proof.
  revert X. induction pre as [|[name t] pre IH]; intros X.
  - cbn. now destruct (transform_loop post X).
  - cbn [app transform_loop].
    destruct (call_transform t X) as [r t'].
    rewrite IH.
    destruct (transform_loop pre _) as [X1 pre']. cbn [fst snd].
    reflexivity.
Qed.

(** A stage that raises hands on the table it was given. *)
Lemma transform_loop_raise (name : string) (t : Transformer)
      (rest : list (string * Transformer)) (X : DataFrame) (e : exn) :
  fst (call_transform t X) = Raise e ->
  fst (transform_loop ((name, t) :: rest) X) = fst (transform_loop rest X).
Proof.
  intros H. cbn [transform_loop].
  destruct (call_transform t X) as [r t']. cbn [fst] in H. subst r.
  now destruct (transform_loop rest X).
Qed.

(** A stage that returns hands on its result. *)
Lemma transform_loop_ok (name : string) (t : Transformer)
      (rest : list (string * Transformer)) (X X' : DataFrame) :
  fst (call_transform t X) = Ok X' ->
  fst (transform_loop ((name, t) :: rest) X) = fst (transform_loop rest X').
Proof.
  intros H. cbn [transform_loop].
  destruct (call_transform t X) as [r t']. cbn [fst] in H. subst r.
  now destruct (transform_loop rest X').
Qed.

Lemma transform_fitted (X : DataFrame) (self : NBADataCleaner) :
  nc_is_fitted_ self = true ->
  fst (transform X self) = Ok (fst (transform_loop (transformers self) X)).
Proof.
  intros Hf. unfold transform. rewrite Hf. cbn [negb]. unfold DF.copy.
  now destruct (transform_loop (transformers self) X).
Qed.

End PipelineFacts.

Module NBADataCleanerSpec.
Import NBADataCleaner.

(** C3.  The transform of a fitted pipeline returns a table for every
    input, whatever its stages do.  When a stage raises on the table that
    reaches it, the result of the call is what the stages after it make of
    that same table: the exception does not reach the caller, the stage
    contributes nothing, and every later stage runs. *)
Theorem failing_stage_is_skipped (self : NBADataCleaner) (X : DataFrame) :
  nc_is_fitted_ self = true ->
  (exists X_clean self', transform X self = (Ok X_clean, self'))
  /\ forall pre name t post e,
      transformers self = pre ++ (name, t) :: post ->
      fst (call_transform t (fst (transform_loop pre X))) = Raise e ->
      fst (transform X self)
      = Ok (fst (transform_loop post (fst (transform_loop pre X)))).
Proof.
  intros Hf. split.
  - unfold transform. rewrite Hf. cbn [negb].
    destruct (transform_loop (transformers self) (DF.copy X)) as [Xc ts].
    now eexists _, _.
  - intros pre name t post e Hts Hraise.
    rewrite (transform_fitted X self Hf), Hts, transform_loop_app.
    cbn [fst]. f_equal.
    exact (transform_loop_raise name t post _ e Hraise).
Qed.

(** The stages that are switched off in the pipeline below. *)
Definition stage_off (self : BaseNBATransformer) (X : DataFrame)
  : Res DataFrame := Ok X.

(** A pipeline of the validation and outlier stages, fitted on points. *)
Definition two_stage_cleaner : NBADataCleaner :=
  snd (fit table_A
         (init sqrt_unused stage_off stage_off stage_off
               default_config false false true true false false true)).

(** Minutes still in clock format: the validation stage compares them with
    a number and raises. *)
Definition raw_minutes : DataFrame :=
  [("pts"%string, floats_of [10; 20]%Z);
   ("minutes_played"%string, Objects [Some "30:45"; Some "12:00"]%string)].

Lemma failing_stage_is_skipped_witness :
  fst (transform raw_minutes two_stage_cleaner)
  = Ok [("pts"%string, floats_of [10; 20]%Z);
        ("minutes_played"%string, Objects [Some "30:45"; Some "12:00"]%string);
        ("pts_outlier_flag"%string, Bools [false; false])].
Proof.
  destruct (failing_stage_is_skipped two_stage_cleaner raw_minutes eq_refl)
    as [_ H].
  rewrite (H [] "validation"%string
             (base_stage DataValidator._transform_impl
                (snd (DataValidator.fit table_A
                        (Base.init default_config true))))
             (tl (transformers two_stage_cleaner))
             (TypeError "column is not float64") eq_refl eq_refl).
  reflexivity.
Defined.

End NBADataCleanerSpec.

(* ================================================================== *)
(** * Part III. Further properties of the code                         *)
(* ================================================================== *)

(** ** MinutesConverter: more than two components *)

Module MinutesConverterMore.
Import PyStr PyFloatParse MinutesConverter.

Lemma parse_minutes_three (M S T : chars) (m s : pyfloat) :
  has_colon M = false -> has_colon S = false ->
  float_of_str M = Ok m -> float_of_str S = Ok s ->
  parse_minutes (strip (M ++ chr ":" :: S ++ chr ":" :: T))
  = Ok (fadd m (fdiv60 s)).
Proof.
  intros HM HS Hm Hs.
  rewrite strip_around_colon.
  unfold rstrip. rewrite (rstrip_by_after _ _ _ _ colon_not_space).
  unfold parse_minutes.
  rewrite has_colon_app. cbn [has_colon existsb].
  rewrite is_colon_chr, orb_true_r. cbn [orb].
  rewrite (split_at_colon _ _ (has_colon_lstrip _ HM)).
  rewrite (split_at_colon _ _ HS).
  destruct (split_colon (rstrip_by is_space T)) as [|p ps] eqn:E;
    cbn [index nth_error res_bind List.length Nat.ltb Nat.leb];
    rewrite (float_of_str_lstrip _ _ Hm); cbn [res_bind]; now rewrite Hs.
Qed.

(** X1.  Only the first two colon-separated components count: a text
    ["M:S:T"] whose first two parts [float] reads as [m] and [s] gives
    [m + s/60] whatever follows the second colon. *)
Theorem extra_components_ignored (M S T : chars) (m s : pyfloat) :
  has_colon M = false ->
  has_colon S = false ->
  float_of_str M = Ok m ->
  float_of_str S = Ok s ->
  convert_to_decimal (PStr (M ++ text ":" ++ S ++ text ":" ++ T))
  = Ok (fadd m (fdiv60 s)).
Proof.
  intros HM HS Hm Hs. rewrite convert_str.
  apply try_parse_ok. now apply parse_minutes_three.
Qed.

Lemma extra_components_ignored_witness :
  convert_to_decimal
    (PStr (text "1" ++ text ":" ++ text "30" ++ text ":" ++ text "59 pm"))
  = Ok (fadd (Ffin 1) (fdiv60 (Ffin 30))).
Proof.
  apply (extra_components_ignored (text "1") (text "30") (text "59 pm"));
    vm_compute; reflexivity.
Defined.

(** X2.  The result depends on a text only through [strip]: two texts
    that are equal once stripped convert alike. *)
Theorem surrounding_space_ignored (s t : chars) :
  strip s = strip t ->
  convert_to_decimal (PStr s) = convert_to_decimal (PStr t).
Proof. intros E. now rewrite !convert_str, E. Qed.

Lemma surrounding_space_ignored_witness :
  convert_to_decimal (PStr (text "  30:45 "))
  = convert_to_decimal (PStr (text "30:45")).
Proof.
  apply (surrounding_space_ignored (text "  30:45 ") (text "30:45")).
  vm_compute. reflexivity.
Defined.

End MinutesConverterMore.

(** ** BaseNBATransformer: the order of calls *)

Module BaseMore.

(** X3.  [transform] before [fit] raises the "must be fitted" ValueError
    and leaves the object as it was: for every stage that inherits
    [transform], for a new outlier detector, and for the pipeline. *)
Theorem transform_before_fit :
  (forall (Self : Type) (base : Self -> BaseNBATransformer)
          (impl : Self -> DataFrame -> Res DataFrame)
          (self : Self) (X : DataFrame),
      is_fitted_ (base self) = false ->
      Base.transform base impl X self = (Raise Base.not_fitted, self))
  /\ (forall cfg verb X,
         OutlierDetector.transform X (OutlierDetector.init cfg verb)
         = (Raise Base.not_fitted, OutlierDetector.init cfg verb))
  /\ (forall (self : NBADataCleaner) (X : DataFrame),
         nc_is_fitted_ self = false ->
         NBADataCleaner.transform X self
         = (Raise NBADataCleaner.not_fitted, self)).
Proof.
  repeat split.
  - intros Self base impl self X Hf. now rewrite transform_cases, Hf.
  - intros self X Hf. unfold NBADataCleaner.transform. now rewrite Hf.
Qed.

Lemma transform_before_fit_witness :
  DataValidator.transform table_A (Base.init default_config true)
  = (Raise Base.not_fitted, Base.init default_config true).
Proof.
  apply (proj1 transform_before_fit BaseNBATransformer (fun b => b)
           DataValidator._transform_impl (Base.init default_config true)
           table_A).
  reflexivity.
Defined.

(** The attributes after [fit] on [X]. *)
Definition fitted_on (X : DataFrame) (b : BaseNBATransformer)
  : BaseNBATransformer :=
  {| config := config b;
     verbose := verbose b;
     feature_names_in_ := Some (DF.columns X);
     n_features_in_ := Some (List.length (DF.columns X));
     is_fitted_ := true;
     required_columns_ := required_columns_ b |}.

(** X4.  On a stage without required columns, [fit_transform] never
    raises on its own: it records the columns of the table, marks the stage
    fitted and returns what [_transform_impl] makes of the table, whether
    the stage was fitted before or not. *)
Theorem fit_transform_runs
        (impl : BaseNBATransformer -> DataFrame -> Res DataFrame)
        (self : BaseNBATransformer) (X : DataFrame) :
  required_columns_ self = None ->
  Base.fit_transform (fun b => b) (fun b _ => b) impl X self
  = (impl (fitted_on X self) X, fitted_on X self).
Proof.
  intros Hr. destruct self as [c v f n fitted r]. cbn in Hr. subst r.
  destruct fitted; reflexivity.
Qed.

Lemma fit_transform_runs_witness :
  Base.fit_transform (fun b => b) (fun b _ => b)
    DataValidator._transform_impl table_A (Base.init default_config true)
  = (Ok table_A, fitted_on table_A (Base.init default_config true)).
Proof.
  rewrite (fit_transform_runs DataValidator._transform_impl
             (Base.init default_config true) table_A eq_refl).
  reflexivity.
Defined.

End BaseMore.

(** ** Tables: more facts *)

Section TableMore.

Lemma columns_set_present (X : DataFrame) (c : string) (s : Series) :
  DF.has X c = true -> DF.columns (DF.set X c s) = DF.columns X.
Proof.
  unfold DF.has, DF.columns.
  induction X as [|[k v] X IH]; simpl; [discriminate|].
  destruct (String.eqb_spec k c) as [-> |Hne]; simpl; [reflexivity|].
  intros H. now rewrite IH.
Qed.

Lemma nth_loc_assign_scalar {A} (mask : list bool) (v : A) (old : list A)
      (i : nat) (o : A) (b : bool) :
  nth_error old i = Some o -> nth_error mask i = Some b ->
  nth_error (DF.loc_assign_scalar mask v old) i = Some (if b then v else o).
Proof.
  revert mask i. induction old as [|x old IH]; intros [|m mask] [|i]; simpl;
    try discriminate.
  - now intros [= ->] [= ->].
  - apply IH.
Qed.

Lemma nth_loc_assign {A} (mask : list bool) (new old : list A)
      (i : nat) (o n : A) (b : bool) :
  nth_error old i = Some o -> nth_error mask i = Some b ->
  nth_error new i = Some n ->
  nth_error (DF.loc_assign mask new old) i = Some (if b then n else o).
Proof.
  revert mask new i.
  induction old as [|x old IH]; intros [|m mask] [|y new] [|i]; simpl;
    try discriminate.
  - now intros [= ->] [= ->] [= ->].
  - apply IH.
Qed.

(** Generic loop lemma: a relation that every round keeps is kept by the
    loop. *)
Lemma foldM_rel {A} (f : DataFrame -> A -> Res DataFrame)
      (P : DataFrame -> Prop) (R : DataFrame -> DataFrame -> Prop)
      (l : list A) :
  (forall X, R X X) ->
  (forall X Y Z, R X Y -> R Y Z -> R X Z) ->
  (forall X a, In a l -> P X ->
               exists X', f X a = Ok X' /\ P X' /\ R X X') ->
  forall X, P X -> exists X', foldM f l X = Ok X' /\ P X' /\ R X X'.
Proof.
  intros Hrefl Htrans. induction l as [|a l IH]; intros Hstep X HP.
  - exists X. now repeat split.
  - destruct (Hstep X a (or_introl eq_refl) HP) as (X1 & E1 & P1 & R1).
    destruct (IH (fun Y b Hb => Hstep Y b (or_intror Hb)) X1 P1)
      as (X' & E & P' & R').
    exists X'. cbn [foldM]. rewrite E1. cbn [res_bind].
    split; [exact E|]. split; [exact P'|]. exact (Htrans _ _ _ R1 R').
Qed.

End TableMore.

(** ** MissingValueHandler: what imputation does to a cell *)

Section ImputationFacts.
Import MissingValueHandler.

(** [xs'] is [xs] with some of its nulls filled. *)
Definition fills (xs xs' : list cell) : Prop :=
  Forall2 (fun a b => a = None \/ b = a) xs xs'.

Lemma fills_refl (xs : list cell) : fills xs xs.
Proof. induction xs; constructor; auto. Qed.

Lemma fills_trans (xs ys zs : list cell) :
  fills xs ys -> fills ys zs -> fills xs zs.
Proof.
  intros H. revert zs. induction H as [|a b xs ys Hab H IH]; intros zs Hz.
  - inversion Hz. constructor.
  - inversion Hz as [|b0 c0 ys0 zs0 Hbc Hz0]; subst. constructor; [|now apply IH].
    destruct Hab as [-> | ->]; [now left | exact Hbc].
Qed.

Lemma fills_fillna (v : Q) (xs : list cell) :
  fills xs (map (Cell.fillna v) xs).
Proof.
  induction xs as [|[x|] xs IH]; simpl; constructor; auto.
Qed.

Lemma fills_length (xs xs' : list cell) :
  fills xs xs' -> List.length xs' = List.length xs.
Proof. intros H. symmetry. exact (Forall2_length H). Qed.

Lemma fills_value (xs xs' : list cell) (i : nat) (v : Q) :
  fills xs xs' -> nth_error xs i = Some (Some v) ->
  nth_error xs' i = Some (Some v).
Proof.
  intros H. revert i. induction H as [|a b xs ys Hab H IH]; intros [|i];
    simpl; try discriminate.
  - intros [= ->]. destruct Hab as [? | ->]; [discriminate | reflexivity].
  - apply IH.
Qed.

(** The percentage column after "no attempts gives 0". *)
Definition pct_zeroed (pct att : list cell) : list cell :=
  DF.loc_assign_scalar
    (DF.map2 andb (map (fun a => Cell.eq a (Some 0)) att)
             (map Cell.isna pct))
    (Some 0) pct.

(** The percentage column after the recalculation from made and
    attempted. *)
Definition pct_filled (pct att made : list cell) : list cell :=
  let pct1 := pct_zeroed pct att in
  let mask :=
    DF.map2 andb (map Cell.isna pct1)
            (map (fun a => Cell.gt a (Some 0)) att) in
  if DF.any mask then DF.loc_assign mask (DF.map2 Cell.div made att) pct1
  else pct1.

Lemma fills_assign_scalar (g : list bool) (v : cell) (old : list cell) :
  fills old (DF.loc_assign_scalar (DF.map2 andb g (map Cell.isna old)) v old).
Proof.
  revert g. induction old as [|p old IH]; intros [|b g]; simpl;
    try (apply fills_refl).
  constructor; [|apply IH].
  destruct p as [p|]; [right | now left].
  now destruct b.
Qed.

Lemma fills_zeroed (pct att : list cell) : fills pct (pct_zeroed pct att).
Proof. apply fills_assign_scalar. Qed.

Lemma fills_assign (h : list bool) (new old : list cell) :
  fills old (DF.loc_assign (DF.map2 andb (map Cell.isna old) h) new old).
Proof.
  revert h new. induction old as [|p old IH]; intros [|b h] [|n new]; simpl;
    try (apply fills_refl).
  constructor; [|apply IH].
  destruct p as [p|]; [now right | now left].
Qed.

Lemma fills_recalculated (pct1 att new : list cell) :
  fills pct1
        (DF.loc_assign
           (DF.map2 andb (map Cell.isna pct1)
                    (map (fun a => Cell.gt a (Some 0)) att))
           new pct1).
Proof. apply fills_assign. Qed.

Lemma fills_filled (pct att made : list cell) :
  fills pct (pct_filled pct att made).
Proof.
  unfold pct_filled. destruct (DF.any _).
  - eapply fills_trans; [apply fills_zeroed | apply fills_recalculated].
  - apply fills_zeroed.
Qed.

(** The outcome of one round of the percentage loop. *)
Lemma fill_percentage_cases (X : DataFrame) (pct att made : string) :
  float_typed X = true ->
  In (pct, att, made) percentage_mappings ->
  (DF.has X pct && DF.has X att = false
   /\ fill_percentage X (pct, att, made) = Ok X)
  \/ exists p a,
      DF.get X pct = Some (Floats p) /\ DF.get X att = Some (Floats a)
      /\ fill_percentage X (pct, att, made) =
         Ok (DF.set X pct
               (Floats (match DF.get X made with
                        | Some (Floats m) => pct_filled p a m
                        | _ => pct_zeroed p a
                        end))).
Proof.
  intros Ht Hin.
  assert (Hm : In pct numeric_columns /\ In att numeric_columns
               /\ In made numeric_columns /\ att <> pct /\ made <> pct).
  { simpl in Hin. destruct Hin as [[= <- <- <-]|[[= <- <- <-]|[[= <- <- <-]|[]]]];
      repeat split; simpl; try tauto; discriminate. }
  destruct Hm as (Hp & Ha & Hmd & Nap & Nmp).
  unfold fill_percentage.
  destruct (DF.has X pct) eqn:Hhp; cbn [andb]; [|now left].
  destruct (DF.has X att) eqn:Hha; [|now left].
  right.
  destruct (float_typed_col X att Ht Ha Hha) as [ats Eats].
  destruct (float_typed_col X pct Ht Hp Hhp) as [ps Eps].
  exists ps, ats. rewrite Eats, Eps. cbn [res_bind].
  apply floats_get in Eats, Eps. split; [exact Eps|]. split; [exact Eats|].
  fold (pct_zeroed ps ats).
  set (X1 := DF.set X pct (Floats (pct_zeroed ps ats))).
  assert (Hmade : DF.get X1 made = DF.get X made)
    by (unfold X1; apply get_set_other; congruence).
  unfold DF.has at 1. rewrite Hmade.
  destruct (DF.get X made) as [s|] eqn:Egm; [|reflexivity].
  assert (Hhm : DF.has X made = true) by (unfold DF.has; now rewrite Egm).
  destruct (float_typed_col X made Ht Hmd Hhm) as [ms Ems].
  apply floats_get in Ems. rewrite Egm in Ems. injection Ems as ->.
  assert (E1 : DF.floats X1 pct = Ok (pct_zeroed ps ats))
    by (apply floats_get; apply get_set_same).
  assert (E2 : DF.floats X1 att = Ok ats).
  { apply floats_get. unfold X1. rewrite get_set_other by congruence.
    exact Eats. }
  assert (E3 : DF.floats X1 made = Ok ms)
    by (apply floats_get; now rewrite Hmade).
  rewrite E1, E2. cbn [res_bind]. unfold pct_filled.
  destruct (DF.any _).
  - rewrite E3. cbn [res_bind]. unfold X1. now rewrite set_set.
  - reflexivity.
Qed.

(** A stage keeps the columns and only fills nulls of float columns. *)
Definition only_fills (X X' : DataFrame) : Prop :=
  DF.columns X' = DF.columns X
  /\ forall c,
      match DF.get X c with
      | Some (Floats xs) =>
          exists xs', DF.get X' c = Some (Floats xs') /\ fills xs xs'
      | o => DF.get X' c = o
      end.

Lemma only_fills_refl (X : DataFrame) : only_fills X X.
Proof.
  split; [reflexivity|]. intros c.
  destruct (DF.get X c) as [[xs|xs|xs]|]; try reflexivity.
  exists xs. split; [reflexivity | apply fills_refl].
Qed.

Lemma only_fills_trans (X Y Z : DataFrame) :
  only_fills X Y -> only_fills Y Z -> only_fills X Z.
Proof.
  intros [C1 H1] [C2 H2]. split; [congruence|]. intros c.
  specialize (H1 c). specialize (H2 c).
  destruct (DF.get X c) as [[xs|xs|xs]|].
  - destruct H1 as (ys & Ey & Fy). rewrite Ey in H2.
    destruct H2 as (zs & Ez & Fz). exists zs. split; [exact Ez|].
    exact (fills_trans _ _ _ Fy Fz).
  - now rewrite H1 in H2.
  - now rewrite H1 in H2.
  - now rewrite H1 in H2.
Qed.

Lemma only_fills_set (X : DataFrame) (c : string) (xs xs' : list cell) :
  DF.get X c = Some (Floats xs) -> fills xs xs' ->
  only_fills X (DF.set X c (Floats xs')).
Proof.
  intros Hg Hf. split.
  - apply columns_set_present. unfold DF.has. now rewrite Hg.
  - intros k. destruct (String.eqb_spec c k) as [<-|Hne].
    + rewrite Hg, get_set_same. now exists xs'.
    + rewrite get_set_other by exact Hne.
      destruct (DF.get X k) as [[ys|ys|ys]|]; try reflexivity.
      exists ys. split; [reflexivity | apply fills_refl].
Qed.

Lemma fill_percentage_fills (X : DataFrame) (m : string * string * string) :
  In m percentage_mappings -> float_typed X = true ->
  exists X', fill_percentage X m = Ok X'
             /\ float_typed X' = true /\ only_fills X X'.
Proof.
  destruct m as [[pct att] made]. intros Hin Ht.
  destruct (fill_percentage_cases X pct att made Ht Hin)
    as [[_ E]|(p & a & Ep & Ea & E)]; rewrite E; eexists;
    (split; [reflexivity|]).
  - split; [exact Ht | apply only_fills_refl].
  - split; [now apply float_typed_set|].
    apply (only_fills_set X pct p); [exact Ep|].
    destruct (DF.get X made) as [[ms|ms|ms]|];
      try apply fills_zeroed. apply fills_filled.
Qed.

(** The outcome of one round of the counting-stat loop. *)
Lemma fill_counting_cases (X : DataFrame) (col : string) :
  float_typed X = true -> In col numeric_columns ->
  (DF.get X col = None /\ fill_counting X col = Ok X)
  \/ exists xs,
      DF.get X col = Some (Floats xs)
      /\ fill_counting X col
         = Ok (DF.set X col (Floats (map (Cell.fillna 0) xs))).
Proof.
  intros Ht Hin. unfold fill_counting.
  destruct (DF.has X col) eqn:Hh.
  - right. destruct (float_typed_col X col Ht Hin Hh) as [xs Exs].
    exists xs. rewrite Exs. cbn [res_bind]. apply floats_get in Exs.
    split; [exact Exs|].
    destruct (filter Cell.isna xs) as [|y ys] eqn:Ef;
      cbn [List.length Nat.ltb Nat.leb]; [|reflexivity].
    f_equal. symmetry.
    replace (map (Cell.fillna 0) xs) with xs; [now apply set_get_id|].
    clear Exs. induction xs as [|[x|] xs IH]; simpl in *;
      [reflexivity | now rewrite <- IH | discriminate].
  - left. unfold DF.has in Hh. destruct (DF.get X col); [discriminate|].
    now split.
Qed.

Lemma fill_counting_fills (X : DataFrame) (col : string) :
  In col counting_stats -> float_typed X = true ->
  exists X', fill_counting X col = Ok X'
             /\ float_typed X' = true /\ only_fills X X'.
Proof.
  intros Hin Ht.
  destruct (fill_counting_cases X col Ht (counting_stats_numeric col Hin))
    as [[_ E]|(xs & Ex & E)]; rewrite E; eexists; (split; [reflexivity|]).
  - split; [exact Ht | apply only_fills_refl].
  - split; [now apply float_typed_set|].
    apply (only_fills_set X col xs _ Ex). apply fills_fillna.
Qed.

Lemma fill_minutes_cases (X : DataFrame) :
  float_typed X = true ->
  (DF.get X "minutes_played" = None /\ fill_minutes X = Ok X)
  \/ exists xs,
      DF.get X "minutes_played" = Some (Floats xs)
      /\ fill_minutes X
         = Ok (DF.set X "minutes_played" (Floats (map (Cell.fillna 0) xs))).
Proof.
  intros Ht. unfold fill_minutes.
  destruct (DF.has X "minutes_played") eqn:Hh.
  - right. destruct (float_typed_col X "minutes_played" Ht) as [xs Exs];
      [simpl; tauto | exact Hh|].
    exists xs. rewrite Exs. apply floats_get in Exs. now split.
  - left. unfold DF.has in Hh.
    destruct (DF.get X "minutes_played"); [discriminate | now split].
Qed.

Lemma fill_minutes_fills (X : DataFrame) :
  float_typed X = true ->
  exists X', fill_minutes X = Ok X'
             /\ float_typed X' = true /\ only_fills X X'.
Proof.
  intros Ht.
  destruct (fill_minutes_cases X Ht) as [[_ E]|(xs & Ex & E)];
    rewrite E; eexists; (split; [reflexivity|]).
  - split; [exact Ht | apply only_fills_refl].
  - split; [now apply float_typed_set|].
    apply (only_fills_set X _ xs _ Ex). apply fills_fillna.
Qed.

(** The whole transformation keeps the columns and only fills nulls. *)
Lemma imputation_run (self : BaseNBATransformer) (X : DataFrame) :
  float_typed X = true ->
  exists X', _transform_impl self X = Ok X'
             /\ float_typed X' = true /\ only_fills X X'.
Proof.
  intros Ht. unfold _transform_impl.
  destruct (foldM_rel fill_percentage (fun X => float_typed X = true)
              only_fills percentage_mappings only_fills_refl
              only_fills_trans
              (fun Y m Hm HY => fill_percentage_fills Y m Hm HY) X Ht)
    as (X1 & E1 & Ht1 & R1).
  rewrite E1. cbn [res_bind].
  assert (H2 : exists X2,
             (if fill_counting_stats_with_zero (config self)
              then foldM fill_counting counting_stats X1 else Ok X1) = Ok X2
             /\ float_typed X2 = true /\ only_fills X1 X2).
  { destruct (fill_counting_stats_with_zero (config self)).
    - exact (foldM_rel fill_counting (fun X => float_typed X = true)
               only_fills counting_stats only_fills_refl only_fills_trans
               (fun Y c Hc HY => fill_counting_fills Y c Hc HY) X1 Ht1).
    - exists X1. split; [reflexivity|]. split; [exact Ht1|].
      apply only_fills_refl. }
  destruct H2 as (X2 & E2 & Ht2 & R2). rewrite E2. cbn [res_bind].
  destruct (fill_minutes_fills X2 Ht2) as (X3 & E3 & Ht3 & R3).
  exists X3. split; [exact E3|]. split; [exact Ht3|].
  exact (only_fills_trans _ _ _ R1 (only_fills_trans _ _ _ R2 R3)).
Qed.

End ImputationFacts.

Module MissingValueHandlerMore.
Import MissingValueHandler.

(** X5.  Imputation never overwrites a value: on a table of float
    columns the transformation returns a table with the same columns in the
    same order; a float column keeps its length and every non-null cell, and
    a column of another dtype is returned as it is. *)
Theorem imputation_keeps_values (self : BaseNBATransformer) (X : DataFrame) :
  float_typed X = true ->
  exists X',
    _transform_impl self X = Ok X'
    /\ DF.columns X' = DF.columns X
    /\ (forall c xs,
           DF.get X c = Some (Floats xs) ->
           exists xs',
             DF.get X' c = Some (Floats xs')
             /\ List.length xs' = List.length xs
             /\ forall i v, nth_error xs i = Some (Some v) ->
                            nth_error xs' i = Some (Some v))
    /\ (forall c, (forall xs, DF.get X c <> Some (Floats xs)) ->
                  DF.get X' c = DF.get X c).
Proof.
  intros Ht. destruct (imputation_run self X Ht) as (X' & E & _ & Hc & Hf).
  exists X'. split; [exact E|]. split; [exact Hc|]. split.
  - intros c xs Hg. specialize (Hf c). rewrite Hg in Hf.
    destruct Hf as (xs' & Hg' & Hfill). exists xs'.
    split; [exact Hg'|]. split; [now apply fills_length|].
    intros i v. now apply fills_value.
  - intros c Hn. specialize (Hf c).
    destruct (DF.get X c) as [[xs|xs|xs]|]; try exact Hf.
    now destruct (Hn xs).
Qed.

Lemma imputation_keeps_values_witness :
  exists X',
    _transform_impl (Base.init default_config true)
      MissingValueHandlerSpec.table_with_nulls = Ok X'
    /\ DF.columns X' = ["pts"; "reb"; "fga"; "fg_pct"]%string.
Proof.
  destruct (imputation_keeps_values (Base.init default_config true)
              MissingValueHandlerSpec.table_with_nulls eq_refl)
    as (X' & E & Hc & _).
  exists X'. split; [exact E | exact Hc].
Defined.

End MissingValueHandlerMore.

Section PercentageFacts.
Import MissingValueHandler.

(** One row of the two percentage assignments. *)
Definition pct_rule (p a m : cell) : cell :=
  let p1 := if Cell.eq a (Some 0) && Cell.isna p then Some 0 else p in
  if Cell.isna p1 && Cell.gt a (Some 0) then Cell.div m a else p1.

Lemma nth_pct_zeroed (pct att : list cell) (i : nat) (p a : cell) :
  nth_error pct i = Some p -> nth_error att i = Some a ->
  nth_error (pct_zeroed pct att) i
  = Some (if Cell.eq a (Some 0) && Cell.isna p then Some 0 else p).
Proof.
  intros Hp Ha. unfold pct_zeroed.
  apply nth_loc_assign_scalar; [exact Hp|].
  apply nth_map2;
    [exact (map_nth_error (fun a => Cell.eq a (Some 0)) i att Ha)
    | exact (map_nth_error Cell.isna i pct Hp)].
Qed.

Lemma nth_pct_filled (pct att made : list cell) (i : nat) (p a m : cell) :
  nth_error pct i = Some p -> nth_error att i = Some a ->
  nth_error made i = Some m ->
  nth_error (pct_filled pct att made) i = Some (pct_rule p a m).
Proof.
  intros Hp Ha Hm. unfold pct_filled, pct_rule.
  assert (H1 := nth_pct_zeroed pct att i p a Hp Ha).
  set (p1 := if Cell.eq a (Some 0) && Cell.isna p then Some 0 else p) in *.
  set (mask := DF.map2 andb (map Cell.isna (pct_zeroed pct att))
                       (map (fun a => Cell.gt a (Some 0)) att)).
  assert (Hmask : nth_error mask i
                  = Some (Cell.isna p1 && Cell.gt a (Some 0))).
  { apply nth_map2;
      [exact (map_nth_error Cell.isna i _ H1)
      | exact (map_nth_error (fun a => Cell.gt a (Some 0)) i att Ha)]. }
  destruct (DF.any mask) eqn:Ea.
  - apply nth_loc_assign; [exact H1 | exact Hmask|].
    now apply nth_map2.
  - apply any_false in Ea. rewrite Forall_forall in Ea.
    rewrite (Ea _ (nth_error_In _ _ Hmask)). exact H1.
Qed.

Lemma fill_percentage_exact (X : DataFrame) (pct att made : string)
      (p a m : list cell) :
  float_typed X = true ->
  In (pct, att, made) percentage_mappings ->
  DF.get X pct = Some (Floats p) ->
  DF.get X att = Some (Floats a) ->
  DF.get X made = Some (Floats m) ->
  fill_percentage X (pct, att, made)
  = Ok (DF.set X pct (Floats (pct_filled p a m))).
Proof.
  intros Ht Hin Hp Ha Hm.
  destruct (fill_percentage_cases X pct att made Ht Hin)
    as [[Hh _]|(p' & a' & Ep & Ea & E)].
  - unfold DF.has in Hh. now rewrite Hp, Ha in Hh.
  - rewrite E, Hm. congruence.
Qed.

Lemma fill_counting_fold_exact (cols : list string) (X : DataFrame) :
  float_typed X = true ->
  (forall c, In c cols -> In c numeric_columns) ->
  NoDup cols ->
  exists X',
    foldM fill_counting cols X = Ok X'
    /\ float_typed X' = true
    /\ (forall c, ~ In c cols -> DF.get X' c = DF.get X c)
    /\ (forall c xs, In c cols -> DF.get X c = Some (Floats xs) ->
                     DF.get X' c
                     = Some (Floats (map (Cell.fillna 0) xs))).
Proof.
  revert X. induction cols as [|col cols IH]; intros X Ht Hnum Hnd.
  - exists X. simpl. repeat split; auto. intros c xs [].
  - inversion Hnd as [|? ? Hnotin Hnd']; subst.
    assert (Hstep : exists X1,
               fill_counting X col = Ok X1 /\ float_typed X1 = true
               /\ (forall c, c <> col -> DF.get X1 c = DF.get X c)
               /\ (forall xs, DF.get X col = Some (Floats xs) ->
                              DF.get X1 col
                              = Some (Floats (map (Cell.fillna 0) xs)))).
    { destruct (fill_counting_cases X col Ht (Hnum col (or_introl eq_refl)))
        as [[Hn E]|(xs & Ex & E)]; rewrite E; eexists;
        (split; [reflexivity|]).
      - split; [exact Ht|]. split; [reflexivity|]. intros xs H. congruence.
      - split; [now apply float_typed_set|]. split.
        + intros c Hc. apply get_set_other. congruence.
        + intros ys H. rewrite get_set_same. congruence. }
    destruct Hstep as (X1 & E1 & Ht1 & F1 & V1).
    destruct (IH X1 Ht1 (fun c H => Hnum c (or_intror H)) Hnd')
      as (X' & E & Ht' & Hframe & Hval).
    exists X'. cbn [foldM]. rewrite E1. cbn [res_bind].
    split; [exact E|]. split; [exact Ht'|]. split.
    + intros c Hc. rewrite Hframe by (intros H; apply Hc; now right).
      apply F1. intros ->. apply Hc. now left.
    + intros c xs [<-|Hc] Hg.
      * rewrite (Hframe col Hnotin). now apply V1.
      * apply Hval; [exact Hc|]. rewrite F1; [exact Hg|].
        intros ->. contradiction.
Qed.

End PercentageFacts.

Ltac pct_step X Ht t X1 E1 W1 Ht1 :=
  destruct (fill_percentage_spec X t Ht) as (X1 & E1 & W1);
  [simpl; tauto|]; cbn [fst] in W1;
  assert (Ht1 := writes_only_typed _ _ _ W1 Ht).

Ltac frame W := rewrite (writes_only_get _ _ _ _ W) by discriminate.

Ltac exact_step X Ht E pct att made p a m Hp Ha Hm :=
  let E' := fresh "E" in
  assert (E' := fill_percentage_exact X pct att made p a m Ht
                  ltac:(simpl; tauto) Hp Ha Hm);
  rewrite E in E'; injection E' as ->.

Section PercentageRun.
Import MissingValueHandler.

(** The percentage, attempted and made columns after the whole
    transformation. *)
Lemma imputation_columns (self : BaseNBATransformer) (X : DataFrame)
      (pct att made : string) (p a m : list cell) :
  float_typed X = true ->
  In (pct, att, made) percentage_mappings ->
  DF.get X pct = Some (Floats p) ->
  DF.get X att = Some (Floats a) ->
  DF.get X made = Some (Floats m) ->
  exists X',
    _transform_impl self X = Ok X'
    /\ float_typed X' = true
    /\ DF.get X' pct = Some (Floats (pct_filled p a m))
    /\ DF.get X' att
       = Some (Floats (if fill_counting_stats_with_zero (config self)
                       then map (Cell.fillna 0) a else a))
    /\ DF.get X' made
       = Some (Floats (if fill_counting_stats_with_zero (config self)
                       then map (Cell.fillna 0) m else m)).
Proof.
  intros Ht Hin Hp Ha Hm. unfold _transform_impl, percentage_mappings.
  cbn [foldM].
  pct_step X Ht ("fg_pct", "fga", "fgm")%string X1 E1 W1 Ht1.
  rewrite E1. cbn [res_bind].
  pct_step X1 Ht1 ("fg3_pct", "fg3a", "fg3m")%string X2 E2 W2 Ht2.
  rewrite E2. cbn [res_bind].
  pct_step X2 Ht2 ("ft_pct", "fta", "ftm")%string X3 E3 W3 Ht3.
  rewrite E3. cbn [res_bind].
  assert (H3 : DF.get X3 pct = Some (Floats (pct_filled p a m))
               /\ DF.get X3 att = Some (Floats a)
               /\ DF.get X3 made = Some (Floats m)
               /\ In att counting_stats /\ In made counting_stats
               /\ pct <> "minutes_played"%string
               /\ att <> "minutes_played"%string
               /\ made <> "minutes_played"%string
               /\ ~ In pct counting_stats).
  { simpl in Hin.
    destruct Hin as [[= <- <- <-]|[[= <- <- <-]|[[= <- <- <-]|[]]]].
    - exact_step X Ht E1 "fg_pct"%string "fga"%string "fgm"%string
                 p a m Hp Ha Hm.
      repeat split; try (simpl; tauto); try discriminate.
      + frame W3. frame W2. apply get_set_same.
      + frame W3. frame W2. now rewrite get_set_other by discriminate.
      + frame W3. frame W2. now rewrite get_set_other by discriminate.
      + simpl. intros H.
        repeat (destruct H as [H|H]; [discriminate|]). exact H.
    - assert (Hp1 : DF.get X1 "fg3_pct" = Some (Floats p))
        by (frame W1; exact Hp).
      assert (Ha1 : DF.get X1 "fg3a" = Some (Floats a))
        by (frame W1; exact Ha).
      assert (Hm1 : DF.get X1 "fg3m" = Some (Floats m))
        by (frame W1; exact Hm).
      exact_step X1 Ht1 E2 "fg3_pct"%string "fg3a"%string "fg3m"%string
                 p a m Hp1 Ha1 Hm1.
      repeat split; try (simpl; tauto); try discriminate.
      + frame W3. apply get_set_same.
      + frame W3. now rewrite get_set_other by discriminate.
      + frame W3. now rewrite get_set_other by discriminate.
      + simpl. intros H.
        repeat (destruct H as [H|H]; [discriminate|]). exact H.
    - assert (Hp2 : DF.get X2 "ft_pct" = Some (Floats p))
        by (frame W2; frame W1; exact Hp).
      assert (Ha2 : DF.get X2 "fta" = Some (Floats a))
        by (frame W2; frame W1; exact Ha).
      assert (Hm2 : DF.get X2 "ftm" = Some (Floats m))
        by (frame W2; frame W1; exact Hm).
      exact_step X2 Ht2 E3 "ft_pct"%string "fta"%string "ftm"%string
                 p a m Hp2 Ha2 Hm2.
      repeat split; try (simpl; tauto); try discriminate.
      + apply get_set_same.
      + now rewrite get_set_other by discriminate.
      + now rewrite get_set_other by discriminate.
      + simpl. intros H.
        repeat (destruct H as [H|H]; [discriminate|]). exact H. }
  destruct H3 as (Hp3 & Ha3 & Hm3 & Hac & Hmc & Np & Na & Nm & Npc).
  assert (H4 : exists X4,
             (if fill_counting_stats_with_zero (config self)
              then foldM fill_counting counting_stats X3 else Ok X3) = Ok X4
             /\ float_typed X4 = true
             /\ DF.get X4 pct = Some (Floats (pct_filled p a m))
             /\ DF.get X4 att
                = Some (Floats (if fill_counting_stats_with_zero (config self)
                                then map (Cell.fillna 0) a else a))
             /\ DF.get X4 made
                = Some (Floats (if fill_counting_stats_with_zero (config self)
                                then map (Cell.fillna 0) m else m))).
  { destruct (fill_counting_stats_with_zero (config self)).
    - destruct (fill_counting_fold_exact counting_stats X3 Ht3
                  counting_stats_numeric counting_stats_nodup)
        as (X4 & E4 & Ht4 & F4 & V4).
      exists X4. split; [exact E4|]. split; [exact Ht4|].
      split; [now rewrite (F4 pct Npc)|].
      split; [now apply V4 | now apply V4].
    - exists X3. now repeat split. }
  destruct H4 as (X4 & E4 & Ht4 & Hp4 & Ha4 & Hm4).
  rewrite E4. cbn [res_bind].
  destruct (fill_minutes_spec X4 Ht4) as (X5 & E5 & W5).
  exists X5. split; [exact E5|].
  split; [exact (writes_only_typed _ _ _ W5 Ht4)|].
  rewrite !(writes_only_get _ _ _ _ W5) by assumption.
  now repeat split.
Qed.

End PercentageRun.

Module PercentageRules.
Import MissingValueHandler.

(** X6.  The percentage of a row after imputation, for each of the three
    made/attempted/percentage triples present as float columns: a percentage
    that was there is kept; a null percentage becomes 0 when attempts are 0,
    made/attempts when attempts are positive and made is known, and stays
    null when attempts are null or negative or made is null. *)
Theorem percentage_rules
        (self : BaseNBATransformer) (X : DataFrame)
        (pct_col attempt_col made_col : string) (pct att made : list cell)
        (i : nat) (p a m : cell) :
  float_typed X = true ->
  In (pct_col, attempt_col, made_col) percentage_mappings ->
  DF.get X pct_col = Some (Floats pct) ->
  DF.get X attempt_col = Some (Floats att) ->
  DF.get X made_col = Some (Floats made) ->
  nth_error pct i = Some p -> nth_error att i = Some a ->
  nth_error made i = Some m ->
  exists X' pct' r,
    _transform_impl self X = Ok X'
    /\ DF.get X' pct_col = Some (Floats pct')
    /\ nth_error pct' i = Some r
    /\ (forall v, p = Some v -> r = Some v)
    /\ (forall x, p = None -> a = Some x -> x == 0 -> r = Some 0)
    /\ (forall x y, p = None -> a = Some x -> 0 < x -> m = Some y ->
                    r = Some (y / x))
    /\ (forall x, p = None -> a = Some x -> 0 < x -> m = None -> r = None)
    /\ (forall x, p = None -> a = Some x -> x < 0 -> r = None)
    /\ (p = None -> a = None -> r = None).
Proof.
  intros Ht Hin Hp Ha Hm Hpi Hai Hmi.
  destruct (imputation_columns self X _ _ _ _ _ _ Ht Hin Hp Ha Hm)
    as (X' & E & _ & Hp' & _).
  exists X', (pct_filled pct att made), (pct_rule p a m).
  split; [exact E|]. split; [exact Hp'|].
  split; [now apply nth_pct_filled|].
  unfold pct_rule. repeat split.
  - intros v ->. cbn. now rewrite andb_false_r.
  - intros x -> -> Hx. cbn.
    apply Qeq_bool_iff in Hx. now rewrite Hx.
  - intros x y -> -> Hx ->. cbn.
    destruct (Qeq_bool x 0) eqn:E0.
    + apply Qeq_bool_iff in E0. rewrite E0 in Hx. now apply Qlt_irrefl in Hx.
    + cbn. apply Qltb_lt in Hx. now rewrite Hx.
  - intros x -> -> Hx ->. cbn.
    destruct (Qeq_bool x 0) eqn:E0.
    + apply Qeq_bool_iff in E0. rewrite E0 in Hx. now apply Qlt_irrefl in Hx.
    + cbn. apply Qltb_lt in Hx. now rewrite Hx.
  - intros x -> -> Hx. cbn.
    destruct (Qeq_bool x 0) eqn:E0.
    + apply Qeq_bool_iff in E0. rewrite E0 in Hx. now apply Qlt_irrefl in Hx.
    + cbn. replace (Qltb 0 x) with false; [reflexivity|].
      symmetry. apply Qltb_ge. now apply Qlt_le_weak.
  - now intros -> ->.
Qed.

Definition shooting_table : DataFrame :=
  [("fgm"%string, Floats [Some 4; Some 0; None]);
   ("fga"%string, Floats [Some 8; Some 0; None]);
   ("fg_pct"%string, Floats [None; None; None])].

Lemma percentage_rules_witness :
  exists X' pct',
    _transform_impl (Base.init default_config true) shooting_table = Ok X'
    /\ DF.get X' "fg_pct" = Some (Floats pct')
    /\ nth_error pct' 0 = Some (Some (4 / 8)).
Proof.
  destruct (percentage_rules (Base.init default_config true) shooting_table
              "fg_pct" "fga" "fgm" [None; None; None]
              [Some 8; Some 0; None] [Some 4; Some 0; None]
              0 None (Some 8) (Some 4)
              eq_refl (or_introl eq_refl) eq_refl eq_refl eq_refl
              eq_refl eq_refl eq_refl)
    as (X' & pct' & r & E & Hg & Hn & _ & _ & Hdiv & _).
  exists X', pct'. split; [exact E|]. split; [exact Hg|].
  rewrite Hn. f_equal.
  apply (Hdiv 8 4); try reflexivity.
Defined.

(** X7.  The stage is not idempotent where attempts are null: with
    counting stats filled with zero, a row whose percentage and attempts
    are both null leaves the first run with a null percentage and 0
    attempts, and a second run turns that percentage into 0. *)
Theorem null_attempts_need_two_runs
        (self : BaseNBATransformer) (X : DataFrame)
        (pct_col attempt_col made_col : string) (pct att made : list cell)
        (i : nat) (m : cell) :
  float_typed X = true ->
  fill_counting_stats_with_zero (config self) = true ->
  In (pct_col, attempt_col, made_col) percentage_mappings ->
  DF.get X pct_col = Some (Floats pct) ->
  DF.get X attempt_col = Some (Floats att) ->
  DF.get X made_col = Some (Floats made) ->
  nth_error pct i = Some None -> nth_error att i = Some None ->
  nth_error made i = Some m ->
  exists X1 X2 pct1 att1 pct2,
    _transform_impl self X = Ok X1
    /\ _transform_impl self X1 = Ok X2
    /\ DF.get X1 pct_col = Some (Floats pct1)
    /\ nth_error pct1 i = Some None
    /\ DF.get X1 attempt_col = Some (Floats att1)
    /\ nth_error att1 i = Some (Some 0)
    /\ DF.get X2 pct_col = Some (Floats pct2)
    /\ nth_error pct2 i = Some (Some 0).
Proof.
  intros Ht Hfill Hin Hp Ha Hm Hpi Hai Hmi.
  destruct (imputation_columns self X _ _ _ _ _ _ Ht Hin Hp Ha Hm)
    as (X1 & E1 & Ht1 & Hp1 & Ha1 & Hm1).
  rewrite Hfill in Ha1, Hm1.
  destruct (imputation_columns self X1 _ _ _ _ _ _ Ht1 Hin Hp1 Ha1 Hm1)
    as (X2 & E2 & _ & Hp2 & _).
  exists X1, X2, (pct_filled pct att made), (map (Cell.fillna 0) att),
    (pct_filled (pct_filled pct att made) (map (Cell.fillna 0) att)
                (map (Cell.fillna 0) made)).
  assert (N1 : nth_error (pct_filled pct att made) i = Some None)
    by (now rewrite (nth_pct_filled _ _ _ i None None m Hpi Hai Hmi)).
  assert (N2 : nth_error (map (Cell.fillna 0) att) i = Some (Some 0))
    by (now rewrite (map_nth_error (Cell.fillna 0) i att Hai)).
  repeat split; try assumption.
  rewrite (nth_pct_filled _ _ _ i None (Some 0) (Cell.fillna 0 m) N1 N2
             (map_nth_error (Cell.fillna 0) i made Hmi)).
  reflexivity.
Qed.

Lemma null_attempts_need_two_runs_witness :
  exists X1 X2,
    _transform_impl (Base.init default_config true) shooting_table = Ok X1
    /\ _transform_impl (Base.init default_config true) X1 = Ok X2
    /\ DF.get X1 "fg_pct" = Some (Floats [Some (4 / 8); Some 0; None])
    /\ DF.get X2 "fg_pct" = Some (Floats [Some (4 / 8); Some 0; Some 0]).
Proof.
  destruct (null_attempts_need_two_runs (Base.init default_config true)
              shooting_table "fg_pct" "fga" "fgm" [None; None; None]
              [Some 8; Some 0; None] [Some 4; Some 0; None] 2 None
              eq_refl eq_refl (or_introl eq_refl) eq_refl eq_refl eq_refl
              eq_refl eq_refl eq_refl)
    as (X1 & X2 & _ & _ & _ & E1 & E2 & _).
  exists X1, X2. split; [exact E1|]. split; [exact E2|].
  assert (E1' := E1). vm_compute in E1'. injection E1' as <-.
  assert (E2' := E2). vm_compute in E2'. injection E2' as <-.
  split; reflexivity.
Defined.

(** X8.  With [fill_counting_stats_with_zero] off, no counting-stat
    column is touched: only the percentage columns and [minutes_played] can
    change. *)
Theorem counting_stats_kept_when_off
        (self : BaseNBATransformer) (X : DataFrame) :
  float_typed X = true ->
  fill_counting_stats_with_zero (config self) = false ->
  exists X',
    _transform_impl self X = Ok X'
    /\ forall c,
        ~ In c ["fg_pct"; "fg3_pct"; "ft_pct"; "minutes_played"]%string ->
        DF.get X' c = DF.get X c.
Proof.
  intros Ht Hoff. unfold _transform_impl, percentage_mappings.
  cbn [foldM].
  pct_step X Ht ("fg_pct", "fga", "fgm")%string X1 E1 W1 Ht1.
  rewrite E1. cbn [res_bind].
  pct_step X1 Ht1 ("fg3_pct", "fg3a", "fg3m")%string X2 E2 W2 Ht2.
  rewrite E2. cbn [res_bind].
  pct_step X2 Ht2 ("ft_pct", "fta", "ftm")%string X3 E3 W3 Ht3.
  rewrite E3. cbn [res_bind]. rewrite Hoff.
  destruct (fill_minutes_spec X3 Ht3) as (X4 & E4 & W4).
  exists X4. split; [exact E4|]. intros c Hc.
  rewrite (writes_only_get _ _ _ _ W4), (writes_only_get _ _ _ _ W3),
    (writes_only_get _ _ _ _ W2), (writes_only_get _ _ _ _ W1);
    try reflexivity; intros ->; apply Hc; simpl; tauto.
Qed.

Definition no_fill_config : CleaningConfig :=
  {| max_minutes_per_game := 60;
     max_reasonable_points := 100;
     max_reasonable_rebounds := 30;
     max_reasonable_assists := 25;
     fill_counting_stats_with_zero := false;
     drop_threshold_missing_pct := 95;
     outlier_method := Iqr;
     outlier_threshold := 3;
     outlier_action := ActFlag;
     standardize_positions := true;
     create_full_names := true;
     strict_validation := true;
     auto_fix_inconsistencies := true;
     default_first_game_rest := 7 |}.

Lemma counting_stats_kept_when_off_witness :
  exists X',
    _transform_impl (Base.init no_fill_config true) shooting_table = Ok X'
    /\ DF.get X' "fga" = Some (Floats [Some 8; Some 0; None]).
Proof.
  destruct (counting_stats_kept_when_off (Base.init no_fill_config true)
              shooting_table eq_refl eq_refl) as (X' & E & H).
  exists X'. split; [exact E|].
  rewrite (H "fga"%string); [reflexivity|].
  simpl. intros Hc. repeat (destruct Hc as [Hc|Hc]; [discriminate|]).
  exact Hc.
Defined.

End PercentageRules.

(** ** DataValidator: every check on its own *)

Section ValidatorSteps.
Import DataValidator.

Lemma writes_only_columns (c : string) (X X' : DataFrame) :
  writes_only c X X' -> DF.columns X' = DF.columns X.
Proof.
  intros [->|[Hc [xs ->]]]; [reflexivity|].
  now apply columns_set_present.
Qed.

(** The minutes column after the check with auto-fix. *)
Definition cap_minutes (limit : Q) (mins : list cell) : list cell :=
  let mask := map (fun m => Cell.gt m (Some limit)) mins in
  if DF.any mask then DF.loc_assign_scalar mask (Some limit) mins else mins.

(** A percentage column after the check with auto-fix. *)
Definition clip_pct (xs : list cell) : list cell :=
  let mask := map (fun x => Cell.lt x (Some 0) || Cell.gt x (Some 1)) xs in
  if DF.any mask then map (Cell.clip (Some 0) (Some 1)) xs else xs.

Lemma check_minutes_exact (cfg : CleaningConfig) (X : DataFrame)
      (mins : list cell) :
  auto_fix_inconsistencies cfg = true ->
  DF.get X "minutes_played" = Some (Floats mins) ->
  check_minutes cfg X =
  Ok (DF.set X "minutes_played"
        (Floats (cap_minutes (max_minutes_per_game cfg) mins))).
Proof.
  intros Hfix Hg. unfold check_minutes, DF.has. rewrite Hg.
  apply floats_get in Hg. rewrite Hg. cbn [res_bind]. rewrite Hfix.
  unfold cap_minutes. apply floats_get in Hg.
  destruct (DF.any _); [reflexivity|]. now rewrite (set_get_id _ _ _ Hg).
Qed.

Lemma check_pct_exact (cfg : CleaningConfig) (X : DataFrame) (col : string)
      (xs : list cell) :
  auto_fix_inconsistencies cfg = true ->
  DF.get X col = Some (Floats xs) ->
  check_pct cfg X col = Ok (DF.set X col (Floats (clip_pct xs))).
Proof.
  intros Hfix Hg. unfold check_pct, DF.has. rewrite Hg.
  apply floats_get in Hg. rewrite Hg. cbn [res_bind]. rewrite Hfix.
  unfold clip_pct. apply floats_get in Hg.
  destruct (DF.any _); [reflexivity|]. now rewrite (set_get_id _ _ _ Hg).
Qed.

(** The shot and rebound checks write one column, whatever the
    configuration. *)
Lemma check_shots_writes (cfg : CleaningConfig) (X : DataFrame)
      (made_col attempt_col : string) :
  float_typed X = true ->
  In made_col numeric_columns -> In attempt_col numeric_columns ->
  exists X', check_shots cfg X (made_col, attempt_col) = Ok X'
             /\ writes_only made_col X X'.
Proof.
  intros Ht Hm Ha. unfold check_shots.
  destruct (DF.has X made_col) eqn:Hhm; cbn [andb];
    [|exists X; split; [reflexivity | apply writes_only_refl]].
  destruct (DF.has X attempt_col) eqn:Hha;
    [|exists X; split; [reflexivity | apply writes_only_refl]].
  destruct (float_typed_col X made_col Ht Hm Hhm) as [ms ->].
  destruct (float_typed_col X attempt_col Ht Ha Hha) as [ats ->].
  cbn [res_bind].
  destruct (DF.any _); [destruct (auto_fix_inconsistencies cfg)|];
    eexists; split; try reflexivity;
    auto using writes_only_refl, writes_only_set.
Qed.

Lemma check_rebounds_writes (cfg : CleaningConfig) (X : DataFrame) :
  float_typed X = true ->
  exists X', check_rebounds cfg X = Ok X' /\ writes_only "reb" X X'.
Proof.
  intros Ht. unfold check_rebounds.
  destruct (DF.has X "reb") eqn:Hr; cbn [andb];
    [|exists X; split; [reflexivity | apply writes_only_refl]].
  destruct (DF.has X "oreb") eqn:Ho; cbn [andb];
    [|exists X; split; [reflexivity | apply writes_only_refl]].
  destruct (DF.has X "dreb") eqn:Hd;
    [|exists X; split; [reflexivity | apply writes_only_refl]].
  destruct (float_typed_col X "reb" Ht) as [rs Er]; [simpl; tauto | exact Hr|].
  destruct (float_typed_col X "oreb" Ht) as [os Eo]; [simpl; tauto | exact Ho|].
  destruct (float_typed_col X "dreb" Ht) as [ds Ed]; [simpl; tauto | exact Hd|].
  rewrite Eo, Ed, Er. cbn [res_bind].
  destruct (DF.any _); [destruct (auto_fix_inconsistencies cfg)|];
    eexists; split; try reflexivity;
    auto using writes_only_refl, writes_only_set.
Qed.

(** A check that finds nothing returns the table. *)
Lemma check_minutes_noop (cfg : CleaningConfig) (X : DataFrame) :
  float_typed X = true ->
  (forall mins, DF.get X "minutes_played" = Some (Floats mins) ->
                DF.any (map (fun m => Cell.gt m
                                        (Some (max_minutes_per_game cfg)))
                            mins) = false) ->
  check_minutes cfg X = Ok X.
Proof.
  intros Ht H. unfold check_minutes.
  destruct (DF.has X "minutes_played") eqn:Hh; [|reflexivity].
  destruct (float_typed_col X "minutes_played" Ht) as [xs Exs];
    [simpl; tauto | exact Hh|].
  rewrite Exs. cbn [res_bind]. apply floats_get in Exs.
  now rewrite (H xs Exs).
Qed.

Lemma check_shots_noop (cfg : CleaningConfig) (X : DataFrame)
      (made_col attempt_col : string) :
  float_typed X = true ->
  In made_col numeric_columns -> In attempt_col numeric_columns ->
  (forall made att,
      DF.get X made_col = Some (Floats made) ->
      DF.get X attempt_col = Some (Floats att) ->
      DF.any (DF.map2 Cell.gt made att) = false) ->
  check_shots cfg X (made_col, attempt_col) = Ok X.
Proof.
  intros Ht Hm Ha H. unfold check_shots.
  destruct (DF.has X made_col) eqn:Hhm; cbn [andb]; [|reflexivity].
  destruct (DF.has X attempt_col) eqn:Hha; [|reflexivity].
  destruct (float_typed_col X made_col Ht Hm Hhm) as [ms Ems].
  destruct (float_typed_col X attempt_col Ht Ha Hha) as [ats Eats].
  rewrite Ems, Eats. cbn [res_bind]. apply floats_get in Ems, Eats.
  now rewrite (H ms ats Ems Eats).
Qed.

Lemma check_rebounds_noop (cfg : CleaningConfig) (X : DataFrame) :
  float_typed X = true ->
  (forall reb oreb dreb,
      DF.get X "reb" = Some (Floats reb) ->
      DF.get X "oreb" = Some (Floats oreb) ->
      DF.get X "dreb" = Some (Floats dreb) ->
      DF.any (reb_mismatch reb (DF.map2 Cell.add oreb dreb)) = false) ->
  check_rebounds cfg X = Ok X.
Proof.
  intros Ht H. unfold check_rebounds.
  destruct (DF.has X "reb") eqn:Hr; cbn [andb]; [|reflexivity].
  destruct (DF.has X "oreb") eqn:Ho; cbn [andb]; [|reflexivity].
  destruct (DF.has X "dreb") eqn:Hd; [|reflexivity].
  destruct (float_typed_col X "reb" Ht) as [rs Er]; [simpl; tauto | exact Hr|].
  destruct (float_typed_col X "oreb" Ht) as [os Eo]; [simpl; tauto | exact Ho|].
  destruct (float_typed_col X "dreb" Ht) as [ds Ed]; [simpl; tauto | exact Hd|].
  rewrite Eo, Ed, Er. cbn [res_bind]. apply floats_get in Er, Eo, Ed.
  now rewrite (H rs os ds Er Eo Ed).
Qed.

Lemma check_pct_noop (cfg : CleaningConfig) (X : DataFrame) (col : string) :
  float_typed X = true -> In col numeric_columns ->
  (forall xs, DF.get X col = Some (Floats xs) ->
              DF.any (map (fun x => Cell.lt x (Some 0)
                                    || Cell.gt x (Some 1)) xs) = false) ->
  check_pct cfg X col = Ok X.
Proof.
  intros Ht Hin H. unfold check_pct.
  destruct (DF.has X col) eqn:Hh; [|reflexivity].
  destruct (float_typed_col X col Ht Hin Hh) as [xs Exs].
  rewrite Exs. cbn [res_bind]. apply floats_get in Exs.
  now rewrite (H xs Exs).
Qed.

(** With auto-fix off, a check returns the table. *)
Lemma check_minutes_report (cfg : CleaningConfig) (X : DataFrame) :
  float_typed X = true -> auto_fix_inconsistencies cfg = false ->
  check_minutes cfg X = Ok X.
Proof.
  intros Ht Hoff. unfold check_minutes.
  destruct (DF.has X "minutes_played") eqn:Hh; [|reflexivity].
  destruct (float_typed_col X "minutes_played" Ht) as [xs ->];
    [simpl; tauto | exact Hh|].
  cbn [res_bind]. rewrite Hoff. now destruct (DF.any _).
Qed.

Lemma check_shots_report (cfg : CleaningConfig) (X : DataFrame)
      (made_col attempt_col : string) :
  float_typed X = true -> auto_fix_inconsistencies cfg = false ->
  In made_col numeric_columns -> In attempt_col numeric_columns ->
  check_shots cfg X (made_col, attempt_col) = Ok X.
Proof.
  intros Ht Hoff Hm Ha. unfold check_shots.
  destruct (DF.has X made_col) eqn:Hhm; cbn [andb]; [|reflexivity].
  destruct (DF.has X attempt_col) eqn:Hha; [|reflexivity].
  destruct (float_typed_col X made_col Ht Hm Hhm) as [ms ->].
  destruct (float_typed_col X attempt_col Ht Ha Hha) as [ats ->].
  cbn [res_bind]. rewrite Hoff. now destruct (DF.any _).
Qed.

Lemma check_rebounds_report (cfg : CleaningConfig) (X : DataFrame) :
  float_typed X = true -> auto_fix_inconsistencies cfg = false ->
  check_rebounds cfg X = Ok X.
Proof.
  intros Ht Hoff. unfold check_rebounds.
  destruct (DF.has X "reb") eqn:Hr; cbn [andb]; [|reflexivity].
  destruct (DF.has X "oreb") eqn:Ho; cbn [andb]; [|reflexivity].
  destruct (DF.has X "dreb") eqn:Hd; [|reflexivity].
  destruct (float_typed_col X "reb" Ht) as [rs ->]; [simpl; tauto | exact Hr|].
  destruct (float_typed_col X "oreb" Ht) as [os ->]; [simpl; tauto | exact Ho|].
  destruct (float_typed_col X "dreb" Ht) as [ds ->]; [simpl; tauto | exact Hd|].
  cbn [res_bind]. rewrite Hoff. now destruct (DF.any _).
Qed.

Lemma check_pct_report (cfg : CleaningConfig) (X : DataFrame) (col : string) :
  float_typed X = true -> auto_fix_inconsistencies cfg = false ->
  In col numeric_columns ->
  check_pct cfg X col = Ok X.
Proof.
  intros Ht Hoff Hin. unfold check_pct.
  destruct (DF.has X col) eqn:Hh; [|reflexivity].
  destruct (float_typed_col X col Ht Hin Hh) as [xs ->].
  cbn [res_bind]. rewrite Hoff. now destruct (DF.any _).
Qed.

(** After a fix, the check that made it finds nothing. *)
Lemma Qltb_irrefl (x : Q) : Qltb x x = false.
Proof. apply Qltb_ge. apply Qle_refl. Qed.

Lemma cap_minutes_clean (limit : Q) (mins : list cell) :
  DF.any (map (fun m => Cell.gt m (Some limit)) (cap_minutes limit mins))
  = false.
Proof.
  unfold cap_minutes.
  destruct (DF.any (map _ mins)) eqn:E; [|exact E].
  clear E. unfold DF.any.
  induction mins as [|[m|] mins IH]; simpl; [reflexivity| |exact IH].
  rewrite IH, orb_false_r.
  destruct (Qltb limit m) eqn:E; simpl; [apply Qltb_irrefl | exact E].
Qed.

Lemma clamp_made_clean (made att : list cell) :
  DF.any (DF.map2 Cell.gt (clamp_made made att) att) = false.
Proof.
  unfold clamp_made.
  destruct (DF.any (DF.map2 Cell.gt made att)) eqn:E; [|exact E].
  clear E. unfold DF.any. revert att.
  induction made as [|x made IH]; intros [|y att]; simpl; try reflexivity.
  rewrite IH, orb_false_r.
  destruct (Cell.gt x y) eqn:E; [|exact E].
  destruct y as [y|]; simpl; [apply Qltb_irrefl | reflexivity].
Qed.

Lemma reb_mismatch_self (l : list cell) : DF.any (reb_mismatch l l) = false.
Proof.
  unfold DF.any, reb_mismatch.
  induction l as [|[x|] l IH]; [reflexivity| |exact IH].
  assert (H : Qabs (x - x) <= tolerance)
    by (setoid_replace (x - x) with 0 by ring; now compute).
  apply Qltb_ge in H.
  change (Qltb tolerance (Qabs (x - x))
          || existsb (fun b => b)
               (DF.map2 (fun r c => Cell.gt (Cell.abs (Cell.sub r c))
                                            (Some tolerance)) l l) = false).
  now rewrite H, IH.
Qed.

Lemma fix_reb_clean (reb oreb dreb : list cell) :
  DF.any (reb_mismatch (fix_reb reb oreb dreb) (DF.map2 Cell.add oreb dreb))
  = false.
Proof.
  unfold fix_reb.
  destruct (DF.any (reb_mismatch reb (DF.map2 Cell.add oreb dreb))) eqn:E;
    [apply reb_mismatch_self | exact E].
Qed.

Lemma clip_unit_range (v : Q) :
  exists w, Cell.clip (Some 0) (Some 1) (Some v) = Some w /\ 0 <= w <= 1.
Proof.
  unfold Cell.clip, Cell.pymin, Cell.pymax.
  replace (Qltb 1 0) with false by reflexivity.
  replace (Qltb 0 1) with true by reflexivity.
  destruct (Qltb v 0) eqn:E1.
  - eexists. split; [reflexivity|]. split; [apply Qle_refl | now compute].
  - destruct (Qltb 1 v) eqn:E2.
    + eexists. split; [reflexivity|]. split; [now compute | apply Qle_refl].
    + eexists. split; [reflexivity|].
      apply Qltb_ge in E1, E2. now split.
Qed.

Lemma clip_pct_clean (xs : list cell) :
  DF.any (map (fun x => Cell.lt x (Some 0) || Cell.gt x (Some 1))
              (clip_pct xs)) = false.
Proof.
  unfold clip_pct. destruct (DF.any (map _ xs)) eqn:E; [|exact E].
  clear E. unfold DF.any.
  induction xs as [|[v|] xs IH]; [reflexivity| |exact IH].
  cbn [map existsb]. rewrite IH, orb_false_r.
  destruct (clip_unit_range v) as (w & -> & Hw0 & Hw1).
  unfold Cell.lt, Cell.gt. apply orb_false_iff.
  split; now apply Qltb_ge.
Qed.

End ValidatorSteps.

(** ** DataValidator: the whole transformation *)

Section ValidatorColumns.
Import DataValidator.

(** One cell of the minutes column under the cap. *)
Definition cap_cell (limit : Q) (m : cell) : cell :=
  if Cell.gt m (Some limit) then Some limit else m.

Lemma loc_assign_scalar_map {A} (p : A -> bool) (v : A) (l : list A) :
  DF.loc_assign_scalar (map p l) v l = map (fun x => if p x then v else x) l.
Proof. induction l as [|x l IH]; simpl; [reflexivity | now rewrite IH]. Qed.

Lemma map_unmasked {A} (p : A -> bool) (f : A -> A) (l : list A) :
  (forall x, p x = false -> f x = x) ->
  DF.any (map p l) = false -> map f l = l.
Proof.
  unfold DF.any. intros H. induction l as [|x l IH]; simpl; [reflexivity|].
  intros E. apply orb_false_iff in E as [E1 E2].
  now rewrite (H _ E1), IH.
Qed.

Lemma cap_minutes_map (limit : Q) (mins : list cell) :
  cap_minutes limit mins = map (cap_cell limit) mins.
Proof.
  unfold cap_minutes.
  destruct (DF.any (map (fun m => Cell.gt m (Some limit)) mins)) eqn:E.
  - exact (loc_assign_scalar_map (fun m => Cell.gt m (Some limit))
             (Some limit) mins).
  - symmetry.
    apply (map_unmasked (fun m => Cell.gt m (Some limit))); [|exact E].
    intros x Hx. unfold cap_cell. now rewrite Hx.
Qed.

Lemma clip_in_range (x : cell) :
  Cell.lt x (Some 0) || Cell.gt x (Some 1) = false ->
  Cell.clip (Some 0) (Some 1) x = x.
Proof.
  destruct x as [v|]; [|reflexivity]. intros E.
  apply orb_false_iff in E as [E0 E1].
  unfold Cell.lt, Cell.gt in E0, E1.
  unfold Cell.clip, Cell.pymin, Cell.pymax.
  replace (Qltb 1 0) with false by reflexivity.
  replace (Qltb 0 1) with true by reflexivity.
  now rewrite E0, E1.
Qed.

Lemma clip_pct_map (xs : list cell) :
  clip_pct xs = map (Cell.clip (Some 0) (Some 1)) xs.
Proof.
  unfold clip_pct.
  destruct (DF.any (map (fun x => Cell.lt x (Some 0) || Cell.gt x (Some 1))
                        xs)) eqn:E; [reflexivity|].
  symmetry.
  exact (map_unmasked (fun x => Cell.lt x (Some 0) || Cell.gt x (Some 1))
           (Cell.clip (Some 0) (Some 1)) xs clip_in_range E).
Qed.

Lemma clip_pct_range (xs : list cell) (i : nat) (v : Q) :
  nth_error (clip_pct xs) i = Some (Some v) -> 0 <= v <= 1.
Proof.
  rewrite clip_pct_map, nth_error_map.
  destruct (nth_error xs i) as [[x|]|]; try discriminate.
  cbn [option_map].
  destruct (clip_unit_range x) as (w & -> & Hw). now intros [= <-].
Qed.

Lemma clamp_made_nth (made att : list cell) (i : nat) (m a : cell) :
  nth_error made i = Some m -> nth_error att i = Some a ->
  nth_error (clamp_made made att) i = Some (if Cell.gt m a then a else m).
Proof.
  intros Hm Ha. unfold clamp_made.
  assert (Hg := nth_map2 Cell.gt made att i m a Hm Ha).
  destruct (DF.any (DF.map2 Cell.gt made att)) eqn:E.
  - exact (nth_loc_assign _ att made i m a _ Hm Hg Ha).
  - apply any_false in E. rewrite Forall_forall in E.
    rewrite (E _ (nth_error_In _ _ Hg)). exact Hm.
Qed.

(** The minutes and percentage checks, with what they leave in their column
    when auto-fix is on. *)
Lemma check_minutes_col (cfg : CleaningConfig) (X : DataFrame) :
  float_typed X = true ->
  exists X', check_minutes cfg X = Ok X'
             /\ writes_only "minutes_played" X X'
             /\ (auto_fix_inconsistencies cfg = true ->
                 forall mins,
                   DF.get X "minutes_played" = Some (Floats mins) ->
                   DF.get X' "minutes_played"
                   = Some (Floats (cap_minutes (max_minutes_per_game cfg)
                                               mins))).
Proof.
  intros Ht. destruct (check_minutes_spec cfg X Ht) as (X' & E & W).
  exists X'. split; [exact E|]. split; [exact W|].
  intros Hfix mins Hg.
  rewrite (check_minutes_exact cfg X mins Hfix Hg) in E.
  injection E as <-. apply get_set_same.
Qed.

Lemma check_pct_col (cfg : CleaningConfig) (X : DataFrame) (col : string) :
  float_typed X = true -> In col numeric_columns ->
  exists X', check_pct cfg X col = Ok X'
             /\ writes_only col X X'
             /\ (auto_fix_inconsistencies cfg = true ->
                 forall xs,
                   DF.get X col = Some (Floats xs) ->
                   DF.get X' col = Some (Floats (clip_pct xs))).
Proof.
  intros Ht Hin. destruct (check_pct_spec cfg X col Ht Hin) as (X' & E & W).
  exists X'. split; [exact E|]. split; [exact W|].
  intros Hfix xs Hg.
  rewrite (check_pct_exact cfg X col xs Hfix Hg) in E.
  injection E as <-. apply get_set_same.
Qed.

(** The columns the validator can write. *)
Definition validated_columns : list string :=
  ["minutes_played"; "fgm"; "fg3m"; "ftm"; "reb";
   "fg_pct"; "fg3_pct"; "ft_pct"]%string.

End ValidatorColumns.

Ltac in_numeric := simpl; tauto.

Section ValidatorTrace.
Import DataValidator.

(** One run of [_transform_impl] on a table of float columns, for any
    configuration: the result, what it keeps, and, with auto-fix on, what
    it leaves in the minutes and percentage columns. *)
Lemma validator_trace (self : BaseNBATransformer) (X : DataFrame) :
  float_typed X = true ->
  exists X',
    _transform_impl self X = Ok X'
    /\ float_typed X' = true
    /\ DF.columns X' = DF.columns X
    /\ (forall c, DF.has X' c = DF.has X c)
    /\ (forall c, ~ In c validated_columns -> DF.get X' c = DF.get X c)
    /\ (auto_fix_inconsistencies (config self) = true ->
        (forall mins,
            DF.get X "minutes_played" = Some (Floats mins) ->
            DF.get X' "minutes_played"
            = Some (Floats (cap_minutes
                              (max_minutes_per_game (config self)) mins)))
        /\ (forall col xs,
               In col pct_columns ->
               DF.get X col = Some (Floats xs) ->
               DF.get X' col = Some (Floats (clip_pct xs)))).
Proof.
  intros Ht. unfold _transform_impl.
  set (cfg := config self) in *.
  destruct (check_minutes_col cfg X Ht) as (X1 & E1 & W1 & P1).
  rewrite E1. cbn [res_bind].
  assert (Ht1 := writes_only_typed _ _ _ W1 Ht).
  unfold shot_checks. cbn [foldM].
  destruct (check_shots_writes cfg X1 "fgm" "fga" Ht1) as (X2 & E2 & W2);
    [in_numeric | in_numeric |].
  rewrite E2. cbn [res_bind].
  assert (Ht2 := writes_only_typed _ _ _ W2 Ht1).
  destruct (check_shots_writes cfg X2 "fg3m" "fg3a" Ht2) as (X3 & E3 & W3);
    [in_numeric | in_numeric |].
  rewrite E3. cbn [res_bind].
  assert (Ht3 := writes_only_typed _ _ _ W3 Ht2).
  destruct (check_shots_writes cfg X3 "ftm" "fta" Ht3) as (X4 & E4 & W4);
    [in_numeric | in_numeric |].
  rewrite E4. cbn [res_bind].
  assert (Ht4 := writes_only_typed _ _ _ W4 Ht3).
  destruct (check_rebounds_writes cfg X4 Ht4) as (X5 & E5 & W5).
  rewrite E5. cbn [res_bind].
  assert (Ht5 := writes_only_typed _ _ _ W5 Ht4).
  unfold pct_columns. cbn [foldM].
  destruct (check_pct_col cfg X5 "fg_pct" Ht5) as (X6 & E6 & W6 & P6);
    [in_numeric|].
  rewrite E6. cbn [res_bind].
  assert (Ht6 := writes_only_typed _ _ _ W6 Ht5).
  destruct (check_pct_col cfg X6 "fg3_pct" Ht6) as (X7 & E7 & W7 & P7);
    [in_numeric|].
  rewrite E7. cbn [res_bind].
  assert (Ht7 := writes_only_typed _ _ _ W7 Ht6).
  destruct (check_pct_col cfg X7 "ft_pct" Ht7) as (X8 & E8 & W8 & P8);
    [in_numeric|].
  rewrite E8. cbn [res_bind].
  assert (Ht8 := writes_only_typed _ _ _ W8 Ht7).
  unfold sanity_checks. cbn [foldM].
  rewrite (check_extreme_spec X8 "pts" _ Ht8) by in_numeric. cbn [res_bind].
  rewrite (check_extreme_spec X8 "reb" _ Ht8) by in_numeric. cbn [res_bind].
  rewrite (check_extreme_spec X8 "ast" _ Ht8) by in_numeric. cbn [res_bind].
  exists X8. split; [reflexivity|]. split; [exact Ht8|]. split.
  { rewrite (writes_only_columns _ _ _ W8), (writes_only_columns _ _ _ W7),
      (writes_only_columns _ _ _ W6), (writes_only_columns _ _ _ W5),
      (writes_only_columns _ _ _ W4), (writes_only_columns _ _ _ W3),
      (writes_only_columns _ _ _ W2), (writes_only_columns _ _ _ W1).
    reflexivity. }
  split.
  { intros c.
    rewrite (writes_only_has _ c _ _ W8), (writes_only_has _ c _ _ W7),
      (writes_only_has _ c _ _ W6), (writes_only_has _ c _ _ W5),
      (writes_only_has _ c _ _ W4), (writes_only_has _ c _ _ W3),
      (writes_only_has _ c _ _ W2), (writes_only_has _ c _ _ W1).
    reflexivity. }
  split.
  { intros c Hc.
    rewrite (writes_only_get _ c _ _ W8), (writes_only_get _ c _ _ W7),
      (writes_only_get _ c _ _ W6), (writes_only_get _ c _ _ W5),
      (writes_only_get _ c _ _ W4), (writes_only_get _ c _ _ W3),
      (writes_only_get _ c _ _ W2), (writes_only_get _ c _ _ W1);
      try reflexivity; intros ->; apply Hc; simpl; tauto. }
  intros Hfix. split.
  { intros mins Hm.
    frame W8. frame W7. frame W6. frame W5. frame W4. frame W3. frame W2.
    exact (P1 Hfix mins Hm). }
  intros col xs Hin Hg. simpl in Hin.
  destruct Hin as [<-|[<-|[<-|[]]]].
  - frame W8. frame W7. apply (P6 Hfix).
    frame W5. frame W4. frame W3. frame W2. frame W1. exact Hg.
  - frame W8. apply (P7 Hfix).
    frame W6. frame W5. frame W4. frame W3. frame W2. frame W1. exact Hg.
  - apply (P8 Hfix).
    frame W7. frame W6. frame W5. frame W4. frame W3. frame W2. frame W1.
    exact Hg.
Qed.

(** A float column of the result was a float column of the input. *)
Lemma typed_back (X X' : DataFrame) (c : string) (s : Series) :
  float_typed X = true -> (forall k, DF.has X' k = DF.has X k) ->
  In c numeric_columns -> DF.get X' c = Some s ->
  exists xs, DF.get X c = Some (Floats xs).
Proof.
  intros Ht Hhas Hin Hg.
  assert (Hh : DF.has X c = true).
  { rewrite <- Hhas. unfold DF.has. now rewrite Hg. }
  destruct (float_typed_col X c Ht Hin Hh) as [xs Hxs].
  exists xs. now apply floats_get.
Qed.

(** With auto-fix on, a second run finds nothing to fix. *)
Lemma validator_settled (self : BaseNBATransformer) (X X' : DataFrame) :
  float_typed X = true ->
  auto_fix_inconsistencies (config self) = true ->
  _transform_impl self X = Ok X' ->
  _transform_impl self X' = Ok X'.
Proof.
  intros Ht Hfix E.
  destruct (validator_trace self X Ht)
    as (Y & EY & Ht' & _ & Hhas & _ & Hcols).
  rewrite E in EY. injection EY as <-.
  destruct (Hcols Hfix) as [Hmin Hpct].
  destruct (validator_run self X Ht Hfix)
    as (Y & EY & _ & Hshots & Ho & Hd & Hreb).
  rewrite E in EY. injection EY as <-.
  unfold _transform_impl. set (cfg := config self) in *.
  assert (Hshot : forall made_col attempt_col,
             In (made_col, attempt_col) shot_checks ->
             In made_col numeric_columns -> In attempt_col numeric_columns ->
             check_shots cfg X' (made_col, attempt_col) = Ok X').
  { intros made_col attempt_col Hin Hm Ha.
    apply check_shots_noop; try assumption.
    intros made att Gm Ga.
    destruct (typed_back X X' made_col _ Ht Hhas Hm Gm) as [m0 Gm0].
    destruct (typed_back X X' attempt_col _ Ht Hhas Ha Ga) as [a0 Ga0].
    destruct (Hshots made_col attempt_col m0 a0 Hin Gm0 Ga0) as [Gm' Ga'].
    rewrite Gm in Gm'. rewrite Ga in Ga'.
    injection Gm' as ->. injection Ga' as ->. apply clamp_made_clean. }
  assert (Hp : forall col, In col pct_columns -> In col numeric_columns ->
                           check_pct cfg X' col = Ok X').
  { intros col Hin Hnum. apply check_pct_noop; try assumption.
    intros xs G.
    destruct (typed_back X X' col _ Ht Hhas Hnum G) as [x0 G0].
    rewrite (Hpct col x0 Hin G0) in G. injection G as <-.
    apply clip_pct_clean. }
  rewrite check_minutes_noop; [cbn [res_bind] | exact Ht' |].
  2:{ intros mins G.
      assert (Hn : In "minutes_played"%string numeric_columns)
        by in_numeric.
      destruct (typed_back X X' _ _ Ht Hhas Hn G) as [m0 G0].
      rewrite (Hmin m0 G0) in G. injection G as <-.
      apply cap_minutes_clean. }
  unfold shot_checks. cbn [foldM].
  rewrite (Hshot "fgm" "fga")%string by in_numeric. cbn [res_bind].
  rewrite (Hshot "fg3m" "fg3a")%string by in_numeric. cbn [res_bind].
  rewrite (Hshot "ftm" "fta")%string by in_numeric. cbn [res_bind].
  rewrite check_rebounds_noop; [cbn [res_bind] | exact Ht' |].
  2:{ intros reb oreb dreb Gr Go Gd.
      assert (Hn : In "reb"%string numeric_columns) by in_numeric.
      destruct (typed_back X X' _ _ Ht Hhas Hn Gr) as [r0 Gr0].
      rewrite Ho in Go. rewrite Hd in Gd.
      rewrite (Hreb r0 oreb dreb Gr0 Go Gd) in Gr. injection Gr as <-.
      apply fix_reb_clean. }
  unfold pct_columns. cbn [foldM].
  rewrite (Hp "fg_pct"%string) by in_numeric. cbn [res_bind].
  rewrite (Hp "fg3_pct"%string) by in_numeric. cbn [res_bind].
  rewrite (Hp "ft_pct"%string) by in_numeric. cbn [res_bind].
  unfold sanity_checks. cbn [foldM].
  rewrite (check_extreme_spec X' "pts" _ Ht') by in_numeric. cbn [res_bind].
  rewrite (check_extreme_spec X' "reb" _ Ht') by in_numeric. cbn [res_bind].
  rewrite (check_extreme_spec X' "ast" _ Ht') by in_numeric. reflexivity.
Qed.

Lemma validator_report (self : BaseNBATransformer) (X : DataFrame) :
  float_typed X = true ->
  auto_fix_inconsistencies (config self) = false ->
  _transform_impl self X = Ok X.
Proof.
  intros Ht Hoff. unfold _transform_impl. set (cfg := config self) in *.
  rewrite (check_minutes_report cfg X Ht Hoff). cbn [res_bind].
  unfold shot_checks. cbn [foldM].
  rewrite (check_shots_report cfg X "fgm" "fga" Ht Hoff) by in_numeric.
  cbn [res_bind].
  rewrite (check_shots_report cfg X "fg3m" "fg3a" Ht Hoff) by in_numeric.
  cbn [res_bind].
  rewrite (check_shots_report cfg X "ftm" "fta" Ht Hoff) by in_numeric.
  cbn [res_bind].
  rewrite (check_rebounds_report cfg X Ht Hoff). cbn [res_bind].
  unfold pct_columns. cbn [foldM].
  rewrite (check_pct_report cfg X "fg_pct" Ht Hoff) by in_numeric.
  cbn [res_bind].
  rewrite (check_pct_report cfg X "fg3_pct" Ht Hoff) by in_numeric.
  cbn [res_bind].
  rewrite (check_pct_report cfg X "ft_pct" Ht Hoff) by in_numeric.
  cbn [res_bind].
  unfold sanity_checks. cbn [foldM].
  rewrite (check_extreme_spec X "pts" _ Ht) by in_numeric. cbn [res_bind].
  rewrite (check_extreme_spec X "reb" _ Ht) by in_numeric. cbn [res_bind].
  rewrite (check_extreme_spec X "ast" _ Ht) by in_numeric. reflexivity.
Qed.

End ValidatorTrace.

Module DataValidatorMore.
Import DataValidator.

(** A box score with a 72-minute game, more shots made than attempted, a
    rebound total that is not the sum of its parts, a percentage above one
    and a text column. *)
Definition box_scores : DataFrame :=
  [("player_name"%string, Objects [Some "A"; Some "B"; None]%string);
   ("minutes_played"%string, Floats [Some 72; Some 35; None]);
   ("fgm"%string, Floats [Some 9; Some 4; Some 2]);
   ("fga"%string, Floats [Some 7; Some 10; None]);
   ("reb"%string, Floats [Some 5; Some 3; None]);
   ("oreb"%string, Floats [Some 1; Some 1; Some 0]);
   ("dreb"%string, Floats [Some 1; Some 2; Some 4]);
   ("fg_pct"%string, Floats [Some (9 # 7); Some (-1 # 5); None])].

Definition report_config : CleaningConfig :=
  {| max_minutes_per_game := 60;
     max_reasonable_points := 100;
     max_reasonable_rebounds := 30;
     max_reasonable_assists := 25;
     fill_counting_stats_with_zero := true;
     drop_threshold_missing_pct := 95;
     outlier_method := Iqr;
     outlier_threshold := 3;
     outlier_action := ActFlag;
     standardize_positions := true;
     create_full_names := true;
     strict_validation := true;
     auto_fix_inconsistencies := false;
     default_first_game_rest := 7 |}.

(** X9.  With [auto_fix_inconsistencies] off the validator only reports:
    on a table of float columns it returns the table it was given, whatever
    inconsistencies the table has. *)
Theorem validation_reports_only (self : BaseNBATransformer) (X : DataFrame) :
  float_typed X = true ->
  auto_fix_inconsistencies (config self) = false ->
  _transform_impl self X = Ok X.
Proof. exact (validator_report self X). Qed.

Lemma validation_reports_only_witness :
  _transform_impl (Base.init report_config true) box_scores = Ok box_scores.
Proof.
  apply (validation_reports_only (Base.init report_config true) box_scores);
    reflexivity.
Defined.

(** X10.  Whatever the configuration, validation keeps the column index
    and can change only the eight columns [minutes_played], [fgm], [fg3m],
    [ftm], [reb], [fg_pct], [fg3_pct] and [ft_pct]: attempts, the two
    rebound parts, points, assists and every other column come back as
    they were. *)
Theorem validation_frame (self : BaseNBATransformer) (X : DataFrame) :
  float_typed X = true ->
  exists X',
    _transform_impl self X = Ok X'
    /\ DF.columns X' = DF.columns X
    /\ forall c,
        ~ In c ["minutes_played"; "fgm"; "fg3m"; "ftm"; "reb";
                "fg_pct"; "fg3_pct"; "ft_pct"]%string ->
        DF.get X' c = DF.get X c.
Proof.
  intros Ht.
  destruct (validator_trace self X Ht) as (X' & E & _ & Hc & _ & Hf & _).
  exists X'. split; [exact E|]. split; [exact Hc | exact Hf].
Qed.

Lemma validation_frame_witness :
  exists X',
    _transform_impl (Base.init default_config true) box_scores = Ok X'
    /\ DF.columns X' = DF.columns box_scores
    /\ DF.get X' "fga" = Some (Floats [Some 7; Some 10; None])
    /\ DF.get X' "player_name" = Some (Objects [Some "A"; Some "B"; None]%string).
Proof.
  destruct (validation_frame (Base.init default_config true) box_scores
              eq_refl) as (X' & E & Hc & Hf).
  exists X'. split; [exact E|]. split; [exact Hc|].
  split; (rewrite Hf; [reflexivity|]); simpl; intros H;
    repeat (destruct H as [H|H]; [discriminate|]); exact H.
Defined.

(** X11.  With auto-fix on, the minutes column comes back with every value
    above [max_minutes_per_game] replaced by that maximum and every other
    cell, nulls included, as it was. *)
Theorem minutes_capped (self : BaseNBATransformer) (X : DataFrame)
        (mins : list cell) :
  float_typed X = true ->
  auto_fix_inconsistencies (config self) = true ->
  DF.get X "minutes_played" = Some (Floats mins) ->
  exists X',
    _transform_impl self X = Ok X'
    /\ DF.get X' "minutes_played"
       = Some (Floats
                 (map (fun m =>
                         if Cell.gt m (Some (max_minutes_per_game
                                               (config self)))
                         then Some (max_minutes_per_game (config self))
                         else m) mins)).
Proof.
  intros Ht Hfix Hg.
  destruct (validator_trace self X Ht) as (X' & E & _ & _ & _ & _ & Hcols).
  exists X'. split; [exact E|].
  destruct (Hcols Hfix) as [Hmin _].
  rewrite (Hmin mins Hg), cap_minutes_map. reflexivity.
Qed.

Lemma minutes_capped_witness :
  exists X',
    _transform_impl (Base.init default_config true) box_scores = Ok X'
    /\ DF.get X' "minutes_played" = Some (Floats [Some 60; Some 35; None]).
Proof.
  exact (minutes_capped (Base.init default_config true) box_scores
           [Some 72; Some 35; None] eq_refl eq_refl eq_refl).
Defined.

(** X12.  With auto-fix on, each of the three percentage columns comes
    back clipped to the unit interval: a value below 0 becomes 0, a value
    above 1 becomes 1, a value in between and a null stay, so every number
    left in the column lies between 0 and 1. *)
Theorem percentages_clipped (self : BaseNBATransformer) (X : DataFrame)
        (col : string) (xs : list cell) :
  float_typed X = true ->
  auto_fix_inconsistencies (config self) = true ->
  In col pct_columns ->
  DF.get X col = Some (Floats xs) ->
  exists X' xs',
    _transform_impl self X = Ok X'
    /\ DF.get X' col = Some (Floats xs')
    /\ xs' = map (fun x =>
                    match x with
                    | None => None
                    | Some v => Some (if Qltb v 0 then 0
                                      else if Qltb 1 v then 1 else v)
                    end) xs
    /\ forall i v, nth_error xs' i = Some (Some v) -> 0 <= v <= 1.
Proof.
  intros Ht Hfix Hin Hg.
  destruct (validator_trace self X Ht) as (X' & E & _ & _ & _ & _ & Hcols).
  destruct (Hcols Hfix) as [_ Hpct].
  exists X', (clip_pct xs). split; [exact E|].
  split; [exact (Hpct col xs Hin Hg)|]. split.
  - rewrite clip_pct_map. apply map_ext. intros [v|]; [|reflexivity].
    unfold Cell.clip, Cell.pymin, Cell.pymax.
    replace (Qltb 1 0) with false by reflexivity.
    replace (Qltb 0 1) with true by reflexivity.
    destruct (Qltb v 0) eqn:E0; [|reflexivity].
    now replace (Qltb 1 0) with false by reflexivity.
  - apply clip_pct_range.
Qed.

Lemma percentages_clipped_witness :
  exists X' xs',
    _transform_impl (Base.init default_config true) box_scores = Ok X'
    /\ DF.get X' "fg_pct" = Some (Floats xs')
    /\ xs' = [Some 1; Some 0; None].
Proof.
  destruct (percentages_clipped (Base.init default_config true) box_scores
              "fg_pct" [Some (9 # 7); Some (-1 # 5); None]
              eq_refl eq_refl (or_introl eq_refl) eq_refl)
    as (X' & xs' & E & Hg & Hxs & _).
  exists X', xs'. split; [exact E|]. split; [exact Hg|].
  rewrite Hxs. reflexivity.
Defined.

(** X13.  Validation is idempotent: on a table of float columns, running
    the validator on its own output returns that output, with auto-fix on
    or off. *)
Theorem validation_idempotent (self : BaseNBATransformer)
        (X X' : DataFrame) :
  float_typed X = true ->
  _transform_impl self X = Ok X' ->
  _transform_impl self X' = Ok X'.
Proof.
  intros Ht E.
  destruct (auto_fix_inconsistencies (config self)) eqn:Hfix.
  - exact (validator_settled self X X' Ht Hfix E).
  - assert (E' := validator_report self X Ht Hfix).
    rewrite E in E'. injection E' as ->. exact E.
Qed.

Definition box_scores_fixed : DataFrame :=
  [("player_name"%string, Objects [Some "A"; Some "B"; None]%string);
   ("minutes_played"%string, Floats [Some 60; Some 35; None]);
   ("fgm"%string, Floats [Some 7; Some 4; Some 2]);
   ("fga"%string, Floats [Some 7; Some 10; None]);
   ("reb"%string, Floats [Some (1 + 1); Some (1 + 2); Some (0 + 4)]);
   ("oreb"%string, Floats [Some 1; Some 1; Some 0]);
   ("dreb"%string, Floats [Some 1; Some 2; Some 4]);
   ("fg_pct"%string, Floats [Some 1; Some 0; None])].

Lemma validation_idempotent_witness :
  _transform_impl (Base.init default_config true) box_scores
  = Ok box_scores_fixed
  /\ _transform_impl (Base.init default_config true) box_scores_fixed
     = Ok box_scores_fixed.
Proof.
  assert (E : _transform_impl (Base.init default_config true) box_scores
              = Ok box_scores_fixed) by reflexivity.
  split; [exact E|].
  exact (validation_idempotent (Base.init default_config true) box_scores
           box_scores_fixed eq_refl E).
Defined.

(** X14.  With auto-fix on, a made-shots cell changes only where it
    exceeds the attempts of its row, and then it becomes those attempts; a
    cell that is null, or whose attempts are null, stays, and the attempts
    column is never written. *)
Theorem made_shots_clamped (self : BaseNBATransformer) (X : DataFrame)
        (made_col attempt_col : string) (made att : list cell) :
  float_typed X = true ->
  auto_fix_inconsistencies (config self) = true ->
  In (made_col, attempt_col) shot_checks ->
  DF.get X made_col = Some (Floats made) ->
  DF.get X attempt_col = Some (Floats att) ->
  exists X' made',
    _transform_impl self X = Ok X'
    /\ DF.get X' made_col = Some (Floats made')
    /\ DF.get X' attempt_col = Some (Floats att)
    /\ forall i m a,
        nth_error made i = Some m -> nth_error att i = Some a ->
        nth_error made' i = Some (if Cell.gt m a then a else m).
Proof.
  intros Ht Hfix Hin Hm Ha.
  destruct (validator_run self X Ht Hfix) as (X' & E & _ & Hshots & _).
  destruct (Hshots made_col attempt_col made att Hin Hm Ha) as [Gm Ga].
  exists X', (clamp_made made att).
  split; [exact E|]. split; [exact Gm|]. split; [exact Ga|].
  intros i m a. apply clamp_made_nth.
Qed.

Lemma made_shots_clamped_witness :
  exists X' made',
    _transform_impl (Base.init default_config true) box_scores = Ok X'
    /\ DF.get X' "fgm" = Some (Floats made')
    /\ nth_error made' 0 = Some (Some 7)
    /\ nth_error made' 1 = Some (Some 4)
    /\ nth_error made' 2 = Some (Some 2).
Proof.
  destruct (made_shots_clamped (Base.init default_config true) box_scores
              "fgm" "fga" [Some 9; Some 4; Some 2] [Some 7; Some 10; None]
              eq_refl eq_refl (or_introl eq_refl) eq_refl eq_refl)
    as (X' & made' & E & Gm & _ & H).
  exists X', made'. split; [exact E|]. split; [exact Gm|].
  split; [exact (H 0%nat (Some 9) (Some 7) eq_refl eq_refl)|].
  split; [exact (H 1%nat (Some 4) (Some 10) eq_refl eq_refl)|].
  exact (H 2%nat (Some 2) None eq_refl eq_refl).
Defined.

End DataValidatorMore.

(** ** OutlierDetector: what [transform] writes *)

Section OneColumnEffect.
Variable tgt : string -> string.
Variable f : Bounds -> list cell -> Series.

(** With separated steps, the column that the step of [col] writes holds,
    at the end of the loop, what that step computed from the column [col] of
    the table the loop started on. *)
Lemma column_steps_effect (bs : BoundsDict) (X X1 : DataFrame)
      (col : string) (b : Bounds) (xs : list cell) :
  separated tgt (keys bs) ->
  foldM (column_step tgt f) bs X = Ok X1 ->
  In (col, b) bs -> DF.get X col = Some (Floats xs) ->
  DF.get X1 (tgt col) = Some (f b xs).
Proof.
  revert X. induction bs as [|[c0 b0] bs IH]; intros X [Hnd Hsep] E Hin Hg;
    [contradiction|].
  cbn [keys map fst] in Hnd, Hsep.
  inversion Hnd as [|? ? Hnotin Hnd']; subst.
  cbn [foldM] in E.
  destruct (column_step tgt f X (c0, b0)) as [X'|e] eqn:E1; [|discriminate].
  cbn [res_bind] in E.
  destruct Hin as [[= -> ->]|Hin].
  - rewrite (column_steps_frame tgt f bs X' X1 (tgt col) E).
    + destruct (column_step_inv tgt f _ _ _ _ E1)
        as [[Hn _]|(ys & Hy & ->)]; [congruence|].
      rewrite Hy in Hg. injection Hg as ->. apply get_set_same.
    + intros k Hk. apply Hsep; [now right | now left |].
      intros ->. contradiction.
  - assert (Hk : In col (keys bs)) by (apply (in_map fst _ _ Hin)).
    assert (Hne : c0 <> col) by (intros ->; contradiction).
    apply (IH X').
    + split; [exact Hnd'|]. intros k k' Hk1 Hk2. apply Hsep; now right.
    + exact E.
    + exact Hin.
    + destruct (column_step_inv tgt f _ _ _ _ E1)
        as [[_ ->]|(ys & _ & ->)]; [exact Hg|].
      rewrite get_set_other; [exact Hg|].
      apply (Hsep c0 col); [now left | now right | exact Hne].
Qed.

End OneColumnEffect.

Section OutlierRun.
Import OutlierDetector.

Lemma float_typed_set_other (X : DataFrame) (c : string) (s : Series) :
  ~ In c numeric_columns ->
  float_typed X = true -> float_typed (DF.set X c s) = true.
Proof.
  unfold float_typed. rewrite !forallb_forall. intros Hc H k Hk.
  unfold float_or_absent. rewrite get_set_other; [exact (H k Hk)|].
  intros ->. contradiction.
Qed.

Lemma get_select (mask : list bool) (X : DataFrame) (c : string) :
  DF.get (DF.select mask X) c = option_map (DF.series_keep mask) (DF.get X c).
Proof.
  unfold DF.select. induction X as [|[k v] X IH]; simpl; [reflexivity|].
  destruct (String.eqb k c); [reflexivity | exact IH].
Qed.

Lemma columns_select (mask : list bool) (X : DataFrame) :
  DF.columns (DF.select mask X) = DF.columns X.
Proof.
  unfold DF.columns, DF.select. rewrite map_map. reflexivity.
Qed.

Lemma float_typed_select (mask : list bool) (X : DataFrame) :
  float_typed X = true -> float_typed (DF.select mask X) = true.
Proof.
  unfold float_typed. rewrite !forallb_forall. intros H k Hk.
  specialize (H k Hk). unfold float_or_absent in *. rewrite get_select.
  now destruct (DF.get X k) as [[xs|xs|xs]|].
Qed.

Lemma flag_column_not_numeric (k : string) :
  In k outlier_columns -> ~ In (flag_column k) numeric_columns.
Proof.
  intros Hk. simpl in Hk.
  repeat (destruct Hk as [Hk|Hk]; [subst k; simpl; intros H;
          repeat (destruct H as [H|H]; [discriminate|]); exact H|]).
  contradiction.
Qed.

(** One round of the loop, on a table of float columns. *)
Lemma handle_column_run (action : OutlierAction) (X : DataFrame)
      (item : string * Bounds) :
  float_typed X = true -> In (fst item) outlier_columns ->
  exists X', handle_column action X item = Ok X' /\ float_typed X' = true.
Proof.
  destruct item as [col b]. cbn [fst]. intros Ht Hin. unfold handle_column.
  destruct (DF.has X col) eqn:Hh; [|now exists X].
  destruct (float_typed_col X col Ht (outlier_columns_numeric col Hin) Hh)
    as [xs ->].
  cbn [res_bind]. destruct action; eexists; (split; [reflexivity|]).
  - apply float_typed_set_other; [|exact Ht].
    exact (flag_column_not_numeric col Hin).
  - now apply float_typed_set.
  - now apply float_typed_select.
Qed.

Lemma transform_impl_run (self : OutlierDetector) (X : DataFrame) :
  bounds_wf (outlier_bounds_ self) -> float_typed X = true ->
  exists X1, _transform_impl self X = Ok X1 /\ float_typed X1 = true.
Proof.
  intros [_ Hincl] Ht. unfold _transform_impl.
  destruct (foldM_rel
              (handle_column (outlier_action (config (od_base self))))
              (fun X => float_typed X = true) (fun _ _ => True)
              (outlier_bounds_ self) (fun _ => I) (fun _ _ _ _ _ => I))
    with (X := X) as (X1 & E & Ht1 & _); [|exact Ht|now exists X1].
  intros Y item Hin HY.
  destruct (handle_column_run (outlier_action (config (od_base self))) Y item
              HY) as (Y' & EY & HY').
  - apply Hincl. exact (in_map fst _ _ Hin).
  - now exists Y'.
Qed.

End OutlierRun.

Ltac qltb_cases :=
  repeat match goal with
         | |- context [Qltb ?a ?b] =>
             is_var a; is_var b;
             let E := fresh "E" in destruct (Qltb a b) eqn:E; cbv beta iota
         end.

Ltac qltb_facts :=
  repeat match goal with
         | H : Qltb _ _ = true |- _ => apply Qltb_lt in H
         | H : Qltb _ _ = false |- _ => apply Qltb_ge in H
         end.

Section OutlierCells.

(** Clipping one number to ordered bounds. *)
Lemma clip_between (lo hi v : Q) :
  lo <= hi ->
  exists y, Cell.clip (Some lo) (Some hi) (Some v) = Some y
            /\ lo <= y <= hi /\ (lo <= v <= hi -> y = v).
Proof.
  intros Hle. unfold Cell.clip, Cell.pymin, Cell.pymax.
  eexists. split; [reflexivity|].
  qltb_cases; qltb_facts; split; try lra; intros [H1 H2];
    try reflexivity; exfalso; lra.
Qed.

Lemma clip_no_bounds (x : cell) : Cell.clip None None x = x.
Proof. now destruct x. Qed.

End OutlierCells.

Module OutlierDetectorMore.
Import OutlierDetector.

(** X15.  Under the cap action, a column with fitted bounds [lo <= hi]
    comes back with as many cells, every number inside [lo, hi], a number
    that was inside unchanged, and nulls still null. *)
Theorem capped_within_bounds (self : OutlierDetector) (X : DataFrame)
        (col : string) (lo hi : Q) (xs : list cell) :
  float_typed X = true ->
  bounds_wf (outlier_bounds_ self) ->
  outlier_action (config (od_base self)) = ActCap ->
  In (col, (Some lo, Some hi)) (outlier_bounds_ self) ->
  lo <= hi ->
  DF.get X col = Some (Floats xs) ->
  exists X1 ys,
    _transform_impl self X = Ok X1
    /\ DF.get X1 col = Some (Floats ys)
    /\ List.length ys = List.length xs
    /\ (forall i v, nth_error xs i = Some (Some v) ->
                    exists y, nth_error ys i = Some (Some y)
                              /\ lo <= y <= hi
                              /\ (lo <= v <= hi -> y = v))
    /\ (forall i, nth_error xs i = Some None -> nth_error ys i = Some None).
Proof.
  intros Ht Hwf Hact Hin Hle Hg.
  destruct (transform_impl_run self X Hwf Ht) as (X1 & E & _).
  exists X1, (map (Cell.clip (Some lo) (Some hi)) xs).
  split; [exact E|].
  unfold _transform_impl in E. rewrite Hact in E.
  rewrite (foldM_ext _ _ _ _ handle_cap) in E.
  split.
  { exact (column_steps_effect (fun k => k) cap_series _ X X1 col
             (Some lo, Some hi) xs (cap_separated _ (proj1 Hwf)) E Hin Hg). }
  split; [apply length_map|]. split.
  - intros i v Hi. rewrite nth_error_map, Hi. cbn [option_map].
    destruct (clip_between lo hi v Hle) as (y & -> & Hy). now exists y.
  - intros i Hi. now rewrite nth_error_map, Hi.
Qed.

Lemma capped_within_bounds_witness :
  exists X1 ys,
    _transform_impl OutlierDetectorSpec.capping_detector
                    OutlierDetectorSpec.table_C = Ok X1
    /\ DF.get X1 "pts" = Some (Floats ys)
    /\ nth_error ys 1 = Some (Some 10).
Proof.
  destruct (capped_within_bounds OutlierDetectorSpec.capping_detector
              OutlierDetectorSpec.table_C "pts"
              (-656 # 64) (1360 # 64)
              [Some 0; Some 10; Some 90; Some (-40 # 1)])
    as (X1 & ys & E & Hg & _ & Hrows & _).
  - reflexivity.
  - apply (fit_bounds_wf sqrt_unused table_B
             (init OutlierDetectorSpec.capping_config true));
      [reflexivity | reflexivity | apply init_bounds_wf | reflexivity].
  - reflexivity.
  - left. reflexivity.
  - now compute.
  - reflexivity.
  - exists X1, ys. split; [exact E|]. split; [exact Hg|].
    destruct (Hrows 1%nat 10 eq_refl) as (y & Hy & _ & Hsame).
    rewrite Hy. rewrite Hsame; [reflexivity|].
    split; now compute.
Defined.

(** X16.  Under the flag action, a column with fitted bounds [lo] and
    [hi] gets a companion column [<col>_outlier_flag] with one flag per
    row, true exactly in the rows whose value is a number below [lo] or
    above [hi]; a null is never flagged, and the column itself is not
    written. *)
Theorem flags_mark_outliers (self : OutlierDetector) (X : DataFrame)
        (col : string) (lo hi : Q) (xs : list cell) :
  float_typed X = true ->
  bounds_wf (outlier_bounds_ self) ->
  outlier_action (config (od_base self)) = ActFlag ->
  In (col, (Some lo, Some hi)) (outlier_bounds_ self) ->
  DF.get X col = Some (Floats xs) ->
  exists X1 flags,
    _transform_impl self X = Ok X1
    /\ DF.get X1 (col ++ "_outlier_flag") = Some (Bools flags)
    /\ DF.get X1 col = Some (Floats xs)
    /\ List.length flags = List.length xs
    /\ forall i,
        nth_error flags i = Some true
        <-> exists v, nth_error xs i = Some (Some v) /\ (v < lo \/ hi < v).
Proof.
  intros Ht Hwf Hact Hin Hg.
  destruct (transform_impl_run self X Hwf Ht) as (X1 & E & _).
  exists X1, (outliers_mask (Some lo, Some hi) xs).
  split; [exact E|].
  assert (Hcol : In col outlier_columns)
    by (apply (proj2 Hwf); exact (in_map fst _ _ Hin)).
  split.
  { unfold _transform_impl in E. rewrite Hact in E.
    rewrite (foldM_ext _ _ _ _ handle_flag) in E.
    exact (column_steps_effect flag_column flag_series _ X X1 col
             (Some lo, Some hi) xs
             (flag_separated _ (proj1 Hwf) (proj2 Hwf)) E Hin Hg). }
  split.
  { rewrite (transform_impl_flag_frame self X X1 col Hwf Hact E Hcol).
    exact Hg. }
  split; [apply length_map|].
  intros i. unfold outliers_mask. rewrite nth_error_map. cbn [fst snd].
  destruct (nth_error xs i) as [[v|]|]; cbn [option_map].
  - unfold Cell.lt, Cell.gt. split.
    + intros [= H]. exists v. split; [reflexivity|].
      apply orb_true_iff in H as [H|H]; apply Qltb_lt in H; tauto.
    + intros (w & [= <-] & H). f_equal. apply orb_true_iff.
      destruct H as [H|H]; apply Qltb_lt in H; tauto.
  - split; [discriminate | now intros (w & H & _)].
  - split; [discriminate | now intros (w & H & _)].
Qed.

Lemma flags_mark_outliers_witness :
  exists X1 flags,
    _transform_impl
      (snd (fit sqrt_unused table_B (init default_config true))) table_B
    = Ok X1
    /\ DF.get X1 "pts_outlier_flag" = Some (Bools flags)
    /\ nth_error flags 9 = Some true.
Proof.
  destruct (flags_mark_outliers
              (snd (fit sqrt_unused table_B (init default_config true)))
              table_B "pts" (-656 # 64) (1360 # 64)
              [Some 1; Some 2; Some 3; Some 4; Some 5; Some 6; Some 7;
               Some 8; Some 9; Some 50])
    as (X1 & flags & E & Hg & _ & _ & Hrows).
  - reflexivity.
  - apply (fit_bounds_wf sqrt_unused table_B (init default_config true));
      [reflexivity | reflexivity | apply init_bounds_wf | reflexivity].
  - reflexivity.
  - left. reflexivity.
  - reflexivity.
  - exists X1, flags. split; [exact E|]. split; [exact Hg|].
    apply Hrows. exists 50. split; [reflexivity|]. right. now compute.
Defined.

End OutlierDetectorMore.

(** ** OutlierDetector: the remove action *)

Section RowSelection.

Lemma keep_map {A B} (f : A -> B) (m : list bool) (xs : list A) :
  DF.keep m (map f xs) = map f (DF.keep m xs).
Proof.
  revert xs. induction m as [|b m IH]; intros [|x xs]; simpl;
    try reflexivity.
  destruct b; simpl; now rewrite IH.
Qed.

(** Two selections in a row are one selection by the conjunction of the
    masks, the second mask being read on the rows that the first kept. *)
Lemma keep_keep {A} (m1 m2 : list bool) (xs : list A) :
  DF.keep (DF.keep m1 m2) (DF.keep m1 xs)
  = DF.keep (DF.map2 andb m1 m2) xs.
Proof.
  revert m2 xs. induction m1 as [|b m1 IH]; intros [|c m2] [|x xs];
    try reflexivity.
  - simpl. destruct b; [reflexivity|]. now destruct (DF.keep m1 m2).
  - simpl. destruct b; simpl.
    + destruct c; now rewrite IH.
    + apply IH.
Qed.

Lemma select_select (m1 m2 : list bool) (X : DataFrame) :
  DF.select (DF.keep m1 m2) (DF.select m1 X)
  = DF.select (DF.map2 andb m1 m2) X.
Proof.
  unfold DF.select. rewrite map_map. apply map_ext.
  intros [c [xs|xs|xs]]; cbn [fst snd DF.series_keep];
    now rewrite keep_keep.
Qed.

Lemma keep_all {A} (n : nat) (xs : list A) :
  (List.length xs <= n)%nat -> DF.keep (repeat true n) xs = xs.
Proof.
  revert n. induction xs as [|x xs IH]; intros [|n] H; simpl in *;
    try reflexivity; [lia|].
  rewrite IH by lia. reflexivity.
Qed.

Lemma length_keep {A B} (m : list bool) (xs : list A) (ys : list B) :
  List.length xs = List.length ys ->
  List.length (DF.keep m xs) = List.length (DF.keep m ys).
Proof.
  revert xs ys. induction m as [|b m IH]; intros [|x xs] [|y ys] H;
    simpl in *; try reflexivity; try discriminate.
  injection H as H. destruct b; simpl; now rewrite (IH xs ys H).
Qed.

Lemma nth_error_keep_inv {A} (m : list bool) (xs : list A) (i : nat)
      (x : A) :
  nth_error (DF.keep m xs) i = Some x ->
  exists j, nth_error m j = Some true /\ nth_error xs j = Some x.
Proof.
  revert xs i. induction m as [|b m IH]; intros [|y xs] i; simpl;
    try (destruct i; discriminate).
  destruct b.
  - destruct i as [|i]; simpl.
    + intros [= ->]. now exists 0%nat.
    + intros H. destruct (IH xs i H) as (j & H1 & H2). now exists (S j).
  - intros H. destruct (IH xs i H) as (j & H1 & H2). now exists (S j).
Qed.

Lemma nth_error_map2 {A B C} (f : A -> B -> C) (l1 : list A) (l2 : list B)
      (i : nat) :
  nth_error (DF.map2 f l1 l2) i =
  match nth_error l1 i, nth_error l2 i with
  | Some a, Some b => Some (f a b)
  | _, _ => None
  end.
Proof.
  revert l2 i. induction l1 as [|a l1 IH]; intros [|b l2] [|i]; simpl;
    try reflexivity.
  - now destruct (nth_error l1 i).
  - apply IH.
Qed.

Lemma length_map2 {A B C} (f : A -> B -> C) (l1 : list A) (l2 : list B) :
  List.length l1 = List.length l2 ->
  List.length (DF.map2 f l1 l2) = List.length l1.
Proof.
  revert l2. induction l1 as [|a l1 IH]; intros [|b l2] H; simpl in *;
    try reflexivity; try discriminate.
  injection H as H. now rewrite IH.
Qed.

Lemma all_true (m : list bool) :
  (forall i, (i < List.length m)%nat -> nth_error m i = Some true) ->
  m = repeat true (List.length m).
Proof.
  induction m as [|b m IH]; intros H; [reflexivity|]. simpl.
  assert (Hb := H 0%nat (Nat.lt_0_succ _)). simpl in Hb.
  injection Hb as ->. f_equal. apply IH.
  intros i Hi. apply (H (S i)). simpl. lia.
Qed.

(** Every column has as many cells as the table has rows. *)
Definition rectangular (X : DataFrame) : bool :=
  forallb (fun cs => Nat.eqb (DF.series_len (snd cs)) (DF.nrows X)) X.

Lemma get_in (X : DataFrame) (c : string) (s : Series) :
  DF.get X c = Some s -> In (c, s) X.
Proof.
  induction X as [|[k v] X IH]; simpl; [discriminate|].
  destruct (String.eqb_spec k c) as [->|_].
  - intros [= ->]. now left.
  - intros H. right. now apply IH.
Qed.

Lemma rectangular_get (X : DataFrame) (c : string) (s : Series) :
  rectangular X = true -> DF.get X c = Some s ->
  DF.series_len s = DF.nrows X.
Proof.
  unfold rectangular. rewrite forallb_forall. intros H Hg.
  apply Nat.eqb_eq. exact (H _ (get_in X c s Hg)).
Qed.

Lemma series_len_keep (m : list bool) (s t : Series) :
  DF.series_len s = DF.series_len t ->
  DF.series_len (DF.series_keep m s) = DF.series_len (DF.series_keep m t).
Proof.
  destruct s, t; cbn [DF.series_len DF.series_keep]; apply length_keep.
Qed.

Lemma rectangular_select (m : list bool) (X : DataFrame) :
  rectangular X = true -> rectangular (DF.select m X) = true.
Proof.
  unfold rectangular. rewrite !forallb_forall. intros H [c s] Hin.
  unfold DF.select in Hin. apply in_map_iff in Hin as ([c' s'] & [= <- <-] & Hin).
  cbn [fst snd]. apply Nat.eqb_eq.
  destruct X as [|[c0 s0] X]; [contradiction|].
  cbn [DF.select map DF.nrows fst snd].
  apply series_len_keep.
  assert (H1 := H _ Hin). apply Nat.eqb_eq in H1. exact H1.
Qed.

Lemma select_all (X : DataFrame) :
  rectangular X = true -> DF.select (repeat true (DF.nrows X)) X = X.
Proof.
  unfold rectangular. rewrite forallb_forall. intros H.
  unfold DF.select. rewrite <- (map_id X) at 2. apply map_ext_in.
  intros [c s] Hin. specialize (H _ Hin). cbn [fst snd] in *.
  apply Nat.eqb_eq in H. f_equal.
  destruct s as [xs|xs|xs]; cbn [DF.series_keep DF.series_len] in *;
    f_equal; apply keep_all; lia.
Qed.

End RowSelection.

Section RemoveFacts.
Import OutlierDetector.

(** [(x < lower_bound) | (x > upper_bound)] on one cell. *)
Definition is_outlier (b : Bounds) (x : cell) : bool :=
  Cell.lt x (fst b) || Cell.gt x (snd b).

(** The mask of the rows still kept after the rounds of [bs], all read on
    the table the loop started on. *)
Definition kept_fold (bs : BoundsDict) (X : DataFrame) (M : list bool)
  : list bool :=
  fold_left
    (fun M item =>
       match DF.get X (fst item) with
       | Some (Floats xs) =>
           DF.map2 andb M (map (fun x => negb (is_outlier (snd item) x)) xs)
       | _ => M
       end)
    bs M.

Lemma remove_steps_fold (bs : BoundsDict) (X : DataFrame) (M : list bool) :
  float_typed X = true ->
  (forall item, In item bs -> In (fst item) outlier_columns) ->
  foldM (handle_column ActRemove) bs (DF.select M X)
  = Ok (DF.select (kept_fold bs X M) X).
Proof.
  intros Ht. revert M. induction bs as [|[col b] bs IH]; intros M Hin;
    [reflexivity|].
  cbn [foldM kept_fold fold_left fst snd]. unfold handle_column at 1.
  assert (Hcol : In col outlier_columns) by (apply (Hin (col, b)); now left).
  assert (Hrest : forall item, In item bs -> In (fst item) outlier_columns)
    by (intros item Hi; apply Hin; now right).
  unfold DF.has, DF.floats. rewrite get_select.
  destruct (DF.get X col) as [s|] eqn:Hg; cbn [option_map].
  - assert (Hh : DF.has X col = true) by (unfold DF.has; now rewrite Hg).
    destruct (float_typed_col X col Ht (outlier_columns_numeric col Hcol) Hh)
      as [xs Hxs].
    apply floats_get in Hxs. rewrite Hg in Hxs. injection Hxs as ->.
    cbn [DF.series_keep res_bind].
    replace (map negb (outliers_mask b (DF.keep M xs)))
      with (DF.keep M (map (fun x => negb (is_outlier b x)) xs)).
    + rewrite select_select. apply (IH _ Hrest).
    + unfold outliers_mask. rewrite map_map, keep_map. reflexivity.
  - cbn [res_bind]. apply (IH _ Hrest).
Qed.

(** Row by row: a row is kept when it was kept before and no round finds
    an outlier in it. *)
Lemma kept_fold_rows (bs : BoundsDict) (X : DataFrame) (M : list bool)
      (i : nat) :
  (forall col xs, DF.get X col = Some (Floats xs) ->
                  List.length xs = List.length M) ->
  List.length (kept_fold bs X M) = List.length M
  /\ (nth_error (kept_fold bs X M) i = Some true
      <-> nth_error M i = Some true
          /\ forall col b xs x,
              In (col, b) bs -> DF.get X col = Some (Floats xs) ->
              nth_error xs i = Some x -> is_outlier b x = false).
Proof.
  revert M. induction bs as [|[col b] bs IH]; intros M Hlen.
  - split; [reflexivity|]. cbn [kept_fold fold_left]. split.
    + intros H. split; [exact H | now intros col b xs x []].
    + now intros [H _].
  - cbn [kept_fold fold_left fst snd].
    destruct (DF.get X col) as [[xs|xs|xs]|] eqn:Hg.
    2-4: destruct (IH M Hlen) as [IHl IHr]; split; [exact IHl|];
      fold (kept_fold bs X M); rewrite IHr; split;
      [ intros [H1 H2]; split; [exact H1|];
        intros c b' ys y [[= <- <-]|Hin] Hc Hy;
        [congruence | exact (H2 c b' ys y Hin Hc Hy)]
      | intros [H1 H2]; split; [exact H1|];
        intros c b' ys y Hin; apply H2; now right ].
    set (M' := DF.map2 andb M (map (fun x => negb (is_outlier b x)) xs)).
    assert (HM' : List.length M' = List.length M).
    { unfold M'. apply length_map2.
      rewrite length_map. symmetry. exact (Hlen col xs Hg). }
    assert (Hlen' : forall c ys, DF.get X c = Some (Floats ys) ->
                                 List.length ys = List.length M')
      by (intros c ys Hc; rewrite HM'; exact (Hlen c ys Hc)).
    destruct (IH M' Hlen') as [IHl IHr]. fold (kept_fold bs X M').
    split; [now rewrite IHl|]. rewrite IHr.
    unfold M'. rewrite nth_error_map2, nth_error_map.
    split.
    + intros [H1 H2].
      destruct (nth_error M i) as [a|] eqn:Ha; [|discriminate].
      destruct (nth_error xs i) as [x0|] eqn:Hx0; [|discriminate].
      cbn [option_map] in H1. injection H1 as H1.
      apply andb_true_iff in H1 as [-> Hx]. split; [reflexivity|].
      intros c b' ys y [[= <- <-]|Hin] Hc Hy.
      * rewrite Hg in Hc. injection Hc as <-. rewrite Hx0 in Hy.
        injection Hy as <-. now apply negb_true_iff in Hx.
      * exact (H2 c b' ys y Hin Hc Hy).
    + intros [H1 H2]. split.
      * rewrite H1.
        destruct (nth_error xs i) as [x0|] eqn:Hx0.
        -- cbn [option_map].
           rewrite (H2 col b xs x0 (or_introl eq_refl) Hg Hx0).
           reflexivity.
        -- exfalso. apply nth_error_None in Hx0.
           assert (Hi : (i < List.length M)%nat)
             by (apply nth_error_Some; congruence).
           rewrite (Hlen col xs Hg) in Hx0. lia.
      * intros c b' ys y Hin. apply H2. now right.
Qed.

(** [_transform_impl] under remove, on a well-formed table. *)
Lemma remove_run (self : OutlierDetector) (X : DataFrame) :
  float_typed X = true -> rectangular X = true ->
  bounds_wf (outlier_bounds_ self) ->
  outlier_action (config (od_base self)) = ActRemove ->
  _transform_impl self X
  = Ok (DF.select
          (kept_fold (outlier_bounds_ self) X (repeat true (DF.nrows X))) X).
Proof.
  intros Ht Hrect [_ Hincl] Hact. unfold _transform_impl. rewrite Hact.
  rewrite <- (select_all X Hrect) at 1.
  apply remove_steps_fold; [exact Ht|].
  intros item Hin. apply Hincl. exact (in_map fst _ _ Hin).
Qed.

Lemma rectangular_floats (X : DataFrame) :
  rectangular X = true ->
  forall col xs, DF.get X col = Some (Floats xs) ->
                 List.length xs = List.length (repeat true (DF.nrows X)).
Proof.
  intros Hrect col xs Hg. rewrite repeat_length.
  exact (rectangular_get X col _ Hrect Hg).
Qed.

(** After the filter, no row is left to remove. *)
Lemma remove_settled (self : OutlierDetector) (X : DataFrame) :
  float_typed X = true -> rectangular X = true ->
  let M := kept_fold (outlier_bounds_ self) X (repeat true (DF.nrows X)) in
  kept_fold (outlier_bounds_ self) (DF.select M X)
            (repeat true (DF.nrows (DF.select M X)))
  = repeat true (DF.nrows (DF.select M X)).
Proof.
  intros Ht Hrect M.
  set (bs := outlier_bounds_ self) in *. set (X1 := DF.select M X).
  assert (Hrect1 : rectangular X1 = true)
    by (apply rectangular_select; exact Hrect).
  assert (H1 := fun i => kept_fold_rows bs X1 (repeat true (DF.nrows X1)) i
                           (rectangular_floats X1 Hrect1)).
  assert (H0 := fun i => kept_fold_rows bs X (repeat true (DF.nrows X)) i
                           (rectangular_floats X Hrect)).
  assert (Hlen : List.length (kept_fold bs X1 (repeat true (DF.nrows X1)))
                 = DF.nrows X1)
    by (rewrite (proj1 (H1 0%nat)); apply repeat_length).
  rewrite <- Hlen at 2. apply all_true. intros i Hi.
  apply (proj2 (H1 i)). split.
  - apply nth_error_repeat. now rewrite <- Hlen.
  - intros col b xs' x Hin Hg Hx. unfold X1 in Hg. rewrite get_select in Hg.
    destruct (DF.get X col) as [[xs|xs|xs]|] eqn:Hg0; try discriminate.
    cbn [option_map DF.series_keep] in Hg. injection Hg as <-.
    destruct (nth_error_keep_inv M xs i x Hx) as (j & Hj & Hxj).
    apply (proj2 (H0 j)) in Hj. destruct Hj as [_ Hj].
    exact (Hj col b xs x Hin Hg0 Hxj).
Qed.

End RemoveFacts.

Module OutlierRemoval.
Import OutlierDetector.

(** X17.  Under the remove action, on a table whose columns all have the
    same length, [_transform_impl] is one row filter: it returns the rows
    of the input, whole and in order, in which no column with fitted bounds
    holds a number below its lower or above its upper bound.  Rows with a
    null in such a column are kept. *)
Theorem removal_is_row_filter (self : OutlierDetector) (X : DataFrame) :
  float_typed X = true ->
  rectangular X = true ->
  bounds_wf (outlier_bounds_ self) ->
  outlier_action (config (od_base self)) = ActRemove ->
  exists mask,
    _transform_impl self X = Ok (DF.select mask X)
    /\ List.length mask = DF.nrows X
    /\ forall i,
        nth_error mask i = Some true
        <-> (i < DF.nrows X)%nat
            /\ forall col b xs x,
                In (col, b) (outlier_bounds_ self) ->
                DF.get X col = Some (Floats xs) ->
                nth_error xs i = Some x ->
                Cell.lt x (fst b) || Cell.gt x (snd b) = false.
Proof.
  intros Ht Hrect Hwf Hact.
  exists (kept_fold (outlier_bounds_ self) X (repeat true (DF.nrows X))).
  split; [exact (remove_run self X Ht Hrect Hwf Hact)|].
  assert (H := fun i => kept_fold_rows (outlier_bounds_ self) X
                          (repeat true (DF.nrows X)) i
                          (rectangular_floats X Hrect)).
  split.
  - rewrite (proj1 (H 0%nat)). apply repeat_length.
  - intros i. rewrite (proj2 (H i)).
    assert (Hi : nth_error (repeat true (DF.nrows X)) i = Some true
                 <-> (i < DF.nrows X)%nat).
    { split.
      - intros E.
        assert (Hs : nth_error (repeat true (DF.nrows X)) i <> None)
          by congruence.
        apply nth_error_Some in Hs. now rewrite repeat_length in Hs.
      - intros Hlt. apply nth_error_repeat. exact Hlt. }
    rewrite Hi. reflexivity.
Qed.

Definition removing_config : CleaningConfig :=
  {| max_minutes_per_game := 60;
     max_reasonable_points := 100;
     max_reasonable_rebounds := 30;
     max_reasonable_assists := 25;
     fill_counting_stats_with_zero := true;
     drop_threshold_missing_pct := 95;
     outlier_method := Iqr;
     outlier_threshold := 3;
     outlier_action := ActRemove;
     standardize_positions := true;
     create_full_names := true;
     strict_validation := true;
     auto_fix_inconsistencies := true;
     default_first_game_rest := 7 |}.

Definition removing_detector : OutlierDetector :=
  snd (fit sqrt_unused table_B (init removing_config true)).

(** Points with a far-out value and a null, beside a text column. *)
Definition table_D : DataFrame :=
  [("player_name"%string, Objects [Some "A"; Some "B"; Some "C"]%string);
   ("pts"%string, Floats [Some 12; Some 90; None])].

Lemma removal_is_row_filter_witness :
  exists mask,
    _transform_impl removing_detector table_D = Ok (DF.select mask table_D)
    /\ List.length mask = 3%nat
    /\ nth_error mask 0 = Some true.
Proof.
  destruct (removal_is_row_filter removing_detector table_D)
    as (mask & E & Hlen & Hrows).
  - reflexivity.
  - reflexivity.
  - apply (fit_bounds_wf sqrt_unused table_B (init removing_config true));
      [reflexivity | reflexivity | apply init_bounds_wf | reflexivity].
  - reflexivity.
  - exists mask. split; [exact E|]. split; [exact Hlen|].
    apply Hrows. split; [simpl; lia|].
    intros col b xs x Hin Hg Hx. vm_compute in Hin.
    destruct Hin as [[= <- <-]|[]].
    vm_compute in Hg. injection Hg as <-.
    vm_compute in Hx. injection Hx as <-. reflexivity.
Defined.

(** X18.  Under the remove action too a second run changes nothing: on a
    table whose columns all have the same length, what [_transform_impl]
    returns is returned unchanged when it is given back. *)
Theorem removal_idempotent (self : OutlierDetector) (X X1 : DataFrame) :
  float_typed X = true ->
  rectangular X = true ->
  bounds_wf (outlier_bounds_ self) ->
  outlier_action (config (od_base self)) = ActRemove ->
  _transform_impl self X = Ok X1 ->
  _transform_impl self X1 = Ok X1.
Proof.
  intros Ht Hrect Hwf Hact E.
  rewrite (remove_run self X Ht Hrect Hwf Hact) in E. injection E as <-.
  rewrite remove_run;
    [| now apply float_typed_select | now apply rectangular_select
     | exact Hwf | exact Hact].
  rewrite (remove_settled self X Ht Hrect).
  now rewrite select_all by (now apply rectangular_select).
Qed.

Lemma removal_idempotent_witness :
  _transform_impl removing_detector table_D
  = Ok [("player_name"%string, Objects [Some "A"; Some "C"]%string);
        ("pts"%string, Floats [Some 12; None])]
  /\ _transform_impl removing_detector
       [("player_name"%string, Objects [Some "A"; Some "C"]%string);
        ("pts"%string, Floats [Some 12; None])]
     = Ok [("player_name"%string, Objects [Some "A"; Some "C"]%string);
           ("pts"%string, Floats [Some 12; None])].
Proof.
  assert (E : _transform_impl removing_detector table_D
              = Ok [("player_name"%string,
                     Objects [Some "A"; Some "C"]%string);
                    ("pts"%string, Floats [Some 12; None])])
    by reflexivity.
  split; [exact E|].
  apply (removal_idempotent removing_detector table_D).
  - reflexivity.
  - reflexivity.
  - apply (fit_bounds_wf sqrt_unused table_B (init removing_config true));
      [reflexivity | reflexivity | apply init_bounds_wf | reflexivity].
  - reflexivity.
  - exact E.
Defined.

End OutlierRemoval.

(** ** OutlierDetector: the bounds that [fit] stores *)

Section QuantileFacts.

(** Every element is at most the ones after it. *)
Fixpoint ascending (l : list Q) : Prop :=
  match l with
  | [] => True
  | x :: l' => (forall y, In y l' -> x <= y) /\ ascending l'
  end.

Lemma insert_in (x y : Q) (l : list Q) :
  In y (Stats.insert x l) <-> y = x \/ In y l.
Proof.
  induction l as [|z l IH]; simpl; [intuition congruence|].
  destruct (Qle_bool x z); simpl; [intuition congruence|].
  rewrite IH. intuition congruence.
Qed.

Lemma insert_ascending (x : Q) (l : list Q) :
  ascending l -> ascending (Stats.insert x l).
Proof.
  induction l as [|z l IH]; simpl; [now split|].
  intros [Hz Hl]. destruct (Qle_bool x z) eqn:E.
  - apply Qle_bool_iff in E. simpl. split; [|now split].
    intros y [<-|Hy]; [exact E|].
    exact (Qle_trans _ _ _ E (Hz y Hy)).
  - assert (Hzx : z <= x).
    { apply Qlt_le_weak. apply Qnot_le_lt. intros H.
      apply Qle_bool_iff in H. congruence. }
    simpl. split; [|exact (IH Hl)].
    intros y Hy. apply insert_in in Hy as [->|Hy]; [exact Hzx | exact (Hz y Hy)].
Qed.

Lemma sort_ascending (l : list Q) : ascending (Stats.sort l).
Proof.
  unfold Stats.sort. induction l as [|x l IH]; simpl; [exact I|].
  now apply insert_ascending.
Qed.

Lemma insert_length (x : Q) (l : list Q) :
  List.length (Stats.insert x l) = S (List.length l).
Proof.
  induction l as [|z l IH]; simpl; [reflexivity|].
  destruct (Qle_bool x z); simpl; [reflexivity | now rewrite IH].
Qed.

Lemma sort_length (l : list Q) : List.length (Stats.sort l) = List.length l.
Proof.
  unfold Stats.sort. induction l as [|x l IH]; simpl; [reflexivity|].
  now rewrite insert_length, IH.
Qed.

Lemma ascending_nth (l : list Q) (i j : nat) :
  ascending l -> (i <= j < List.length l)%nat -> nth i l 0 <= nth j l 0.
Proof.
  revert i j. induction l as [|x l IH]; intros i j Hl [Hij Hj];
    simpl in Hj; [lia|].
  destruct Hl as [Hx Hl]. destruct i as [|i], j as [|j]; simpl.
  - apply Qle_refl.
  - apply Hx. apply nth_In. lia.
  - lia.
  - apply IH; [exact Hl | lia].
Qed.

(** Linear interpolation between two ordered values. *)
Lemma interpolation_order (a1 b1 a3 b3 g1 g3 : Q) :
  a1 <= b1 -> a3 <= b3 -> 0 <= g1 <= 1 -> 0 <= g3 <= 1 ->
  (b1 <= a3 \/ (a1 = a3 /\ b1 = b3 /\ g1 <= g3)) ->
  a1 + (b1 - a1) * g1 <= a3 + (b3 - a3) * g3.
Proof.
  intros Hab1 Hab3 [Hg1 Hg1'] [Hg3 Hg3'] [H|(-> & -> & H)]; nra.
Qed.

Lemma fraction_range (r : nat) :
  (r < 4)%nat -> 0 <= inject_Z (Z.of_nat r) / 4 <= 1.
Proof.
  intros Hr.
  assert (H0 : inject_Z 0 <= inject_Z (Z.of_nat r))
    by (rewrite <- Zle_Qle; lia).
  assert (H4 : inject_Z (Z.of_nat r) <= inject_Z 4)
    by (rewrite <- Zle_Qle; lia).
  change (inject_Z 0) with 0 in H0. change (inject_Z 4) with 4 in H4.
  revert H0 H4. generalize (inject_Z (Z.of_nat r)). intros z H0 H4.
  unfold Qdiv. change (/ 4) with (1 # 4). split; lra.
Qed.

Lemma fraction_le (r r' : nat) :
  (r <= r')%nat ->
  inject_Z (Z.of_nat r) / 4 <= inject_Z (Z.of_nat r') / 4.
Proof.
  intros Hr.
  assert (H : inject_Z (Z.of_nat r) <= inject_Z (Z.of_nat r'))
    by (rewrite <- Zle_Qle; lia).
  revert H. generalize (inject_Z (Z.of_nat r)), (inject_Z (Z.of_nat r')).
  intros z z' H. unfold Qdiv. change (/ 4) with (1 # 4). lra.
Qed.

(** The first quartile is at most the third. *)
Lemma quartiles_ordered (xs : list Q) :
  xs <> [] ->
  exists q1 q3, Stats.quantile 1 xs = Some q1
                /\ Stats.quantile 3 xs = Some q3 /\ q1 <= q3.
Proof.
  intros Hne. unfold Stats.quantile.
  assert (Hs := sort_ascending xs). assert (Hl := sort_length xs).
  set (s := Stats.sort xs) in *.
  destruct (List.length s) as [|m] eqn:Hm.
  { destruct xs; [contradiction | simpl in Hl; lia]. }
  eexists. eexists. split; [reflexivity|]. split; [reflexivity|].
  rewrite Nat.mul_1_l.
  assert (Hd1 := Nat.div_mod_eq m 4). assert (Hd3 := Nat.div_mod_eq (3 * m) 4).
  assert (Hr1 : (m mod 4 < 4)%nat) by (apply Nat.mod_upper_bound; lia).
  assert (Hr3 : ((3 * m) mod 4 < 4)%nat) by (apply Nat.mod_upper_bound; lia).
  set (i1 := (m / 4)%nat) in *. set (r1 := (m mod 4)%nat) in *.
  set (i3 := (3 * m / 4)%nat) in *. set (r3 := ((3 * m) mod 4)%nat) in *.
  apply interpolation_order.
  - apply ascending_nth; [exact Hs | lia].
  - apply ascending_nth; [exact Hs | lia].
  - now apply fraction_range.
  - now apply fraction_range.
  - destruct (Nat.eq_dec i1 i3) as [Heq|Hneq].
    + right. rewrite Heq. split; [reflexivity|]. split; [reflexivity|].
      apply fraction_le. lia.
    + left. apply ascending_nth; [exact Hs | lia].
Qed.

End QuantileFacts.

Section FittedBoundsFacts.
Import OutlierDetector.
Variable sqrt : Q -> Q.

(** Whether a series has the values its bounds need: one for the
    quartiles, two for the standard deviation. *)
Definition enough_values (cfg : CleaningConfig) (series : list Q) : bool :=
  match outlier_method cfg with
  | Iqr => Nat.leb 1 (List.length series)
  | Zscore => Nat.leb 2 (List.length series)
  end.

Lemma few_values_nan (cfg : CleaningConfig) (series : list Q) :
  enough_values cfg series = false ->
  _calculate_outlier_bounds sqrt cfg series = (None, None).
Proof.
  unfold enough_values, _calculate_outlier_bounds.
  destruct (outlier_method cfg).
  - destruct series as [|x series]; [reflexivity | discriminate].
  - destruct series as [|x [|y series]]; [reflexivity | reflexivity |
                                           discriminate].
Qed.

End FittedBoundsFacts.

Module FittedBounds.
Import OutlierDetector.

(** X19.  With a threshold that is not negative (and a square root that
    is not negative), the bounds computed from a series with enough values,
    one for the interquartile method and two for the z-score, are two
    numbers with the lower at most the upper. *)
Theorem bounds_ordered (sqrt : Q -> Q) (cfg : CleaningConfig)
        (series : list Q) :
  0 <= outlier_threshold cfg ->
  (outlier_method cfg = Zscore -> forall q, 0 <= sqrt q) ->
  enough_values cfg series = true ->
  exists lo hi,
    _calculate_outlier_bounds sqrt cfg series = (Some lo, Some hi)
    /\ lo <= hi.
Proof.
  intros Hk Hsqrt. unfold enough_values, _calculate_outlier_bounds.
  destruct (outlier_method cfg).
  - clear Hsqrt. intros Hn.
    assert (Hne : series <> []) by (destruct series; [discriminate|congruence]).
    destruct (quartiles_ordered series Hne) as (q1 & q3 & -> & -> & Hq).
    cbn [Cell.sub Cell.add Cell.mul Cell.lift2].
    eexists. eexists. split; [reflexivity|].
    set (k := outlier_threshold cfg) in *. nra.
  - intros Hn. destruct series as [|x [|y series]]; try discriminate.
    unfold Stats.mean, Stats.std.
    cbn [Cell.sub Cell.add Cell.mul Cell.lift2].
    eexists. eexists. split; [reflexivity|].
    set (k := outlier_threshold cfg) in *.
    match goal with |- context [sqrt ?q] =>
      assert (Hs := Hsqrt eq_refl q); set (sd := sqrt q) in * end.
    nra.
Qed.

Lemma bounds_ordered_witness :
  exists lo hi,
    _calculate_outlier_bounds sqrt_unused default_config [1; 2; 3; 100]
    = (Some lo, Some hi)
    /\ lo <= hi.
Proof.
  apply (bounds_ordered sqrt_unused default_config [1; 2; 3; 100]).
  - now compute.
  - discriminate.
  - reflexivity.
Defined.

(** A table with one game, and one with no value at all, in [pts]. *)
Definition one_game : DataFrame :=
  [("pts"%string, Floats [Some 20; None]); ("ast"%string, Floats [None; None])].

Definition zscore_config : CleaningConfig :=
  {| max_minutes_per_game := 60;
     max_reasonable_points := 100;
     max_reasonable_rebounds := 30;
     max_reasonable_assists := 25;
     fill_counting_stats_with_zero := true;
     drop_threshold_missing_pct := 95;
     outlier_method := Zscore;
     outlier_threshold := 3;
     outlier_action := ActFlag;
     standardize_positions := true;
     create_full_names := true;
     strict_validation := true;
     auto_fix_inconsistencies := true;
     default_first_game_rest := 7 |}.

(** X20.  A column with too few values when [fit] runs (no value for the
    interquartile method, fewer than two for the z-score) gets NaN bounds,
    and [transform] with the fitted detector then finds no outlier in that
    column of any table: under cap the column comes back as it was, under
    flag every flag is false. *)
Theorem too_few_values_never_flag
        (sqrt : Q -> Q) (cfg : CleaningConfig) (verb : bool)
        (A B : DataFrame) (col : string) (xs ys : list cell) :
  float_typed A = true -> float_typed B = true ->
  In col outlier_columns ->
  DF.get A col = Some (Floats xs) ->
  enough_values cfg (Stats.dropna xs) = false ->
  DF.get B col = Some (Floats ys) ->
  outlier_action cfg <> ActRemove ->
  exists fitted B1,
    fit sqrt A (init cfg verb) = (Ok tt, fitted)
    /\ dict_get (outlier_bounds_ fitted) col = Some (None, None)
    /\ transform B fitted = (Ok B1, fitted)
    /\ DF.get B1 col = Some (Floats ys)
    /\ (outlier_action cfg = ActFlag ->
        DF.get B1 (col ++ "_outlier_flag")
        = Some (Bools (map (fun _ => false) ys))).
Proof.
  intros HtA HtB Hcol HgA Hfew HgB Hact.
  pose proof (outlier_fit_run sqrt A (init cfg verb) HtA eq_refl) as Hfit.
  change (fold_left (fit_entry sqrt (config (od_base (init cfg verb))) A)
                    outlier_columns (outlier_bounds_ (init cfg verb)))
    with (fold_left (fit_entry sqrt cfg A) outlier_columns []) in Hfit.
  rewrite fit_entries_fresh in Hfit;
    [| apply outlier_columns_nodup | intros c _ []].
  cbn [app] in Hfit.
  match type of Hfit with _ = (_, ?s) => set (fitted := s) in * end.
  assert (Hwf : bounds_wf (outlier_bounds_ fitted)).
  { apply (fit_bounds_wf sqrt A (init cfg verb) fitted HtA eq_refl);
      [apply init_bounds_wf | exact Hfit]. }
  assert (Hin : In (col, (None, None)) (outlier_bounds_ fitted)).
  { unfold fitted. cbn [outlier_bounds_]. apply in_flat_map.
    exists col. split; [exact Hcol|]. rewrite HgA.
    rewrite (few_values_nan sqrt cfg _ Hfew). now left. }
  destruct (transform_impl_run fitted B Hwf HtB) as (B1 & E & _).
  exists fitted, B1. split; [exact Hfit|]. split.
  { assert (Hd := fit_entries_get sqrt cfg A outlier_columns [] col).
    rewrite HgA in Hd. apply existsb_eqb_in in Hcol. rewrite Hcol in Hd.
    rewrite (few_values_nan sqrt cfg _ Hfew) in Hd.
    rewrite fit_entries_fresh in Hd;
      [exact Hd | apply outlier_columns_nodup | intros c _ []]. }
  split.
  { unfold transform. rewrite transform_cases. unfold fitted at 1 2.
    cbn [od_base is_fitted_ required_columns_ negb]. now rewrite E. }
  unfold _transform_impl in E.
  change (outlier_action (config (od_base fitted)))
    with (outlier_action cfg) in E.
  destruct (outlier_action cfg) eqn:Ea; [| |contradiction].
  - rewrite (foldM_ext _ _ _ _ handle_flag) in E. split.
    + rewrite (column_steps_frame flag_column flag_series _ _ _ col E);
        [exact HgB|].
      intros k Hk.
      now destruct (flag_column_fresh k col (proj2 Hwf k Hk) Hcol).
    + intros _.
      change (DF.get B1 (flag_column col)
              = Some (Bools (map (fun _ => false) ys))).
      rewrite (column_steps_effect flag_column flag_series _ B B1 col
                 (None, None) ys
                 (flag_separated _ (proj1 Hwf) (proj2 Hwf)) E Hin HgB).
      unfold flag_series, outliers_mask. do 2 f_equal.
      apply map_ext. now intros [v|].
  - rewrite (foldM_ext _ _ _ _ handle_cap) in E. split; [|discriminate].
    rewrite (column_steps_effect (fun k => k) cap_series _ B B1 col
               (None, None) ys (cap_separated _ (proj1 Hwf)) E Hin HgB).
    unfold cap_series. cbn [fst snd]. do 2 f_equal.
    rewrite <- (map_id ys) at 2. apply map_ext. apply clip_no_bounds.
Qed.

Lemma too_few_values_never_flag_witness :
  exists fitted B1,
    fit sqrt_unused one_game (init zscore_config true) = (Ok tt, fitted)
    /\ transform table_B fitted = (Ok B1, fitted)
    /\ DF.get B1 "pts_outlier_flag"
       = Some (Bools [false; false; false; false; false;
                      false; false; false; false; false]).
Proof.
  destruct (too_few_values_never_flag sqrt_unused zscore_config true
              one_game table_B "pts" [Some 20; None]
              [Some 1; Some 2; Some 3; Some 4; Some 5; Some 6; Some 7;
               Some 8; Some 9; Some 50])
    as (fitted & B1 & Hfit & _ & Ht & _ & Hflag).
  - reflexivity.
  - reflexivity.
  - simpl. tauto.
  - reflexivity.
  - reflexivity.
  - reflexivity.
  - discriminate.
  - exists fitted, B1. split; [exact Hfit|]. split; [exact Ht|].
    exact (Hflag eq_refl).
Defined.

End FittedBounds.

(** ** OutlierDetector: fitting again *)

Module OutlierRefit.
Import OutlierDetector.

(** Points and assists, and a later table without assists. *)
Definition first_table : DataFrame :=
  [("pts"%string, floats_of [1; 2; 3; 100]%Z);
   ("ast"%string, floats_of [4; 5; 6; 7]%Z)].

(** X21.  [fit] never clears the stored bounds.  When a fitted detector
    is fitted again on a table that lacks a column, the bounds of that
    column from the earlier fit stay in the dictionary, although the
    recorded input columns are those of the new table. *)
Theorem stale_bounds_survive_refit
        (sqrt : Q -> Q) (cfg : CleaningConfig) (verb : bool)
        (A A' : DataFrame) (col : string) (xs : list cell) :
  float_typed A = true -> float_typed A' = true ->
  In col outlier_columns ->
  DF.get A col = Some (Floats xs) ->
  DF.has A' col = false ->
  exists fitted refitted,
    fit sqrt A (init cfg verb) = (Ok tt, fitted)
    /\ fit sqrt A' fitted = (Ok tt, refitted)
    /\ feature_names_in_ (od_base refitted) = Some (DF.columns A')
    /\ dict_get (outlier_bounds_ refitted) col
       = Some (_calculate_outlier_bounds sqrt cfg (Stats.dropna xs)).
Proof.
  intros HtA HtA' Hcol HgA Hh.
  pose proof (outlier_fit_run sqrt A (init cfg verb) HtA eq_refl) as Hfit.
  match type of Hfit with _ = (_, ?s) => set (fitted := s) in * end.
  pose proof (outlier_fit_run sqrt A' fitted HtA' eq_refl) as Hfit'.
  match type of Hfit' with _ = (_, ?s) => set (refitted := s) in * end.
  exists fitted, refitted.
  split; [exact Hfit|]. split; [exact Hfit'|]. split; [reflexivity|].
  unfold refitted, fitted. cbn [outlier_bounds_ od_base config].
  rewrite !fit_entries_get.
  unfold DF.has in Hh. destruct (DF.get A' col); [discriminate|].
  rewrite HgA. apply existsb_eqb_in in Hcol. now rewrite Hcol.
Qed.

Lemma stale_bounds_survive_refit_witness :
  exists fitted refitted,
    fit sqrt_unused first_table (init default_config true) = (Ok tt, fitted)
    /\ fit sqrt_unused table_A fitted = (Ok tt, refitted)
    /\ feature_names_in_ (od_base refitted) = Some ["pts"%string]
    /\ dict_get (outlier_bounds_ refitted) "ast"
       = Some (_calculate_outlier_bounds sqrt_unused default_config
                 [4; 5; 6; 7]).
Proof.
  exact (stale_bounds_survive_refit sqrt_unused default_config true
           first_table table_A "ast"
           [Some 4; Some 5; Some 6; Some 7]
           eq_refl eq_refl
           (or_intror (or_intror (or_introl eq_refl)))
           eq_refl eq_refl).
Defined.

End OutlierRefit.

(** ** OutlierDetector: the bounds of [fit] at [transform] *)

Section FittedBoundsUse.
Import OutlierDetector.
Variable sqrt : Q -> Q.

(** The entries of the bounds that a table determines. *)
Lemma bounds_from_in (cfg : CleaningConfig) (A : DataFrame)
      (col : string) (b : Bounds) :
  In (col, b) (bounds_from sqrt cfg A) <->
  In col outlier_columns
  /\ exists xs, DF.get A col = Some (Floats xs)
                /\ b = _calculate_outlier_bounds sqrt cfg (Stats.dropna xs).
Proof.
  unfold bounds_from. rewrite in_flat_map. split.
  - intros (c & Hc & Hin).
    destruct (DF.get A c) as [[xs|xs|xs]|] eqn:E; try contradiction.
    destruct Hin as [[= -> <-]|[]]. split; [exact Hc | now exists xs].
  - intros (Hc & xs & E & ->). exists col. split; [exact Hc|].
    rewrite E. now left.
Qed.

Lemma bounds_from_keys (cfg : CleaningConfig) (A : DataFrame) (col : string) :
  In col (keys (bounds_from sqrt cfg A)) ->
  exists xs, DF.get A col = Some (Floats xs).
Proof.
  unfold keys. rewrite in_map_iff. intros ([c b] & <- & Hin).
  apply bounds_from_in in Hin as (_ & xs & E & _). now exists xs.
Qed.

(** [fit] on a new detector. *)
Lemma fit_new (cfg : CleaningConfig) (verb : bool) (A : DataFrame) :
  float_typed A = true ->
  exists fitted,
    fit sqrt A (init cfg verb) = (Ok tt, fitted)
    /\ outlier_bounds_ fitted = bounds_from sqrt cfg A
    /\ config (od_base fitted) = cfg
    /\ is_fitted_ (od_base fitted) = true
    /\ required_columns_ (od_base fitted) = None
    /\ bounds_wf (outlier_bounds_ fitted).
Proof.
  intros Ht.
  assert (Hb : fold_left (fit_entry sqrt cfg A) outlier_columns []
               = bounds_from sqrt cfg A).
  { rewrite fit_entries_fresh;
      [reflexivity | apply outlier_columns_nodup | intros c _ []]. }
  pose proof (outlier_fit_run sqrt A (init cfg verb) Ht eq_refl) as Hfit.
  change (fold_left (fit_entry sqrt (config (od_base (init cfg verb))) A)
                    outlier_columns (outlier_bounds_ (init cfg verb)))
    with (fold_left (fit_entry sqrt cfg A) outlier_columns []) in Hfit.
  rewrite Hb in Hfit.
  eexists. split; [exact Hfit|]. repeat split; try reflexivity;
    apply (fit_bounds_wf sqrt A (init cfg verb) _ Ht eq_refl
             (init_bounds_wf cfg verb) Hfit).
Qed.

(** [transform] on a fitted detector without required columns runs
    [_transform_impl]. *)
Lemma transform_runs_impl (self : OutlierDetector) (X : DataFrame) :
  is_fitted_ (od_base self) = true ->
  required_columns_ (od_base self) = None ->
  transform X self = (_transform_impl self X, self).
Proof.
  intros Hf Hr. unfold transform. rewrite transform_cases.
  now rewrite Hf, Hr.
Qed.

End FittedBoundsUse.

Module OutlierFitTransform.
Import OutlierDetector.

(** Points and assists, fitted first; then a table with points only, and
    a table to transform that has assists again. *)
Definition earlier_table : DataFrame :=
  [("pts"%string, floats_of [1; 2; 3; 100]%Z);
   ("ast"%string, floats_of [4; 5; 6; 7]%Z)].

Definition assists_table : DataFrame :=
  [("pts"%string, floats_of [1; 2; 3; 4]%Z);
   ("ast"%string, floats_of [5; 6; 40; 7]%Z)].

(** A detector fitted on the earlier table, and then on [table_A]. *)
Definition fitted_earlier : OutlierDetector :=
  snd (fit sqrt_unused earlier_table (init default_config true)).

Definition refitted : OutlierDetector :=
  snd (fit sqrt_unused table_A fitted_earlier).

(** C1, as stated, fails on a detector that is fitted again.  After
    [fit(earlier_table)], [fit(table_A)] succeeds on a table without assists
    and leaves the bounds of the assists of the earlier table in
    [outlier_bounds_]: the stored bounds are not those computed from
    [table_A] only, and [transform] flags the assists of another table with
    them. *)
Lemma refit_keeps_bounds_of_absent_column :
  fst (fit sqrt_unused table_A fitted_earlier) = Ok tt
  /\ DF.has table_A "ast" = false
  /\ dict_get (outlier_bounds_ refitted) "ast"
     = Some (_calculate_outlier_bounds sqrt_unused default_config
               [4; 5; 6; 7])
  /\ outlier_bounds_ refitted
     <> bounds_from sqrt_unused default_config table_A
  /\ fst (transform assists_table refitted)
     = Ok [("pts"%string, floats_of [1; 2; 3; 4]%Z);
           ("ast"%string, floats_of [5; 6; 40; 7]%Z);
           ("pts_outlier_flag"%string, Bools [false; false; false; false]);
           ("ast_outlier_flag"%string, Bools [false; false; true; false])].
Proof.
  split; [reflexivity|]. split; [reflexivity|].
  split; [reflexivity|]. split; [|reflexivity].
  intros H.
  apply (f_equal (fun d => dict_get d "ast"%string)) in H.
  vm_compute in H. discriminate.
Qed.

(** C1, amended.  A newly constructed detector fitted on a table [A] of
    float columns stores exactly the bounds that [A] determines.
    [transform] on a table [B] of float columns then returns a table and
    leaves the detector as it was, so a second [transform] gives the same
    table.  The outliers of [B] are handled with the bounds of [A]: under
    cap a column that has bounds comes back clipped to them, under flag it
    gets the flags of its values against them and is itself kept, under
    remove the rows kept are those in which no column with bounds holds a
    number outside them; an outlier column that is no float column of [A]
    has no bounds and comes back as it was under cap and flag.  [transform]
    writes no attribute of any detector.  A later [fit] gives the columns
    that its table has the bounds of that table and keeps the stored bounds
    of the others. *)
Theorem bounds_fitted_on_A_used_on_B
        (sqrt : Q -> Q) (cfg : CleaningConfig) (verb : bool)
        (A B : DataFrame) :
  float_typed A = true -> float_typed B = true ->
  exists fitted B1,
    fit sqrt A (init cfg verb) = (Ok tt, fitted)
    /\ outlier_bounds_ fitted = bounds_from sqrt cfg A
    /\ transform B fitted = (Ok B1, fitted)
    /\ transform B (snd (transform B fitted)) = (Ok B1, fitted)
    /\ (outlier_action cfg = ActCap ->
        forall col xs ys,
          In col outlier_columns ->
          DF.get A col = Some (Floats xs) ->
          DF.get B col = Some (Floats ys) ->
          DF.get B1 col
          = Some (Floats
                    (map (Cell.clip
                            (fst (_calculate_outlier_bounds
                                    sqrt cfg (Stats.dropna xs)))
                            (snd (_calculate_outlier_bounds
                                    sqrt cfg (Stats.dropna xs))))
                         ys)))
    /\ (outlier_action cfg = ActFlag ->
        forall col xs ys,
          In col outlier_columns ->
          DF.get A col = Some (Floats xs) ->
          DF.get B col = Some (Floats ys) ->
          DF.get B1 (col ++ "_outlier_flag")
          = Some (Bools
                    (map (fun y =>
                            Cell.lt y (fst (_calculate_outlier_bounds
                                              sqrt cfg (Stats.dropna xs)))
                            || Cell.gt y (snd (_calculate_outlier_bounds
                                                 sqrt cfg (Stats.dropna xs))))
                         ys))
          /\ DF.get B1 col = Some (Floats ys))
    /\ (outlier_action cfg = ActRemove -> rectangular B = true ->
        exists mask,
          B1 = DF.select mask B
          /\ List.length mask = DF.nrows B
          /\ forall i,
              nth_error mask i = Some true
              <-> (i < DF.nrows B)%nat
                  /\ forall col xs ys y,
                      In col outlier_columns ->
                      DF.get A col = Some (Floats xs) ->
                      DF.get B col = Some (Floats ys) ->
                      nth_error ys i = Some y ->
                      Cell.lt y (fst (_calculate_outlier_bounds
                                        sqrt cfg (Stats.dropna xs)))
                      || Cell.gt y (snd (_calculate_outlier_bounds
                                           sqrt cfg (Stats.dropna xs)))
                      = false)
    /\ (outlier_action cfg <> ActRemove ->
        forall col,
          In col outlier_columns ->
          (forall xs, DF.get A col <> Some (Floats xs)) ->
          DF.get B1 col = DF.get B col)
    /\ (forall (self : OutlierDetector) (Y : DataFrame),
           snd (transform Y self) = self)
    /\ (forall (A' : DataFrame) (col : string),
           float_typed A' = true -> In col outlier_columns ->
           dict_get (outlier_bounds_ (snd (fit sqrt A' fitted))) col
           = match DF.get A' col with
             | Some (Floats xs') =>
                 Some (_calculate_outlier_bounds sqrt cfg (Stats.dropna xs'))
             | _ => dict_get (outlier_bounds_ fitted) col
             end).
Proof.
  intros HtA HtB.
  destruct (fit_new sqrt cfg verb A HtA)
    as (fitted & Hfit & Hb & Hcfg & Hf & Hr & Hwf).
  destruct (transform_impl_run fitted B Hwf HtB) as (B1 & E & _).
  assert (Htr : transform B fitted = (Ok B1, fitted))
    by (now rewrite (transform_runs_impl fitted B Hf Hr), E).
  assert (Hentry : forall col xs,
             In col outlier_columns -> DF.get A col = Some (Floats xs) ->
             In (col, _calculate_outlier_bounds sqrt cfg (Stats.dropna xs))
                (outlier_bounds_ fitted)).
  { intros col xs Hc Hg. rewrite Hb. apply bounds_from_in.
    split; [exact Hc | now exists xs]. }
  exists fitted, B1.
  split; [exact Hfit|]. split; [exact Hb|]. split; [exact Htr|].
  split; [now rewrite Htr|].
  unfold _transform_impl in E. rewrite Hcfg in E.
  split; [|split; [|split; [|split; [|split]]]].
  - intros Hact col xs ys Hc HgA HgB. rewrite Hact in E.
    rewrite (foldM_ext _ _ _ _ handle_cap) in E.
    exact (column_steps_effect (fun k => k) cap_series _ B B1 col _ ys
             (cap_separated _ (proj1 Hwf)) E (Hentry col xs Hc HgA) HgB).
  - intros Hact col xs ys Hc HgA HgB. split.
    + rewrite Hact in E. rewrite (foldM_ext _ _ _ _ handle_flag) in E.
      exact (column_steps_effect flag_column flag_series _ B B1 col _ ys
               (flag_separated _ (proj1 Hwf) (proj2 Hwf)) E
               (Hentry col xs Hc HgA) HgB).
    + rewrite <- HgB.
      apply (transform_impl_flag_frame fitted B B1 col Hwf);
        [now rewrite Hcfg | | exact Hc].
      unfold _transform_impl. now rewrite Hcfg.
  - intros Hact Hrect.
    assert (Hact' : outlier_action (config (od_base fitted)) = ActRemove)
      by now rewrite Hcfg.
    assert (Hrun := remove_run fitted B HtB Hrect Hwf Hact').
    unfold _transform_impl in Hrun. rewrite Hcfg, E in Hrun.
    injection Hrun as ->.
    exists (kept_fold (outlier_bounds_ fitted) B (repeat true (DF.nrows B))).
    split; [reflexivity|].
    assert (H := fun i => kept_fold_rows (outlier_bounds_ fitted) B
                            (repeat true (DF.nrows B)) i
                            (rectangular_floats B Hrect)).
    split; [rewrite (proj1 (H 0%nat)); apply repeat_length|].
    intros i. rewrite (proj2 (H i)).
    assert (Hi : nth_error (repeat true (DF.nrows B)) i = Some true
                 <-> (i < DF.nrows B)%nat).
    { split.
      - intros Hn.
        assert (Hs : nth_error (repeat true (DF.nrows B)) i <> None)
          by congruence.
        apply nth_error_Some in Hs. now rewrite repeat_length in Hs.
      - intros Hlt. now apply nth_error_repeat. }
    rewrite Hi. split; intros [Hlt Hrows]; (split; [exact Hlt|]).
    + intros col xs ys y Hc HgA HgB Hy.
      exact (Hrows col _ ys y (Hentry col xs Hc HgA) HgB Hy).
    + intros col b ys y Hin HgB Hy. rewrite Hb in Hin.
      apply bounds_from_in in Hin as (Hc & xs & HgA & ->).
      exact (Hrows col xs ys y Hc HgA HgB Hy).
  - intros Hact col Hc Habsent.
    destruct (outlier_action cfg) eqn:Ea; [| |congruence].
    + apply (transform_impl_flag_frame fitted B B1 col Hwf);
        [now rewrite Hcfg | | exact Hc].
      unfold _transform_impl. now rewrite Hcfg, Ea.
    + rewrite (foldM_ext _ _ _ _ handle_cap) in E.
      apply (column_steps_frame (fun k => k) cap_series _ B B1 col E).
      intros k Hk ->. rewrite Hb in Hk.
      destruct (bounds_from_keys sqrt cfg A col Hk) as [xs Hg].
      exact (Habsent xs Hg).
  - intros self Y. apply transform_frame.
  - intros A' col HtA' Hc.
    rewrite (OutlierDetectorSpec.refit_law sqrt A' fitted col HtA' Hr Hc).
    now rewrite Hcfg.
Qed.

Lemma bounds_fitted_on_A_used_on_B_witness :
  exists fitted B1,
    fit sqrt_unused table_A (init default_config true) = (Ok tt, fitted)
    /\ transform table_B fitted = (Ok B1, fitted)
    /\ DF.get B1 "pts_outlier_flag"
       = Some (Bools [false; false; false; false; false;
                      false; false; false; false; false])
    /\ foldM (handle_column ActFlag)
             (bounds_from sqrt_unused default_config table_B) table_B =
       Ok [("pts"%string, floats_of [1; 2; 3; 4; 5; 6; 7; 8; 9; 50]%Z);
           ("pts_outlier_flag"%string,
            Bools [false; false; false; false; false;
                   false; false; false; false; true])].
Proof.
  destruct (bounds_fitted_on_A_used_on_B sqrt_unused default_config true
              table_A table_B eq_refl eq_refl)
    as (fitted & B1 & Hfit & _ & Htr & _ & _ & Hflag & _).
  exists fitted, B1. split; [exact Hfit|]. split; [exact Htr|]. split.
  - destruct (Hflag eq_refl "pts"%string
                [Some 1; Some 2; Some 3; Some 100]
                [Some 1; Some 2; Some 3; Some 4; Some 5; Some 6; Some 7;
                 Some 8; Some 9; Some 50]
                (or_introl eq_refl) eq_refl eq_refl) as [H _].
    exact H.
  - reflexivity.
Defined.

End OutlierFitTransform.

(** ** NBADataCleaner: fit, transform and the report *)

Section PipelineSteps.
Import NBADataCleaner.

Lemma fit_loop_app (pre post : list (string * Transformer)) (X : DataFrame) :
  fit_loop (pre ++ post) X =
  match fit_loop pre X with
  | (Raise e, pre') => (Raise e, pre' ++ post)
  | (Ok X1, pre') =>
      let (r, post') := fit_loop post X1 in (r, pre' ++ post')
  end.
Proof.
  revert X. induction pre as [|[name t] pre IH]; intros X.
  - cbn. now destruct (fit_loop post X).
  - cbn [app fit_loop].
    destruct (call_fit t X) as [[u|e] t1]; [|reflexivity].
    destruct (call_transform t1 X) as [[X'|e] t2]; [|reflexivity].
    rewrite IH. destruct (fit_loop pre X') as [[X1|e] pre']; [|reflexivity].
    now destruct (fit_loop post X1).
Qed.

(** The [transform] of a stage returns the stage as it was. *)
Definition frame_stage (t : Transformer) : Prop :=
  forall X s, snd (t_transform t X s) = s.

Lemma base_stage_frame
      (impl : BaseNBATransformer -> DataFrame -> Res DataFrame)
      (b : BaseNBATransformer) : frame_stage (base_stage impl b).
Proof. intros X s. apply transform_frame. Qed.

Lemma outlier_stage_frame (sqrt : Q -> Q) (o : OutlierDetector) :
  frame_stage (outlier_stage sqrt o).
Proof. intros X s. apply transform_frame. Qed.

Lemma call_transform_frame (t : Transformer) (X : DataFrame) :
  frame_stage t -> snd (call_transform t X) = t.
Proof.
  intros H. unfold call_transform. specialize (H X (t_self t)).
  destruct (t_transform t X (t_self t)) as [r s]. cbn [snd] in *. subst s.
  now destruct t.
Qed.

Lemma call_fit_frame (t : Transformer) (X : DataFrame) :
  frame_stage t -> frame_stage (snd (call_fit t X)).
Proof.
  intros H. unfold call_fit. destruct (t_fit t X (t_self t)) as [r s].
  intros Y s'. exact (H Y s').
Qed.

Definition frame_stages (ts : list (string * Transformer)) : Prop :=
  Forall (fun nt => frame_stage (snd nt)) ts.

Lemma fit_loop_frame (ts : list (string * Transformer)) (X : DataFrame) :
  frame_stages ts -> frame_stages (snd (fit_loop ts X)).
Proof.
  unfold frame_stages. revert X.
  induction ts as [|[name t] ts IH]; intros X H; [constructor|].
  inversion H as [|? ? Ht Hts]; subst. cbn [snd] in Ht. cbn [fit_loop].
  assert (H1 := call_fit_frame t X Ht).
  destruct (call_fit t X) as [[u|e] t1]; cbn [snd] in H1;
    [|now constructor].
  assert (H2 := call_transform_frame t1 X H1).
  destruct (call_transform t1 X) as [[X'|e] t2]; cbn [snd] in H2; subst t2;
    [|now constructor].
  specialize (IH X' Hts). destruct (fit_loop ts X') as [r rest'].
  now constructor.
Qed.

Lemma transform_loop_frame (ts : list (string * Transformer))
      (X : DataFrame) :
  frame_stages ts -> snd (transform_loop ts X) = ts.
Proof.
  unfold frame_stages. revert X.
  induction ts as [|[name t] ts IH]; intros X H; [reflexivity|].
  inversion H as [|? ? Ht Hts]; subst. cbn [snd] in Ht.
  cbn [transform_loop].
  assert (H1 := call_transform_frame t X Ht).
  destruct (call_transform t X) as [r t']. cbn [snd] in H1. subst t'.
  match goal with |- context [transform_loop ts ?Y] =>
    specialize (IH Y Hts); destruct (transform_loop ts Y) as [Xf rest']
  end.
  cbn [snd] in *. now subst rest'.
Qed.

Lemma init_frame (sqrt : Q -> Q)
      (i1 i2 i3 : BaseNBATransformer -> DataFrame -> Res DataFrame)
      (cfg : CleaningConfig) (f1 f2 f3 f4 f5 f6 verb : bool) :
  frame_stages (transformers (init sqrt i1 i2 i3 cfg f1 f2 f3 f4 f5 f6 verb)).
Proof.
  unfold frame_stages, init. cbn [transformers].
  repeat (apply Forall_app; split);
    match goal with
    | |- Forall _ (if ?f then _ else _) =>
        destruct f; constructor; try constructor
    end;
    cbn [snd]; first [apply base_stage_frame | apply outlier_stage_frame].
Qed.

(** What the pipeline's two calls do on the stages of [__init__]. *)
Lemma call_fit_base
      (impl : BaseNBATransformer -> DataFrame -> Res DataFrame)
      (b : BaseNBATransformer) (X : DataFrame) :
  required_columns_ b = None ->
  call_fit (base_stage impl b) X
  = (Ok tt, base_stage impl (BaseMore.fitted_on X b)).
Proof.
  intros Hr. destruct b as [c v f n fitted r]. cbn in Hr. subst r.
  destruct fitted; reflexivity.
Qed.

Lemma call_transform_base
      (impl : BaseNBATransformer -> DataFrame -> Res DataFrame)
      (b : BaseNBATransformer) (X : DataFrame) :
  is_fitted_ b = true -> required_columns_ b = None ->
  call_transform (base_stage impl b) X = (impl b X, base_stage impl b).
Proof.
  intros Hf Hr. destruct b as [c v f n fitted r]. cbn in Hf, Hr. subst.
  reflexivity.
Qed.

Lemma call_fit_outlier (sqrt : Q -> Q) (o : OutlierDetector) (X : DataFrame) :
  call_fit (outlier_stage sqrt o) X
  = (fst (OutlierDetector.fit sqrt X o),
     outlier_stage sqrt (snd (OutlierDetector.fit sqrt X o))).
Proof.
  unfold call_fit. cbn [outlier_stage t_fit t_self t_state].
  now destruct (OutlierDetector.fit sqrt X o).
Qed.

Lemma call_transform_outlier (sqrt : Q -> Q) (o : OutlierDetector)
      (X : DataFrame) :
  is_fitted_ (od_base o) = true -> required_columns_ (od_base o) = None ->
  call_transform (outlier_stage sqrt o) X
  = (OutlierDetector._transform_impl o X, outlier_stage sqrt o).
Proof.
  intros Hf Hr. unfold call_transform.
  cbn [outlier_stage t_transform t_self t_state].
  unfold OutlierDetector.transform. rewrite transform_cases, Hf, Hr.
  reflexivity.
Qed.

(** The two tables of columns share as many names as either way round. *)
Lemma shared_columns (a b : list string) :
  NoDup a -> NoDup b ->
  List.length (filter (fun c => in_list c b) a)
  = List.length (filter (fun c => in_list c a) b).
Proof.
  intros Ha Hb.
  assert (Hin : forall c l, in_list c l = true <-> In c l).
  { intros c l. unfold in_list. rewrite existsb_exists. split.
    - intros (x & Hx & E). apply String.eqb_eq in E. now subst.
    - intros H. exists c. split; [exact H | apply String.eqb_refl]. }
  apply Nat.le_antisymm; apply NoDup_incl_length;
    try (apply NoDup_filter; assumption);
    intros c Hc; apply filter_In in Hc as [H1 H2]; apply filter_In;
    (split; [now apply Hin | now apply Hin]).
Qed.

End PipelineSteps.

Module NBADataCleanerMore.
Import NBADataCleaner.

(** [fit_transform] *)
Definition fit_transform (X : DataFrame) : Meth NBADataCleaner DataFrame :=
  (fit X ;;; transform X)%meth.

(** X22.  [fit] does not catch what [transform] catches.  When the stages
    before a stage fit, and that stage raises in its [fit] or in its
    [transform] on the table that reaches it, the pipeline's [fit] raises
    the same exception, [is_fitted_] stays as it was, the stages before
    are left fitted, and the stages after are not touched. *)
Theorem fit_stops_at_failing_stage
        (self : NBADataCleaner) (X X1 : DataFrame)
        (pre post : list (string * Transformer))
        (name : string) (t : Transformer) (e : exn) :
  transformers self = pre ++ (name, t) :: post ->
  fst (fit_loop pre X) = Ok X1 ->
  fst (fit_loop [(name, t)] X1) = Raise e ->
  fst (fit X self) = Raise e
  /\ nc_is_fitted_ (snd (fit X self)) = nc_is_fitted_ self
  /\ transformers (snd (fit X self))
     = snd (fit_loop pre X) ++ snd (fit_loop [(name, t)] X1) ++ post.
Proof.
  intros Hts Hpre Hraise. unfold fit, DF.copy. rewrite Hts.
  rewrite fit_loop_app.
  destruct (fit_loop pre X) as [[Y|e'] pre']; cbn [fst] in Hpre;
    [injection Hpre as -> | discriminate].
  change ((name, t) :: post) with ([(name, t)] ++ post).
  rewrite fit_loop_app.
  destruct (fit_loop [(name, t)] X1) as [[Y|e'] s]; cbn [fst] in Hraise;
    [discriminate | injection Hraise as ->].
  cbn [fst snd nc_is_fitted_ transformers]. auto.
Qed.

Lemma fit_stops_at_failing_stage_witness :
  fst (fit NBADataCleanerSpec.raw_minutes
         (init sqrt_unused NBADataCleanerSpec.stage_off
               NBADataCleanerSpec.stage_off NBADataCleanerSpec.stage_off
               default_config false false true true false false true))
  = Raise (TypeError "column is not float64")
  /\ nc_is_fitted_
       (snd (fit NBADataCleanerSpec.raw_minutes
               (init sqrt_unused NBADataCleanerSpec.stage_off
                     NBADataCleanerSpec.stage_off NBADataCleanerSpec.stage_off
                     default_config false false true true false false true)))
     = false.
Proof.
  destruct (fit_stops_at_failing_stage
              (init sqrt_unused NBADataCleanerSpec.stage_off
                    NBADataCleanerSpec.stage_off NBADataCleanerSpec.stage_off
                    default_config false false true true false false true)
              NBADataCleanerSpec.raw_minutes NBADataCleanerSpec.raw_minutes
              []
              [("outlier_detection"%string,
                outlier_stage sqrt_unused
                  (OutlierDetector.init default_config true))]
              "validation"
              (base_stage DataValidator._transform_impl
                          (Base.init default_config true))
              (TypeError "column is not float64")
              eq_refl eq_refl eq_refl) as (H1 & H2 & _).
  split; [exact H1 | exact H2].
Defined.

(** X23.  A pipeline built by [__init__] and fitted keeps its stages
    through [transform]: the call returns a table, writes the report of
    that call and nothing else, so the same call again returns the same
    table. *)
Theorem transform_is_repeatable
        (sqrt : Q -> Q)
        (i1 i2 i3 : BaseNBATransformer -> DataFrame -> Res DataFrame)
        (cfg : CleaningConfig) (f1 f2 f3 f4 f5 f6 verb : bool)
        (A X : DataFrame) (fitted : NBADataCleaner) :
  fit A (init sqrt i1 i2 i3 cfg f1 f2 f3 f4 f5 f6 verb) = (Ok tt, fitted) ->
  exists X' fitted',
    transform X fitted = (Ok X', fitted')
    /\ transformers fitted' = transformers fitted
    /\ nc_config fitted' = cfg
    /\ nc_verbose fitted' = verb
    /\ nc_is_fitted_ fitted' = true
    /\ cleaning_report_ fitted'
       = Some (_generate_cleaning_report cfg X X')
    /\ fst (transform X fitted') = Ok X'.
Proof.
  intros Hfit.
  assert (Hfr := fit_loop_frame _ (DF.copy A)
                   (init_frame sqrt i1 i2 i3 cfg f1 f2 f3 f4 f5 f6 verb)).
  unfold fit in Hfit.
  destruct (fit_loop _ (DF.copy A)) as [[Y|e] ts]; [|discriminate].
  injection Hfit as <-. cbn [snd] in Hfr.
  unfold transform. cbn [nc_is_fitted_ negb transformers nc_config].
  assert (Hsame := transform_loop_frame ts (DF.copy X) Hfr).
  destruct (transform_loop ts (DF.copy X)) as [X' ts'] eqn:E.
  cbn [snd] in Hsame. subst ts'.
  eexists. eexists. split; [reflexivity|].
  cbn [transformers nc_is_fitted_ cleaning_report_ nc_config nc_verbose
       negb fst].
  repeat (split; [reflexivity|]).
  now rewrite E.
Qed.

Lemma transform_is_repeatable_witness :
  exists X' fitted',
    transform table_B NBADataCleanerSpec.two_stage_cleaner
    = (Ok X', fitted')
    /\ transformers fitted'
       = transformers NBADataCleanerSpec.two_stage_cleaner
    /\ fst (transform table_B fitted') = Ok X'.
Proof.
  destruct (transform_is_repeatable sqrt_unused NBADataCleanerSpec.stage_off
              NBADataCleanerSpec.stage_off NBADataCleanerSpec.stage_off
              default_config false false true true false false true
              table_A table_B NBADataCleanerSpec.two_stage_cleaner eq_refl)
    as (X' & fitted' & E & Hts & _ & _ & _ & _ & Hagain).
  now exists X', fitted'.
Defined.

(** X24.  The stages of a pipeline are fitted in a chain.  With the
    validation and outlier stages on, [fit] on a table of float columns
    succeeds, and the bounds the outlier stage stores are those of the
    table as the validation stage returns it, not those of the table that
    was passed in. *)
Theorem outlier_stage_fitted_on_validated_table
        (sqrt : Q -> Q)
        (i1 i2 i3 : BaseNBATransformer -> DataFrame -> Res DataFrame)
        (cfg : CleaningConfig) (verb : bool) (X : DataFrame) :
  float_typed X = true ->
  exists X1,
    DataValidator._transform_impl (Base.init cfg verb) X = Ok X1
    /\ fit X (init sqrt i1 i2 i3 cfg false false true true false false verb)
       = (Ok tt,
          {| nc_config := cfg;
             nc_verbose := verb;
             transformers :=
               [("validation"%string,
                 base_stage DataValidator._transform_impl
                            (BaseMore.fitted_on X (Base.init cfg verb)));
                ("outlier_detection"%string,
                 outlier_stage sqrt
                   {| od_base := BaseMore.fitted_on X1 (Base.init cfg verb);
                      outlier_bounds_ := bounds_from sqrt cfg X1 |})];
             nc_is_fitted_ := true;
             cleaning_report_ := None |}).
Proof.
  intros Ht.
  destruct (validator_trace (Base.init cfg verb) X Ht)
    as (X1 & E1 & Ht1 & _).
  exists X1. split; [exact E1|].
  pose proof (outlier_fit_run sqrt X1 (OutlierDetector.init cfg verb) Ht1
                eq_refl) as Hfit.
  change (fold_left
            (fit_entry sqrt (config (od_base (OutlierDetector.init cfg verb)))
                       X1)
            OutlierDetector.outlier_columns
            (outlier_bounds_ (OutlierDetector.init cfg verb)))
    with (fold_left (fit_entry sqrt cfg X1)
                    OutlierDetector.outlier_columns []) in Hfit.
  rewrite fit_entries_fresh in Hfit;
    [| apply outlier_columns_nodup | intros c _ []].
  cbn [app] in Hfit.
  match type of Hfit with _ = (_, ?s) => set (o := s) in * end.
  assert (Hwf : bounds_wf (outlier_bounds_ o)).
  { apply (fit_bounds_wf sqrt X1 (OutlierDetector.init cfg verb) o Ht1
             eq_refl); [apply init_bounds_wf | exact Hfit]. }
  destruct (transform_impl_run o X1 Hwf Ht1) as (X2 & E2 & _).
  unfold fit, DF.copy, init. cbn [transformers app fit_loop].
  rewrite call_fit_base by reflexivity.
  rewrite call_transform_base by reflexivity.
  change (DataValidator._transform_impl
            (BaseMore.fitted_on X (Base.init cfg verb)) X)
    with (DataValidator._transform_impl (Base.init cfg verb) X).
  rewrite E1, call_fit_outlier, Hfit. cbn [fst snd].
  rewrite call_transform_outlier by reflexivity.
  rewrite E2. reflexivity.
Qed.

(** Four games, one with 500 minutes on the sheet. *)
Definition long_game : DataFrame :=
  [("minutes_played"%string, floats_of [10; 20; 30; 500]%Z)].

Lemma outlier_stage_fitted_on_validated_table_witness :
  exists X1,
    DataValidator._transform_impl (Base.init default_config true) long_game
    = Ok X1
    /\ DF.get X1 "minutes_played"
       = Some (Floats [Some 10; Some 20; Some 30; Some 60])
    /\ exists fitted,
        fit long_game
            (init sqrt_unused NBADataCleanerSpec.stage_off
                  NBADataCleanerSpec.stage_off NBADataCleanerSpec.stage_off
                  default_config false false true true false false true)
        = (Ok tt, fitted).
Proof.
  destruct (outlier_stage_fitted_on_validated_table sqrt_unused
              NBADataCleanerSpec.stage_off NBADataCleanerSpec.stage_off
              NBADataCleanerSpec.stage_off default_config true long_game
              eq_refl) as (X1 & E1 & Hfit).
  exists X1. split; [exact E1|]. split.
  - assert (E := E1). vm_compute in E. injection E as <-. reflexivity.
  - eexists. exact Hfit.
Defined.

(** X25.  The report agrees with itself on columns: when no table has a
    column name twice, [columns_added] is the number of [new_columns]
    less the number of [removed_columns]. *)
Theorem report_column_counts (cfg : CleaningConfig)
        (X_original X_cleaned : DataFrame) :
  NoDup (DF.columns X_original) -> NoDup (DF.columns X_cleaned) ->
  columns_added (_generate_cleaning_report cfg X_original X_cleaned)
  = (Z.of_nat (List.length
                 (new_columns
                    (_generate_cleaning_report cfg X_original X_cleaned)))
     - Z.of_nat (List.length
                   (removed_columns
                      (_generate_cleaning_report cfg X_original
                                                 X_cleaned))))%Z.
Proof.
  intros H0 H1. cbn [_generate_cleaning_report columns_added new_columns
                       removed_columns].
  set (a := DF.columns X_original) in *. set (b := DF.columns X_cleaned) in *.
  assert (Ha := filter_length (fun c => in_list c b) a).
  assert (Hb := filter_length (fun c => in_list c a) b).
  assert (Hs := shared_columns a b H0 H1).
  cbv beta in Ha, Hb. lia.
Qed.

Lemma report_column_counts_witness :
  columns_added
    (_generate_cleaning_report default_config table_B
       [("pts"%string, floats_of [1; 2]%Z);
        ("pts_outlier_flag"%string, Bools [false; false])])
  = 1%Z.
Proof.
  rewrite (report_column_counts default_config table_B
             [("pts"%string, floats_of [1; 2]%Z);
              ("pts_outlier_flag"%string, Bools [false; false])]).
  - reflexivity.
  - repeat constructor. simpl. tauto.
  - repeat constructor; simpl; intuition discriminate.
Defined.

End NBADataCleanerMore.

(** ** The two stages in the pipeline's order *)

Section CleanedRowsFacts.

Lemma length_loc_assign {A} (mask : list bool) (new old : list A) :
  List.length (DF.loc_assign mask new old) = List.length old.
Proof.
  revert mask new. induction old as [|o old IH]; intros [|m mask] [|n new];
    simpl; try reflexivity.
  now rewrite IH.
Qed.

Lemma length_clamp_made (made att : list cell) :
  List.length (clamp_made made att) = List.length made.
Proof.
  unfold clamp_made. destruct (DF.any _); [apply length_loc_assign|].
  reflexivity.
Qed.

Lemma nth_error_defined {A} (l l' : list A) (i : nat) (x : A) :
  List.length l = List.length l' -> nth_error l i = Some x ->
  exists y, nth_error l' i = Some y.
Proof.
  intros Hlen Hx.
  assert (Hi : (i < List.length l')%nat)
    by (rewrite <- Hlen; apply nth_error_Some; congruence).
  apply nth_error_Some in Hi.
  destruct (nth_error l' i) as [y|]; [now exists y | contradiction].
Qed.

Lemma Forall_nth_some (xs : list cell) (i : nat) (c : cell) :
  Forall (fun x => x <> None) xs -> nth_error xs i = Some c ->
  exists v, c = Some v.
Proof.
  intros H Hi. rewrite Forall_forall in H.
  specialize (H c (nth_error_In _ _ Hi)).
  destruct c as [v|]; [now exists v | contradiction].
Qed.

Import MissingValueHandler.

(** Imputation with the filling of counting stats on, on a table of float
    columns: the result has float columns, and no null in a counting
    stat. *)
Lemma imputation_no_nulls (self : BaseNBATransformer) (X : DataFrame) :
  float_typed X = true ->
  fill_counting_stats_with_zero (config self) = true ->
  exists X',
    _transform_impl self X = Ok X'
    /\ float_typed X' = true
    /\ forall c, In c counting_stats -> no_nulls c X'.
Proof.
  intros Ht Hfill. unfold _transform_impl, percentage_mappings.
  cbn [foldM].
  destruct (fill_percentage_spec X ("fg_pct", "fga", "fgm")%string Ht)
    as (X1 & E1 & W1); [simpl; tauto|].
  rewrite E1. cbn [res_bind].
  assert (Ht1 := writes_only_typed _ _ _ W1 Ht).
  destruct (fill_percentage_spec X1 ("fg3_pct", "fg3a", "fg3m")%string Ht1)
    as (X2 & E2 & W2); [simpl; tauto|].
  rewrite E2. cbn [res_bind].
  assert (Ht2 := writes_only_typed _ _ _ W2 Ht1).
  destruct (fill_percentage_spec X2 ("ft_pct", "fta", "ftm")%string Ht2)
    as (X3 & E3 & W3); [simpl; tauto|].
  rewrite E3. cbn [res_bind].
  assert (Ht3 := writes_only_typed _ _ _ W3 Ht2).
  rewrite Hfill.
  destruct (fill_counting_fold counting_stats X3 Ht3 counting_stats_numeric
              counting_stats_nodup) as (X4 & E4 & Ht4 & _ & _ & Hnn).
  rewrite E4. cbn [res_bind].
  destruct (fill_minutes_spec X4 Ht4) as (X5 & E5 & W5).
  exists X5. split; [exact E5|].
  split; [exact (writes_only_typed _ _ _ W5 Ht4)|].
  intros c Hin s Hs.
  rewrite (writes_only_get _ _ _ _ W5) in Hs.
  - exact (Hnn c Hin s Hs).
  - intros ->. revert Hin. simpl. intros H.
    repeat (destruct H as [H|H]; [discriminate|]). exact H.
Qed.

End CleanedRowsFacts.

Module CleanedRows.

(** X26.  In the order of the pipeline, missing values first and
    validation second, with the filling of counting stats and auto-fix on,
    the shot and rebound rules hold in every row of the result, not only in
    the rows without nulls: each made and attempted cell is a number with
    made at most attempted, and each total-rebounds cell is a number within
    0.1 of the sum of its two parts. *)
Theorem filled_then_validated (mv vd : BaseNBATransformer) (X : DataFrame) :
  float_typed X = true ->
  fill_counting_stats_with_zero (config mv) = true ->
  auto_fix_inconsistencies (config vd) = true ->
  exists X1 X2,
    MissingValueHandler._transform_impl mv X = Ok X1
    /\ DataValidator._transform_impl vd X1 = Ok X2
    /\ (forall made_col attempt_col made att i cm ca,
           In (made_col, attempt_col) DataValidator.shot_checks ->
           DF.get X2 made_col = Some (Floats made) ->
           DF.get X2 attempt_col = Some (Floats att) ->
           nth_error made i = Some cm -> nth_error att i = Some ca ->
           exists m a, cm = Some m /\ ca = Some a /\ m <= a)
    /\ (forall reb oreb dreb i cr co cd,
           DF.get X2 "reb" = Some (Floats reb) ->
           DF.get X2 "oreb" = Some (Floats oreb) ->
           DF.get X2 "dreb" = Some (Floats dreb) ->
           nth_error reb i = Some cr -> nth_error oreb i = Some co ->
           nth_error dreb i = Some cd ->
           exists r o d, cr = Some r /\ co = Some o /\ cd = Some d
                         /\ Qabs (r - (o + d)) <= DataValidator.tolerance).
Proof.
  intros Ht Hfill Hfix.
  destruct (imputation_no_nulls mv X Ht Hfill) as (X1 & E1 & Ht1 & Hnn).
  destruct (validator_run vd X1 Ht1 Hfix)
    as (X2 & E2 & Hhas & Hshots & Ho & Hd & Hreb).
  exists X1, X2. split; [exact E1|]. split; [exact E2|].
  assert (Hcol : forall c xs,
             In c MissingValueHandler.counting_stats ->
             DF.get X1 c = Some (Floats xs) ->
             Forall (fun x => x <> None) xs).
  { intros c xs Hin Hg. destruct (Hnn c Hin _ Hg) as (ys & [= <-] & H).
    exact H. }
  split.
  - intros made_col attempt_col made att i cm ca Hin Hm Ha Hmi Hai.
    assert (Hcols : In made_col MissingValueHandler.counting_stats
                    /\ In attempt_col MissingValueHandler.counting_stats).
    { simpl in Hin.
      destruct Hin as [[= <- <-]|[[= <- <-]|[[= <- <-]|[]]]];
        split; simpl; tauto. }
    destruct Hcols as [Hc1 Hc2].
    destruct (typed_back X1 X2 made_col _ Ht1 Hhas
                (counting_stats_numeric _ Hc1) Hm) as [made1 Hm1].
    destruct (typed_back X1 X2 attempt_col _ Ht1 Hhas
                (counting_stats_numeric _ Hc2) Ha) as [att1 Ha1].
    destruct (Hshots _ _ _ _ Hin Hm1 Ha1) as [Hm' Ha'].
    rewrite Hm in Hm'. rewrite Ha in Ha'.
    injection Hm' as ->. injection Ha' as ->.
    destruct (Forall_nth_some _ _ _ (Hcol _ _ Hc2 Ha1) Hai) as [a ->].
    destruct (nth_error_defined _ made1 i cm (length_clamp_made made1 att1)
                Hmi) as [m0 Hm0].
    destruct (Forall_nth_some _ _ _ (Hcol _ _ Hc1 Hm1) Hm0) as [m1 ->].
    rewrite (clamp_made_nth made1 att1 i _ _ Hm0 Hai) in Hmi.
    injection Hmi as <-. cbn [Cell.gt].
    destruct (Qltb a m1) eqn:E.
    + exists a, a. repeat split. apply Qle_refl.
    + exists m1, a. repeat split. now apply Qltb_ge.
  - intros reb oreb dreb i cr co cd Hr Hor Hdr Hri Hoi Hdi.
    assert (Hn : In "reb"%string numeric_columns) by (simpl; tauto).
    destruct (typed_back X1 X2 _ _ Ht1 Hhas Hn Hr) as [reb1 Hr1].
    rewrite Ho in Hor. rewrite Hd in Hdr.
    rewrite (Hreb _ _ _ Hr1 Hor Hdr) in Hr. injection Hr as <-.
    destruct (Forall_nth_some _ _ _
                (Hcol "oreb"%string _ ltac:(simpl; tauto) Hor) Hoi)
      as [o ->].
    destruct (Forall_nth_some _ _ _
                (Hcol "dreb"%string _ ltac:(simpl; tauto) Hdr) Hdi)
      as [d ->].
    assert (Hcr : exists r, cr = Some r).
    { unfold fix_reb in Hri.
      destruct (DF.any _) in Hri.
      - rewrite (nth_map2 Cell.add _ _ i _ _ Hoi Hdi) in Hri.
        injection Hri as <-. now eexists.
      - exact (Forall_nth_some _ _ _
                 (Hcol "reb"%string _ ltac:(simpl; tauto) Hr1) Hri). }
    destruct Hcr as [r ->]. exists r, o, d. repeat split.
    exact (fix_reb_rows _ _ _ _ _ _ _ Hri Hoi Hdi).
Qed.

Lemma filled_then_validated_witness :
  exists X1 X2,
    MissingValueHandler._transform_impl (Base.init default_config true)
      DataValidatorSpec.null_attempts = Ok X1
    /\ DataValidator._transform_impl (Base.init default_config true) X1
       = Ok X2
    /\ DF.get X2 "fgm" = Some (Floats [Some 0])
    /\ DF.get X2 "fga" = Some (Floats [Some 0]).
Proof.
  destruct (filled_then_validated (Base.init default_config true)
              (Base.init default_config true)
              DataValidatorSpec.null_attempts eq_refl eq_refl eq_refl)
    as (X1 & X2 & E1 & E2 & _).
  exists X1, X2. split; [exact E1|]. split; [exact E2|].
  assert (E := E1). vm_compute in E. injection E as <-.
  assert (E := E2). vm_compute in E. injection E as <-.
  split; reflexivity.
Defined.

End CleanedRows.

(** ** NBADataCleaner: fit and transform in one call *)

Section FitThenTransform.
Import NBADataCleaner.

(** After a fit that went through, the loop of [transform] on the same
    table meets no exception and ends on the table the loop of [fit] ended
    on. *)
Lemma fit_then_transform_loop (ts ts' : list (string * Transformer))
      (X Y : DataFrame) :
  frame_stages ts ->
  fit_loop ts X = (Ok Y, ts') ->
  transform_loop ts' X = (Y, ts').
Proof.
  unfold frame_stages. revert ts' X.
  induction ts as [|[name t] ts IH]; intros ts' X H E.
  - cbn in E. injection E as <- <-. reflexivity.
  - inversion H as [|? ? Ht Hts]; subst. cbn [snd] in Ht.
    cbn [fit_loop] in E.
    assert (H1 := call_fit_frame t X Ht).
    destruct (call_fit t X) as [[u|e] t1]; cbn [snd] in H1; [|discriminate].
    assert (H2 := call_transform_frame t1 X H1).
    destruct (call_transform t1 X) as [[X'|e] t2] eqn:E2; cbn [snd] in H2;
      subst t2; [|discriminate].
    destruct (fit_loop ts X') as [r rest'] eqn:E3.
    injection E as -> <-.
    cbn [transform_loop]. rewrite E2.
    now rewrite (IH rest' X' Hts E3).
Qed.

End FitThenTransform.

Module FitTransform.
Import NBADataCleaner.

(** X27.  [fit_transform] on a pipeline built by [__init__]: when no
    stage raises while the pipeline is fitted, [transform] on the same
    table skips no stage, and the table returned is the one the chain of
    [fit] ended on; the pipeline is marked fitted and holds the report of
    the call. *)
Theorem fit_transform_skips_no_stage
        (sqrt : Q -> Q)
        (i1 i2 i3 : BaseNBATransformer -> DataFrame -> Res DataFrame)
        (cfg : CleaningConfig) (f1 f2 f3 f4 f5 f6 verb : bool)
        (X Y : DataFrame) (ts : list (string * Transformer)) :
  fit_loop (transformers (init sqrt i1 i2 i3 cfg f1 f2 f3 f4 f5 f6 verb)) X
  = (Ok Y, ts) ->
  NBADataCleanerMore.fit_transform X
    (init sqrt i1 i2 i3 cfg f1 f2 f3 f4 f5 f6 verb)
  = (Ok Y,
     {| nc_config := cfg;
        nc_verbose := verb;
        transformers := ts;
        nc_is_fitted_ := true;
        cleaning_report_ := Some (_generate_cleaning_report cfg X Y) |}).
Proof.
  intros E.
  assert (Hloop := fit_then_transform_loop _ ts X Y
                     (init_frame sqrt i1 i2 i3 cfg f1 f2 f3 f4 f5 f6 verb) E).
  unfold NBADataCleanerMore.fit_transform, mbind, fit, DF.copy.
  rewrite E. unfold transform, DF.copy.
  cbn [nc_is_fitted_ negb transformers nc_config nc_verbose].
  now rewrite Hloop.
Qed.

Lemma fit_transform_skips_no_stage_witness :
  fst (NBADataCleanerMore.fit_transform NBADataCleanerMore.long_game
         (init sqrt_unused NBADataCleanerSpec.stage_off
               NBADataCleanerSpec.stage_off NBADataCleanerSpec.stage_off
               default_config false false true true false false true))
  = Ok [("minutes_played"%string,
         Floats [Some 10; Some 20; Some 30; Some 60]);
        ("minutes_played_outlier_flag"%string,
         Bools [false; false; false; false])].
Proof.
  erewrite (fit_transform_skips_no_stage sqrt_unused
              NBADataCleanerSpec.stage_off NBADataCleanerSpec.stage_off
              NBADataCleanerSpec.stage_off default_config
              false false true true false false true
              NBADataCleanerMore.long_game);
    [|reflexivity].
  reflexivity.
Defined.

End FitTransform.
